(** * hw_python_oop: the fitness-tracker training calculator

    A shallow embedding of [homework.py]: the [InfoMessage] data class, the
    [Training] base class with its validated properties, the three
    subclasses [Running], [SportsWalking] and [Swimming], and the
    [read_package] dispatcher.

    Python [float] is IEEE-754 binary64.  It is modelled by the Standard
    Library's executable specification of binary floating point
    ([spec_float] with [prec = 53] and [emax = 1024]); Python [int] is
    unbounded and is modelled by [Z].  Exceptions are explicit results. *)

From Stdlib Require Import ZArith QArith Qabs Bool List String Ascii Lia.
From Stdlib Require Import SpecFloat.
Import ListNotations.

Local Open Scope string_scope.
Local Open Scope Z_scope.

(** ** Exceptions and the result monad *)

(** The exceptions the module can raise.  [ArityError] is the [TypeError]
    that the call machinery raises when [*data] does not match the
    constructor's signature; it carries no message of the module's own.
    [ValueError] is what [str.format] raises on a format code that the
    value's type does not know. *)
Inductive exn : Type :=
| TypeError (msg : string)
| ArityError
| KeyError (msg : string)
| ZeroDivisionError
| OverflowError
| ValueError
| AttributeError.

Inductive result (A : Type) : Type :=
| Ok (a : A)
| Raise (e : exn).
Arguments Ok {A} a.
Arguments Raise {A} e.

Definition bind {A B : Type} (r : result A) (k : A -> result B) : result B :=
  match r with
  | Ok a => k a
  | Raise e => Raise e
  end.

Notation "x <- r ;; k" := (bind r (fun x => k))
  (at level 61, r at next level, right associativity).

(** ** Binary64 arithmetic as Python exposes it *)

Definition float : Type := spec_float.

Definition prec : Z := 53.
Definition emax : Z := 1024.

Definition fmul : float -> float -> float := SFmul prec emax.
Definition fadd : float -> float -> float := SFadd prec emax.
Definition fdiv : float -> float -> float := SFdiv prec emax.
Definition fltb : float -> float -> bool := SFltb.
Definition fleb : float -> float -> bool := SFleb.
Definition feqb : float -> float -> bool := SFeqb.

Definition is_zero (x : float) : bool :=
  match x with
  | S754_zero _ => true
  | _ => false
  end.

Definition is_finite (x : float) : bool :=
  match x with
  | S754_zero _ | S754_finite _ _ _ => true
  | _ => false
  end.

(** [float(n)] for an [int]: the nearest binary64, ties to even;
    [OverflowError] when the rounded value is out of range. *)
Definition float_of_int (n : Z) : result float :=
  match binary_normalize prec emax n 0 false with
  | S754_infinity _ => Raise OverflowError
  | x => Ok x
  end.

(** A decimal literal [n / 10^k] of the source text, correctly rounded.
    Used with [n < 2^53] and [k <= 22], where numerator and denominator are
    exact and the rounded quotient is the nearest binary64. *)
Definition literal (n : Z) (k : Z) : float :=
  fdiv (binary_normalize prec emax n 0 false)
       (binary_normalize prec emax (10 ^ k) 0 false).

(** [x * y] and [x + y] on floats never raise: overflow gives an infinity. *)
Definition float_mul (x y : float) : result float := Ok (fmul x y).
Definition float_add (x y : float) : result float := Ok (fadd x y).

(** [x / y] on floats raises on a zero divisor of either sign. *)
Definition float_div (x y : float) : result float :=
  if is_zero y then Raise ZeroDivisionError else Ok (fdiv x y).

(** Mixed arithmetic converts the [int] operand first. *)
Definition int_mul_float (n : Z) (x : float) : result float :=
  y <- float_of_int n ;; float_mul y x.
Definition float_mul_int (x : float) (n : Z) : result float :=
  y <- float_of_int n ;; float_mul x y.
Definition float_div_int (x : float) (n : Z) : result float :=
  y <- float_of_int n ;; float_div x y.

(** The exact rational value of a finite float (0 for the others). *)
Definition float_to_Q (x : float) : Q :=
  match x with
  | S754_finite s m e =>
      let v := (inject_Z (Zpos m) * Qpower 2 e)%Q in
      if s then Qopp v else v
  | _ => 0%Q
  end.

(** [x] is a finite float within [tol] of the rational [target]. *)
Definition within (tol target : Q) (x : float) : bool :=
  is_finite x && Qle_bool (Qabs (float_to_Q x - target)) tol.

(** ** Python values *)

Inductive value : Type :=
| VInt (n : Z)
| VFloat (x : float)
| VBool (b : bool)
| VStr (s : string)
| VNone.

(** ** The classes *)

Inductive class : Type := cTraining | cRunning | cSportsWalking | cSwimming.

Definition __name__ (c : class) : string :=
  match c with
  | cTraining => "Training"
  | cRunning => "Running"
  | cSportsWalking => "SportsWalking"
  | cSwimming => "Swimming"
  end.

(** An instance: its class and the private attributes the setters store.
    The attributes are name-mangled ([__action] and so on), so the setters
    are their only writers and the stored values have the validated types. *)
Inductive Training : Type :=
| TrainingObj (action : Z) (duration weight : float)
| Running (action : Z) (duration weight : float)
| SportsWalking (action : Z) (duration weight height : float)
| Swimming (action : Z) (duration weight length_pool : float) (count_pool : Z).

Definition __class__ (self : Training) : class :=
  match self with
  | TrainingObj _ _ _ => cTraining
  | Running _ _ _ => cRunning
  | SportsWalking _ _ _ _ => cSportsWalking
  | Swimming _ _ _ _ _ => cSwimming
  end.

Definition action (self : Training) : Z :=
  match self with
  | TrainingObj a _ _ | Running a _ _ | SportsWalking a _ _ _
  | Swimming a _ _ _ _ => a
  end.

Definition duration (self : Training) : float :=
  match self with
  | TrainingObj _ d _ | Running _ d _ | SportsWalking _ d _ _
  | Swimming _ d _ _ _ => d
  end.

Definition weight (self : Training) : float :=
  match self with
  | TrainingObj _ _ w | Running _ _ w | SportsWalking _ _ w _
  | Swimming _ _ w _ _ => w
  end.

(** Class attributes, looked up through the instance's class. *)
Definition LEN_STEP (c : class) : float :=
  match c with
  | cSwimming => literal 138 2
  | _ => literal 65 2
  end.
Definition M_IN_KM : Z := 1000.
Definition MIN_IN_H : Z := 60.

Definition Running_CALORIES_MEAN_SPEED_MULTIPLIER : Z := 18.
Definition Running_CALORIES_MEAN_SPEED_SHIFT : float := literal 179 2.

Definition SportsWalking_CALORIES_WEIGHT_MULTIPLIER : float := literal 35 3.
Definition SportsWalking_CALORIES_SPEED_HEIGHT_MULTIPLIER : float := literal 29 3.
Definition SportsWalking_KMH_IN_MSEC : float := literal 278 3.
Definition SportsWalking_CM_IN_M : Z := 100.

Definition Swimming_CALORIES_WEIGHT_MULTIPLIER : Z := 2.
Definition Swimming_CALORIES_MEAN_SPEED_SHIFT : float := literal 11 1.

(** ** Validators

    [type(v) is not int or v < 0]: the comparison is reached only for an
    [int]; [bool] is a different type and is refused.  A validator of the
    source returns nothing; here it returns the accepted value at its
    validated type, which is what the setter then stores. *)
Definition msg_action : string := "Кол-во шагов должно быть типа int и больше 0".
Definition msg_duration : string :=
  "Длительность тренировки должна быть типа float и больше 0".
Definition msg_weight : string := "Вес должен быть типа float и больше 0".
Definition msg_height : string := "Рост должен быть типа float и больше 0".
Definition msg_length_pool : string :=
  "Длина бассейна должна быть типа float и больше 0".
Definition msg_count_pool : string :=
  "Число заплывов должно быть типа int и больше 0".

Definition float_zero : float := S754_zero false.

Definition verify_int (msg : string) (v : value) : result Z :=
  match v with
  | VInt n => if n <? 0 then Raise (TypeError msg) else Ok n
  | _ => Raise (TypeError msg)
  end.

Definition verify_float (msg : string) (v : value) : result float :=
  match v with
  | VFloat x => if fltb x float_zero then Raise (TypeError msg) else Ok x
  | _ => Raise (TypeError msg)
  end.

Definition verify_action : value -> result Z := verify_int msg_action.
Definition verify_duration : value -> result float := verify_float msg_duration.
Definition verify_weight : value -> result float := verify_float msg_weight.
Definition verify_height : value -> result float := verify_float msg_height.
Definition verify_length_pool : value -> result float :=
  verify_float msg_length_pool.
Definition verify_count_pool : value -> result Z := verify_int msg_count_pool.

(** ** Properties and constructors

    Every assignment goes through the property setter, which runs the
    validator and stores the value. *)

Definition set_action (v : value) (self : Training) : result Training :=
  a <- verify_action v ;;
  Ok match self with
     | TrainingObj _ d w => TrainingObj a d w
     | Running _ d w => Running a d w
     | SportsWalking _ d w h => SportsWalking a d w h
     | Swimming _ d w l c => Swimming a d w l c
     end.

Definition set_duration (v : value) (self : Training) : result Training :=
  d <- verify_duration v ;;
  Ok match self with
     | TrainingObj a _ w => TrainingObj a d w
     | Running a _ w => Running a d w
     | SportsWalking a _ w h => SportsWalking a d w h
     | Swimming a _ w l c => Swimming a d w l c
     end.

Definition set_weight (v : value) (self : Training) : result Training :=
  w <- verify_weight v ;;
  Ok match self with
     | TrainingObj a d _ => TrainingObj a d w
     | Running a d _ => Running a d w
     | SportsWalking a d _ h => SportsWalking a d w h
     | Swimming a d _ l c => Swimming a d w l c
     end.

(** The three setters below are properties of one subclass only. *)
Definition set_height (v : value) (self : Training) : result Training :=
  match self with
  | SportsWalking a d w _ => h <- verify_height v ;; Ok (SportsWalking a d w h)
  | _ => Ok self
  end.

Definition set_length_pool (v : value) (self : Training) : result Training :=
  match self with
  | Swimming a d w _ c => l <- verify_length_pool v ;; Ok (Swimming a d w l c)
  | _ => Ok self
  end.

Definition set_count_pool (v : value) (self : Training) : result Training :=
  match self with
  | Swimming a d w l _ => c <- verify_count_pool v ;; Ok (Swimming a d w l c)
  | _ => Ok self
  end.

(** [Training.__init__]: three assignments, in this order.  [mk] builds the
    instance of the class being constructed. *)
Definition Training_init (mk : Z -> float -> float -> Training)
    (action duration weight : value) : result Training :=
  a <- verify_action action ;;
  d <- verify_duration duration ;;
  w <- verify_weight weight ;;
  Ok (mk a d w).

Definition Running_init (action duration weight : value) : result Training :=
  Training_init Running action duration weight.

(** The subclass attributes do not exist before their first assignment;
    the zeros below only fill the constructor until the setter stores the
    validated value, and no instance is returned in between. *)
Definition SportsWalking_init (action duration weight height : value)
  : result Training :=
  self <- Training_init (fun a d w => SportsWalking a d w float_zero)
            action duration weight ;;
  set_height height self.

Definition Swimming_init (action duration weight length_pool count_pool : value)
  : result Training :=
  self <- Training_init (fun a d w => Swimming a d w float_zero 0)
            action duration weight ;;
  self <- set_length_pool length_pool self ;;
  set_count_pool count_pool self.

(** Calling a class with [*data]: the list must have the signature's length. *)
Definition new (c : class) (data : list value) : result Training :=
  match c, data with
  | cTraining, [a; d; w] => Training_init TrainingObj a d w
  | cRunning, [a; d; w] => Running_init a d w
  | cSportsWalking, [a; d; w; h] => SportsWalking_init a d w h
  | cSwimming, [a; d; w; l; c] => Swimming_init a d w l c
  | _, _ => Raise ArityError
  end.

(** ** Formatting with [.3f] *)

Definition digit (n : Z) : ascii := ascii_of_nat (48 + Z.to_nat n).

(** The decimal digits of a non-negative integer, most significant first. *)
Fixpoint digits_fuel (fuel : nat) (n : Z) (acc : string) : string :=
  match fuel with
  | O => acc
  | S fuel' =>
      let acc' := String (digit (n mod 10)) acc in
      if n / 10 =? 0 then acc' else digits_fuel fuel' (n / 10) acc'
  end.

Definition decimal (n : Z) : string :=
  digits_fuel (S (Z.to_nat (Z.log2 n))) n "".

(** The integer nearest to [m * 2^e], ties to the even one. *)
Definition round_half_even (m : Z) (e : Z) : Z :=
  match e with
  | Zneg p =>
      let d := 2 ^ Zpos p in
      let q := m / d in
      let r := m mod d in
      match 2 * r ?= d with
      | Lt => q
      | Gt => q + 1
      | Eq => if Z.even q then q else q + 1
      end
  | _ => m * 2 ^ e
  end.

(** [n] thousandths written with three decimals. *)
Definition thousandths (n : Z) : string :=
  decimal (n / 1000) ++ "."
    ++ String (digit (n mod 1000 / 100))
         (String (digit (n mod 100 / 10))
            (String (digit (n mod 10)) "")).

(** [format(x, '.3f')] for a float: the sign, then the exact binary value
    rounded to the nearest thousandth. *)
Definition format_float_3f (x : float) : string :=
  match x with
  | S754_nan => "nan"
  | S754_infinity s => if s then "-inf" else "inf"
  | S754_zero s => (if s then "-" else "") ++ "0.000"
  | S754_finite s m e =>
      (if s then "-" else "") ++ thousandths (round_half_even (Zpos m * 1000) e)
  end.

Definition msg_format_none : string :=
  "unsupported format string passed to NoneType.__format__".

(** [format(v, '.3f')] for any value: [int] and [bool] are converted to
    [float] first, [str] does not know the code, [None] takes no format
    string at all. *)
Definition format_3f (v : value) : result string :=
  match v with
  | VFloat x => Ok (format_float_3f x)
  | VInt n => x <- float_of_int n ;; Ok (format_float_3f x)
  | VBool b => x <- float_of_int (if b then 1 else 0) ;; Ok (format_float_3f x)
  | VStr _ => Raise ValueError
  | VNone => Raise (TypeError msg_format_none)
  end.

(** ** InfoMessage *)

Module InfoMessage.

Record t : Type := Build {
  training_type : string;
  duration : value;
  distance : value;
  speed : value;
  calories : value
}.

Definition get_message (self : t) : result string :=
  d <- format_3f (duration self) ;;
  s <- format_3f (distance self) ;;
  v <- format_3f (speed self) ;;
  c <- format_3f (calories self) ;;
  Ok ("Тип тренировки: " ++ training_type self ++ "; "
      ++ "Длительность: " ++ d ++ " ч.; "
      ++ "Дистанция: " ++ s ++ " км; "
      ++ "Ср. скорость: " ++ v ++ " км/ч; "
      ++ "Потрачено ккал: " ++ c ++ ".").

End InfoMessage.

(** ** The power function of the platform

    [x ** 2] on a float: CPython converts the exponent to 2.0, answers the
    special values itself and otherwise calls C's [pow], raising
    [OverflowError] when a finite base gives an infinite result.  C's [pow]
    is not correctly rounded and differs between platforms, so its value is
    not computed here: the program is modelled over an arbitrary [libm_pow],
    and what is proved of it holds on every platform. *)

Definition f2_0 : float := literal 20 1.

(** A [pow] that rounds the square correctly, for the closed examples. *)
Definition pow_rounded_square (x y : float) : float := fmul x x.

Section Platform.

Variable libm_pow : float -> float -> float.

(** A proof depends on the platform only where its statement does. *)
Set Default Proof Using "Type".

(** [tauto] generalises the whole context; this keeps the platform out of
    the proofs that do not mention it. *)
Ltac tauto_closed := try clear libm_pow; tauto.

Definition float_pow2 (x : float) : result float :=
  match x with
  | S754_nan => Ok S754_nan
  | S754_infinity _ => Ok (S754_infinity false)
  | S754_zero _ => Ok (S754_zero false)
  | S754_finite _ _ _ =>
      match libm_pow x f2_0 with
      | S754_infinity _ => Raise OverflowError
      | y => Ok y
      end
  end.

(** ** Methods *)

Inductive method : Type :=
| m_get_distance | m_get_mean_speed | m_get_spent_calories
| m_show_training_info.

(** Which class body contains a [def] of which method. *)
Definition defines (c : class) (m : method) : bool :=
  match c, m with
  | cTraining, _ => true
  | cRunning, m_get_spent_calories => true
  | cSportsWalking, m_get_spent_calories => true
  | cSwimming, m_get_mean_speed => true
  | cSwimming, m_get_spent_calories => true
  | _, _ => false
  end.

(** Method resolution order: the class, then its base. *)
Definition mro (c : class) : list class :=
  match c with
  | cTraining => [cTraining]
  | _ => [c; cTraining]
  end.

Definition resolve (c : class) (m : method) : option class :=
  find (fun k => defines k m) (mro c).

Definition Training_get_distance (self : Training) : result float :=
  x <- int_mul_float (action self) (LEN_STEP (__class__ self)) ;;
  float_div_int x M_IN_KM.

Definition Training_get_mean_speed (self : Training) : result float :=
  x <- int_mul_float (action self) (LEN_STEP (__class__ self)) ;;
  y <- float_div_int x M_IN_KM ;;
  float_div y (duration self).

(** The body is [pass]: the call returns [None]. *)
Definition Training_get_spent_calories (self : Training) : result value :=
  Ok VNone.

Definition Running_get_spent_calories (self : Training) : result value :=
  mean_speed <- Training_get_mean_speed self ;;
  t <- int_mul_float Running_CALORIES_MEAN_SPEED_MULTIPLIER mean_speed ;;
  t <- float_add t Running_CALORIES_MEAN_SPEED_SHIFT ;;
  t <- float_mul t (weight self) ;;
  t <- float_div_int t M_IN_KM ;;
  t <- float_mul t (duration self) ;;
  t <- float_mul_int t MIN_IN_H ;;
  Ok (VFloat t).

Definition height (self : Training) : result float :=
  match self with
  | SportsWalking _ _ _ h => Ok h
  | _ => Raise AttributeError
  end.

Definition length_pool (self : Training) : result float :=
  match self with
  | Swimming _ _ _ l _ => Ok l
  | _ => Raise AttributeError
  end.

Definition count_pool (self : Training) : result Z :=
  match self with
  | Swimming _ _ _ _ c => Ok c
  | _ => Raise AttributeError
  end.

Definition SportsWalking_get_spent_calories (self : Training) : result value :=
  a <- float_mul SportsWalking_CALORIES_WEIGHT_MULTIPLIER (weight self) ;;
  mean_speed <- Training_get_mean_speed self ;;
  v <- float_mul mean_speed SportsWalking_KMH_IN_MSEC ;;
  v2 <- float_pow2 v ;;
  h <- height self ;;
  hm <- float_div_int h SportsWalking_CM_IN_M ;;
  b <- float_div v2 hm ;;
  b <- float_mul b SportsWalking_CALORIES_SPEED_HEIGHT_MULTIPLIER ;;
  b <- float_mul b (weight self) ;;
  t <- float_add a b ;;
  t <- float_mul t (duration self) ;;
  t <- float_mul_int t MIN_IN_H ;;
  Ok (VFloat t).

Definition Swimming_get_mean_speed (self : Training) : result float :=
  l <- length_pool self ;;
  c <- count_pool self ;;
  t <- float_mul_int l c ;;
  t <- float_div_int t M_IN_KM ;;
  float_div t (duration self).

(** Virtual calls [self.m()], through the method resolution order. *)
Definition get_distance (self : Training) : result float :=
  Training_get_distance self.

Definition get_mean_speed (self : Training) : result float :=
  match resolve (__class__ self) m_get_mean_speed with
  | Some cSwimming => Swimming_get_mean_speed self
  | _ => Training_get_mean_speed self
  end.

Definition Swimming_get_spent_calories (self : Training) : result value :=
  mean_speed <- get_mean_speed self ;;
  t <- float_add mean_speed Swimming_CALORIES_MEAN_SPEED_SHIFT ;;
  t <- float_mul_int t Swimming_CALORIES_WEIGHT_MULTIPLIER ;;
  t <- float_mul t (weight self) ;;
  t <- float_mul t (duration self) ;;
  Ok (VFloat t).

Definition get_spent_calories (self : Training) : result value :=
  match resolve (__class__ self) m_get_spent_calories with
  | Some cRunning => Running_get_spent_calories self
  | Some cSportsWalking => SportsWalking_get_spent_calories self
  | Some cSwimming => Swimming_get_spent_calories self
  | _ => Training_get_spent_calories self
  end.

Definition show_training_info (self : Training) : result InfoMessage.t :=
  dist <- get_distance self ;;
  speed <- get_mean_speed self ;;
  cal <- get_spent_calories self ;;
  Ok (InfoMessage.Build (__name__ (__class__ self)) (VFloat (duration self))
        (VFloat dist) (VFloat speed) cal).

(** ** read_package and main *)

Definition msg_unexpected : string := "Пришел неожиданный тип тренировки".

Definition dict_for_classes : list (string * class) :=
  [("RUN", cRunning); ("SWM", cSwimming); ("WLK", cSportsWalking)].

Fixpoint lookup (key : string) (d : list (string * class)) : option class :=
  match d with
  | [] => None
  | (k, c) :: d' => if String.eqb key k then Some c else lookup key d'
  end.

Definition read_package (workout_type : string) (data : list value)
  : result Training :=
  match lookup workout_type dict_for_classes with
  | None => Raise (KeyError msg_unexpected)
  | Some c => new c data
  end.

(** [main] prints the message; the printed line is the result. *)
Definition main (training : Training) : result string :=
  info <- show_training_info training ;;
  InfoMessage.get_message info.

(** ** The packages of the script *)

Definition f1_0 : float := literal 10 1.
Definition f75_0 : float := literal 750 1.
Definition f80_0 : float := literal 800 1.
Definition f25_0 : float := literal 250 1.
Definition f180_0 : float := literal 1800 1.

Definition package_SWM : list value :=
  [VInt 720; VFloat f1_0; VFloat f80_0; VFloat f25_0; VInt 40].
Definition package_RUN : list value := [VInt 15000; VFloat f1_0; VFloat f75_0].
Definition package_WLK : list value :=
  [VInt 9000; VFloat f1_0; VFloat f75_0; VFloat f180_0].

Definition run_main (code : string) (data : list value) : result string :=
  t <- read_package code data ;; main t.

(** ** The formulas as the specification words them

    Written over the same arithmetic as the program, so that an equation
    between a method and its formula also covers the exceptional outcomes.
    The square of the walking formula is Python's [x ** 2], that is the
    platform's [pow], as in the program. *)

(** (speed_coefficient * mean_speed + speed_shift) * weight_kg
    / meters_per_km * duration_hours * minutes_per_hour *)
Definition spec_running_calories (mean_speed weight_kg duration_hours : float)
  : result float :=
  t <- int_mul_float 18 mean_speed ;;
  t <- float_add t (literal 179 2) ;;
  t <- float_mul t weight_kg ;;
  t <- float_div_int t 1000 ;;
  t <- float_mul t duration_hours ;;
  float_mul_int t 60.

(** (weight_coefficient * weight_kg
     + ((mean_speed * kmh_to_ms)^2 / (height_cm / cm_per_m))
       * speed_height_coefficient * weight_kg)
    * duration_hours * minutes_per_hour *)
Definition spec_walking_calories
    (mean_speed weight_kg height_cm duration_hours : float) : result float :=
  let weight_coefficient := literal 35 3 in
  let speed_height_coefficient := literal 29 3 in
  let kmh_to_ms := literal 278 3 in
  let cm_per_m := 100 in
  let minutes_per_hour := 60 in
  l <- float_mul weight_coefficient weight_kg ;;
  v <- float_mul mean_speed kmh_to_ms ;;
  sq <- float_pow2 v ;;
  hm <- float_div_int height_cm cm_per_m ;;
  r <- float_div sq hm ;;
  r <- float_mul r speed_height_coefficient ;;
  r <- float_mul r weight_kg ;;
  t <- float_add l r ;;
  t <- float_mul t duration_hours ;;
  float_mul_int t minutes_per_hour.

(** pool_length_m * lap_count / meters_per_km / duration_hours *)
Definition spec_swimming_mean_speed
    (pool_length_m : float) (lap_count : Z) (duration_hours : float)
  : result float :=
  t <- float_mul_int pool_length_m lap_count ;;
  t <- float_div_int t 1000 ;;
  float_div t duration_hours.

(** ** Valid instances *)

(** An instance is validly constructed when calling its class on some
    argument list returns it. *)
Definition valid (self : Training) : Prop :=
  exists data, new (__class__ self) data = Ok self.

(** The invariant the validators leave on the stored attributes. *)
Definition nonneg_float (x : float) : bool := negb (fltb x float_zero).

Definition invariant (self : Training) : bool :=
  match self with
  | TrainingObj a d w | Running a d w =>
      (0 <=? a) && nonneg_float d && nonneg_float w
  | SportsWalking a d w h =>
      (0 <=? a) && nonneg_float d && nonneg_float w && nonneg_float h
  | Swimming a d w l c =>
      (0 <=? a) && nonneg_float d && nonneg_float w && nonneg_float l
      && (0 <=? c)
  end.

(** [0 < x] on floats. *)
Definition positive_float (x : float) : bool := fltb float_zero x.

(** An [int] that [float()] accepts. *)
Definition fits_float (n : Z) : bool :=
  match float_of_int n with
  | Ok _ => true
  | Raise _ => false
  end.

Definition returns_None (r : result value) : bool :=
  match r with
  | Ok VNone => true
  | _ => false
  end.

Definition raises {A : Type} (r : result A) : bool :=
  match r with
  | Raise _ => true
  | Ok _ => false
  end.

(** C4 as the specification words it: [get_spent_calories] of the base
    class is abstract, so that calling it on an instance of the base class
    is no path that yields a value.  Stated of the instances that the
    constructor returns, so that a base class without instances would
    satisfy it too. *)
Definition spec_abstract_get_spent_calories : Prop :=
  forall t, valid t -> __class__ t = cTraining ->
            raises (get_spent_calories t) = true.

(** ** The scenarios of the script *)

Definition f9_75 : float := literal 975 2.
Definition f336_0 : float := literal 3360 1.

(** What the RUN scenario says of the instance built from the package: its
    class, its distance, its mean speed, and calories within [tol] of
    [kcal] that are the value of the running formula. *)
Definition scenario_RUN (kcal tol : Q) : Prop :=
  exists t c,
    read_package "RUN" package_RUN = Ok t /\
    __class__ t = cRunning /\
    get_distance t = Ok f9_75 /\
    get_mean_speed t = Ok f9_75 /\
    get_spent_calories t = Ok (VFloat c) /\
    spec_running_calories f9_75 f75_0 f1_0 = Ok c /\
    within tol kcal c = true.

(** What the SWM scenario says: a Swimming instance whose distance is
    within [tol] of [km], whose mean speed is 1.0 and whose calories are
    336.0. *)
Definition scenario_SWM (km tol : Q) : Prop :=
  exists t d,
    read_package "SWM" package_SWM = Ok t /\
    __class__ t = cSwimming /\
    get_distance t = Ok d /\
    within tol km d = true /\
    get_mean_speed t = Ok f1_0 /\
    get_spent_calories t = Ok (VFloat f336_0).

(** ** The report line *)

(** The line as the specification words it, around already formatted
    fields. *)
Definition spec_line (activity_name d s v c : string) : string :=
  "Activity type: " ++ activity_name ++ "; Duration: " ++ d
  ++ " h; Distance: " ++ s ++ " km; Mean speed: " ++ v
  ++ " km/h; Calories burned: " ++ c ++ ".".

(** The line as the program's template has it. *)
Definition template_line (training_type d s v c : string) : string :=
  "Тип тренировки: " ++ training_type ++ "; Длительность: " ++ d
  ++ " ч.; Дистанция: " ++ s ++ " км; Ср. скорость: " ++ v
  ++ " км/ч; Потрачено ккал: " ++ c ++ ".".

Definition is_digit (c : ascii) : bool :=
  ((48 <=? nat_of_ascii c) && (nat_of_ascii c <=? 57))%nat.

Fixpoint all_digits (s : string) : bool :=
  match s with
  | EmptyString => true
  | String c s' => is_digit c && all_digits s'
  end.

(** Digits, a point, three digits; [seen] tells whether a digit of the
    integer part has been read. *)
Fixpoint digits_point_3 (seen : bool) (s : string) : bool :=
  match s with
  | EmptyString => false
  | String c s' =>
      if Ascii.eqb c "." then seen && (String.length s' =? 3)%nat && all_digits s'
      else is_digit c && digits_point_3 true s'
  end.

(** An optional minus sign, then digits, a point and three digits. *)
Definition three_decimals (s : string) : bool :=
  match s with
  | String c s' => if Ascii.eqb c "-" then digits_point_3 false s'
                   else digits_point_3 false s
  | EmptyString => false
  end.

Fixpoint has_newline (s : string) : bool :=
  match s with
  | EmptyString => false
  | String c s' => Ascii.eqb c "010" || has_newline s'
  end.

(** The number that the digits of a string denote, read after [acc]; the
    sign and the point are passed over, so that "-12.345" reads 12345. *)
Fixpoint digits_value (acc : Z) (s : string) : Z :=
  match s with
  | EmptyString => acc
  | String c s' =>
      if is_digit c
      then digits_value (10 * acc + (Z.of_nat (nat_of_ascii c) - 48)) s'
      else digits_value acc s'
  end.

Definition InfoMessage_of_floats (training_type : string) (d s v c : float)
  : InfoMessage.t :=
  InfoMessage.Build training_type (VFloat d) (VFloat s) (VFloat v) (VFloat c).

Definition info_SWM : InfoMessage.t :=
  InfoMessage_of_floats "Swimming" f1_0
    (S754_finite false 8949553179510649 (-53)) f1_0 f336_0.

(** ** Rounding to binary64, for the monotonicity of the distance

    The positive rational [x / y * 2^e] is handed to [binary_round_aux] as
    the mantissa [x / y], the exponent [e] and the location of the
    remainder.  The definitions below name what the rounding computes. *)

(** Where a remainder [r] out of [y] lies: none, below, at or above half. *)
Definition loc_of (r y : Z) : location :=
  if r =? 0 then loc_Exact else loc_Inexact (2 * r ?= y).

(** The integer nearest to [x / y], ties to even. *)
Definition rne (x y : Z) : Z :=
  match 2 * (x mod y) ?= y with
  | Lt => x / y
  | Gt => x / y + 1
  | Eq => if Z.even (x / y) then x / y else x / y + 1
  end.

(** The float [n * 2^k] for [0 <= n <= 2^53], in canonical form. *)
Definition finish (n k : Z) : float :=
  let '(m, e) := if n <? 2 ^ 53 then (n, k) else (n / 2, k + 1) in
  match m with
  | Z0 => S754_zero false
  | Zpos p => if e <=? 971 then S754_finite false p e else S754_infinity false
  | Zneg _ => S754_nan
  end.

(** The mantissa [x / y] with the round and sticky bits of its remainder. *)
Definition rec_of (x y : Z) : shr_record :=
  shr_record_of_loc (x / y) (loc_of (x mod y) y).

(** [x / y] in units of [2^k] is within the 53 bits of a float whose
    exponent is [k]: full when [k] is not the least exponent. *)
Definition canon (x y k : Z) : Prop :=
  -1074 <= k /\ x / y < 2 ^ 53 /\ (k = -1074 \/ 2 ^ 52 <= x / y).

(** The float with mantissa [m] and exponent [e], if it is in range. *)
Definition mk_float (m e : Z) : float :=
  match m with
  | Z0 => S754_zero false
  | Zpos p => if e <=? 971 then S754_finite false p e else S754_infinity false
  | Zneg _ => S754_nan
  end.

(** [x1/y1 * 2^k1 <= x2/y2 * 2^k2], without fractions. *)
Definition val_le (x1 y1 k1 x2 y2 k2 : Z) : Prop :=
  x1 * y2 * 2 ^ (k1 - Z.min k1 k2) <= x2 * y1 * 2 ^ (k2 - Z.min k1 k2).

(** [x / y * 2^e] is given with enough bits: rounding it shifts the
    mantissa right, by zero or more places. *)
Definition shift_ok (x y e : Z) : Prop :=
  0 <= x /\ 0 < y /\ e <= fexp prec emax (Zdigits2 (x / y) + e).

(** The rounding of [x / y * 2^e], as [SFmul] and [SFdiv] call it. *)
Definition round_of (x y e : Z) : float :=
  binary_round_aux prec emax false (x / y) e (loc_of (x mod y) y).

(** The non-negative floats in canonical form: zero, infinity, and the
    finite ones whose mantissa fills the 53 bits unless the exponent is the
    least one. *)
Definition canonical (f : float) : Prop :=
  match f with
  | S754_zero false | S754_infinity false => True
  | S754_finite false m e =>
      -1074 <= e /\ Z.pos m < 2 ^ 53 /\ (e = -1074 \/ 2 ^ 52 <= Z.pos m)
  | _ => False
  end.

(** The exponent at which [SFdiv] takes the integer quotient. *)
Definition div_exp (mx : positive) (ex : Z) (mc : positive) (ec : Z) : Z :=
  Z.min (fexp prec emax (Zdigits2 (Z.pos mx) + ex - (Zdigits2 (Z.pos mc) + ec)))
        (ex - ec).

(** The amount by which [binary_round] scales an integer up before
    rounding it. *)
Definition align (p : positive) : Z :=
  Z.max 0 (- fexp prec emax (Z.pos (digits2_pos p) + 0)).

(** The stride of the trainings on land, 0.65, and 1000.0, as floats;
    [land] tells the classes that use this stride. *)
Definition LEN_STEP_land : float := S754_finite false 5854679515581645 (-53).
Definition M_IN_KM_float : float := S754_finite false 8796093022208000 (-43).

Definition land (self : Training) : bool :=
  match __class__ self with
  | cSwimming => false
  | _ => true
  end.

(** ** Arguments, messages and formattable values *)

(** The argument list from which an instance is constructed. *)
Definition args_of (self : Training) : list value :=
  match self with
  | TrainingObj a d w | Running a d w => [VInt a; VFloat d; VFloat w]
  | SportsWalking a d w h => [VInt a; VFloat d; VFloat w; VFloat h]
  | Swimming a d w l c => [VInt a; VFloat d; VFloat w; VFloat l; VInt c]
  end.

(** The messages of the validators that the constructor of a class runs. *)
Definition field_messages (c : class) : list string :=
  [msg_action; msg_duration; msg_weight]
  ++ match c with
     | cSportsWalking => [msg_height]
     | cSwimming => [msg_length_pool; msg_count_pool]
     | _ => []
     end.

(** The values that [format(v, '.3f')] accepts. *)
Definition formattable (v : value) : bool :=
  match v with
  | VFloat _ | VBool _ => true
  | VInt n => fits_float n
  | VStr _ | VNone => false
  end.

(** ** Arity, positional update, arithmetic exceptions and acceptance *)

(** The number of positional parameters of a constructor. *)
Definition arity (c : class) : nat :=
  match c with
  | cTraining | cRunning => 3
  | cSportsWalking => 4
  | cSwimming => 5
  end.

(** The list [l] with its element of index [i] replaced by [v]. *)
Fixpoint update (i : nat) (v : value) (l : list value) : list value :=
  match l, i with
  | [], _ => []
  | _ :: l', O => v :: l'
  | x :: l', S i' => x :: update i' v l'
  end.

(** A result that, if it is an exception, is one of the two that float
    arithmetic raises. *)
Definition arithmetic_only {A : Type} (r : result A) : Prop :=
  match r with
  | Raise e => e = OverflowError \/ e = ZeroDivisionError
  | Ok _ => True
  end.

(** Whether the validator of the parameter of index [i] accepts [v]: the
    counts are at 0 and 4, the measures in between. *)
Definition accepted (i : nat) (v : value) : bool :=
  match i, v with
  | (0 | 4)%nat, VInt n => 0 <=? n
  | (1 | 2 | 3)%nat, VFloat x => nonneg_float x
  | _, _ => false
  end.

(** The index of the first parameter, from [i] on, that its validator
    rejects. *)
Fixpoint first_rejected (i : nat) (data : list value) : option nat :=
  match data with
  | [] => None
  | v :: data' => if accepted i v then first_rejected (S i) data' else Some i
  end.

(** * Theorems *)

(** ** The model on the script's own packages *)

(** The decimal literals are the binary64 values nearest to them. *)
Example literal_0_65 :
  literal 65 2 = LEN_STEP_land /\
  within (1 # 18014398509481984) (65 # 100) (literal 65 2) = true.
Proof. split; vm_compute; reflexivity. Qed.

Example literal_1000 : literal 10000 1 = M_IN_KM_float.
Proof. vm_compute. reflexivity. Qed.

(** The lines that the script prints for swimming and running. *)
Example main_SWM :
  run_main "SWM" package_SWM
  = Ok "Тип тренировки: Swimming; Длительность: 1.000 ч.; Дистанция: 0.994 км; Ср. скорость: 1.000 км/ч; Потрачено ккал: 336.000.".
Proof. vm_compute. reflexivity. Qed.

Example main_RUN :
  run_main "RUN" package_RUN
  = Ok "Тип тренировки: Running; Длительность: 1.000 ч.; Дистанция: 9.750 км; Ср. скорость: 9.750 км/ч; Потрачено ккал: 797.805.".
Proof. vm_compute. reflexivity. Qed.

(** ** Validators and constructors *)

Lemma verify_int_Ok (msg : string) (v : value) (n : Z) :
  verify_int msg v = Ok n <-> v = VInt n /\ 0 <= n.
Proof.
  unfold verify_int. destruct v as [k| | | |]; try (split; [discriminate | intros [[=] _]]).
  destruct (Z.ltb_spec k 0); split.
  - discriminate.
  - intros [[= ->] Hn]. lia.
  - intros [= ->]. split; [reflexivity | assumption].
  - intros [[= ->] _]. reflexivity.
Qed.

Lemma verify_float_Ok (msg : string) (v : value) (x : float) :
  verify_float msg v = Ok x <-> v = VFloat x /\ nonneg_float x = true.
Proof.
  unfold verify_float, nonneg_float.
  destruct v as [|y| | |]; try (split; [discriminate | intros [[=] _]]).
  destruct (fltb y float_zero) eqn:Hy; split.
  - discriminate.
  - intros [[= ->] Hn]. rewrite Hy in Hn. discriminate.
  - intros [= ->]. split; [reflexivity |]. rewrite Hy. reflexivity.
  - intros [[= ->] _]. reflexivity.
Qed.

(** A rejected value raises [TypeError] with the validator's message. *)
Lemma verify_int_Raise (msg : string) (v : value) (e : exn) :
  verify_int msg v = Raise e -> e = TypeError msg.
Proof.
  unfold verify_int. destruct v as [k| | | |]; try congruence.
  destruct (k <? 0); congruence.
Qed.

Lemma verify_float_Raise (msg : string) (v : value) (e : exn) :
  verify_float msg v = Raise e -> e = TypeError msg.
Proof.
  unfold verify_float. destruct v as [|y| | |]; try congruence.
  destruct (fltb y float_zero); congruence.
Qed.

Lemma bind_Ok {A B : Type} (r : result A) (k : A -> result B) (b : B) :
  bind r k = Ok b <-> exists a, r = Ok a /\ k a = Ok b.
Proof.
  destruct r as [a|e]; simpl; split.
  - intros H. exists a. split; [reflexivity | assumption].
  - intros (a' & [= <-] & H). assumption.
  - discriminate.
  - intros (a' & [=] & _).
Qed.

Lemma Training_init_Ok mk a d w self :
  Training_init mk a d w = Ok self <->
  exists a' d' w',
    a = VInt a' /\ d = VFloat d' /\ w = VFloat w' /\ self = mk a' d' w' /\
    0 <= a' /\ nonneg_float d' = true /\ nonneg_float w' = true.
Proof.
  unfold Training_init, verify_action, verify_duration, verify_weight.
  split.
  - intros H.
    apply bind_Ok in H. destruct H as (a' & Ha & H).
    apply bind_Ok in H. destruct H as (d' & Hd & H).
    apply bind_Ok in H. destruct H as (w' & Hw & H).
    apply verify_int_Ok in Ha. apply verify_float_Ok in Hd.
    apply verify_float_Ok in Hw.
    exists a', d', w'. injection H as <-. tauto_closed.
  - intros (a' & d' & w' & -> & -> & -> & -> & Ha & Hd & Hw).
    rewrite (proj2 (verify_int_Ok _ _ _) (conj eq_refl Ha)). cbn [bind].
    rewrite (proj2 (verify_float_Ok _ _ _) (conj eq_refl Hd)). cbn [bind].
    rewrite (proj2 (verify_float_Ok _ _ _) (conj eq_refl Hw)). reflexivity.
Qed.

Lemma valid_invariant (self : Training) : valid self <-> invariant self = true.
Proof.
  unfold valid. split.
  - intros (data & H).
    destruct self as [a d w|a d w|a d w h|a d w l c]; simpl in H;
      repeat (destruct data as [|? data]; try discriminate H).
    + apply Training_init_Ok in H.
      destruct H as (a' & d' & w' & _ & _ & _ & [= -> -> ->] & Ha & Hd & Hw).
      simpl. rewrite Hd, Hw. destruct (Z.leb_spec 0 a'); [reflexivity | lia].
    + apply Training_init_Ok in H.
      destruct H as (a' & d' & w' & _ & _ & _ & [= -> -> ->] & Ha & Hd & Hw).
      simpl. rewrite Hd, Hw. destruct (Z.leb_spec 0 a'); [reflexivity | lia].
    + unfold SportsWalking_init in H. apply bind_Ok in H.
      destruct H as (t & Ht & H). apply Training_init_Ok in Ht.
      destruct Ht as (a' & d' & w' & _ & _ & _ & -> & Ha & Hd & Hw).
      simpl in H. apply bind_Ok in H. destruct H as (h' & Hh & [= -> -> -> ->]).
      apply verify_float_Ok in Hh. destruct Hh as [_ Hh].
      simpl. rewrite Hd, Hw, Hh. destruct (Z.leb_spec 0 a); [reflexivity | lia].
    + unfold Swimming_init in H. apply bind_Ok in H.
      destruct H as (t & Ht & H). apply Training_init_Ok in Ht.
      destruct Ht as (a' & d' & w' & _ & _ & _ & -> & Ha & Hd & Hw).
      simpl in H. apply bind_Ok in H. destruct H as (t & Ht & H).
      apply bind_Ok in Ht. destruct Ht as (l' & Hl & [= <-]).
      simpl in H. apply bind_Ok in H. destruct H as (c' & Hc & [= -> -> -> -> ->]).
      apply verify_float_Ok in Hl. destruct Hl as [_ Hl].
      apply verify_int_Ok in Hc. destruct Hc as [_ Hc].
      simpl. rewrite Hd, Hw, Hl.
      destruct (Z.leb_spec 0 a); [|lia]. destruct (Z.leb_spec 0 c); [reflexivity | lia].
  - intros H.
    destruct self as [a d w|a d w|a d w h|a d w l c]; simpl in H;
      repeat (apply andb_prop in H; destruct H as [H ?]);
      apply Z.leb_le in H.
    + exists [VInt a; VFloat d; VFloat w]. simpl.
      apply Training_init_Ok. exists a, d, w. tauto_closed.
    + exists [VInt a; VFloat d; VFloat w]. simpl.
      apply Training_init_Ok. exists a, d, w. tauto_closed.
    + exists [VInt a; VFloat d; VFloat w; VFloat h]. simpl.
      unfold SportsWalking_init. apply bind_Ok.
      exists (SportsWalking a d w float_zero). split.
      * apply Training_init_Ok. exists a, d, w. tauto_closed.
      * unfold set_height. apply bind_Ok. exists h. split; [|reflexivity].
        apply verify_float_Ok. tauto_closed.
    + exists [VInt a; VFloat d; VFloat w; VFloat l; VInt c]. simpl.
      unfold Swimming_init. apply bind_Ok.
      exists (Swimming a d w float_zero 0). split.
      * apply Training_init_Ok. exists a, d, w. tauto_closed.
      * apply bind_Ok. exists (Swimming a d w l 0). split.
        -- unfold set_length_pool. apply bind_Ok. exists l.
           split; [|reflexivity]. apply verify_float_Ok. tauto_closed.
        -- unfold set_count_pool. apply bind_Ok. exists c.
           split; [|reflexivity]. apply verify_int_Ok.
           split; [reflexivity|]. apply Z.leb_le. assumption.
Qed.

(** ** Scenario RUN, [15000, 1.0, 75.0] *)

Lemma scenario_RUN_not_698_46 : ~ scenario_RUN (69846 # 100) (1 # 10).
Proof.
  intros (t & c & Hread & _ & _ & _ & Hcal & _ & Hnear).
  vm_compute in Hread. injection Hread as <-.
  vm_compute in Hcal. injection Hcal as <-.
  vm_compute in Hnear. discriminate.
Qed.

(** C1, amended: for "RUN" with [15000, 1.0, 75.0] the dispatcher builds a
    Running instance with distance 9.75 km and mean speed 9.75 km/h, and its
    calories, computed as (18 * mean_speed + 1.79) * weight / 1000 *
    duration * 60, are 797.805 (within one millionth). *)
Theorem C1_scenario_RUN : scenario_RUN (797805 # 1000) (1 # 1000000).
Proof.
  exists (Running 15000 f1_0 f75_0), (literal 797805 3).
  repeat split; vm_compute; reflexivity.
Qed.

(** ** Scenario SWM, [720, 1.0, 80.0, 25.0, 40] *)

Lemma scenario_SWM_not_1_0 : ~ scenario_SWM 1 (1 # 1000).
Proof.
  intros (t & d & Hread & _ & Hdist & Hnear & _).
  vm_compute in Hread. injection Hread as <-.
  vm_compute in Hdist. injection Hdist as <-.
  vm_compute in Hnear. discriminate.
Qed.

(** C2, amended: for "SWM" with [720, 1.0, 80.0, 25.0, 40] the dispatcher
    builds a Swimming instance with distance 0.9936 km (720 strokes of
    1.38 m, within one billionth), mean speed 1.0 km/h and calories 336.0. *)
Theorem C2_scenario_SWM : scenario_SWM (9936 # 10000) (1 # 1000000000).
Proof.
  exists (Swimming 720 f1_0 f80_0 f25_0 40),
         (S754_finite false 8949553179510649 (-53)).
  repeat split; vm_compute; reflexivity.
Qed.

(** ** The abstract method *)

Ltac step_binds :=
  repeat match goal with
         | |- context [bind ?r _] => destruct r; cbn [bind]
         end.

Lemma variant_calories_not_None (self : Training) :
  __class__ self <> cTraining ->
  returns_None (get_spent_calories self) = false.
Proof.
  intros Hc. destruct self as [a d w|a d w|a d w h|a d w l c];
    [contradiction Hc; reflexivity | | |];
    unfold get_spent_calories; cbn [__class__ resolve mro find defines];
    [ unfold Running_get_spent_calories
    | unfold SportsWalking_get_spent_calories
    | unfold Swimming_get_spent_calories ];
    step_binds; reflexivity.
Qed.

Lemma new_class (c : class) (data : list value) (t : Training) :
  new c data = Ok t -> __class__ t = c.
Proof.
  intros H. destruct c; simpl in H;
    repeat (destruct data as [|? data]; try discriminate H).
  - apply Training_init_Ok in H.
    destruct H as (? & ? & ? & _ & _ & _ & -> & _). reflexivity.
  - apply Training_init_Ok in H.
    destruct H as (? & ? & ? & _ & _ & _ & -> & _). reflexivity.
  - unfold SportsWalking_init in H. apply bind_Ok in H.
    destruct H as (s & Hs & H). apply Training_init_Ok in Hs.
    destruct Hs as (? & ? & ? & _ & _ & _ & -> & _).
    simpl in H. apply bind_Ok in H. destruct H as (? & _ & [= <-]). reflexivity.
  - unfold Swimming_init in H. apply bind_Ok in H.
    destruct H as (s & Hs & H). apply Training_init_Ok in Hs.
    destruct Hs as (? & ? & ? & _ & _ & _ & -> & _).
    simpl in H. apply bind_Ok in H. destruct H as (s & Hs & H).
    apply bind_Ok in Hs. destruct Hs as (? & _ & [= <-]).
    simpl in H. apply bind_Ok in H. destruct H as (? & _ & [= <-]). reflexivity.
Qed.

Lemma calories_float (t : Training) (v : value) :
  __class__ t <> cTraining -> get_spent_calories t = Ok v ->
  exists x, v = VFloat x.
Proof.
  intros Hc. destruct t as [a d w|a d w|a d w h|a d w l c];
    [contradiction Hc; reflexivity | | |];
    unfold get_spent_calories; cbn [__class__ resolve mro find defines];
    [ unfold Running_get_spent_calories
    | unfold SportsWalking_get_spent_calories
    | unfold Swimming_get_spent_calories ];
    intros H;
    repeat match type of H with
           | bind ?r _ = Ok _ =>
               destruct r; cbn [bind] in H; [|discriminate H]
           end;
    injection H as <-; eexists; reflexivity.
Qed.

Lemma new_base (data : list value) (t : Training) :
  new cTraining data = Ok t -> exists a d w, t = TrainingObj a d w.
Proof.
  intros H. cbn [new] in H.
  repeat (destruct data as [|? data]; try discriminate H).
  apply Training_init_Ok in H.
  destruct H as (a & d & w & _ & _ & _ & -> & _). exists a, d, w. reflexivity.
Qed.

Lemma get_spent_calories_not_abstract : ~ spec_abstract_get_spent_calories.
Proof.
  intros H.
  assert (V : valid (TrainingObj 100 f1_0 f75_0))
    by (exists [VInt 100; VFloat f1_0; VFloat f75_0]; reflexivity).
  specialize (H (TrainingObj 100 f1_0 f75_0) V eq_refl). discriminate H.
Qed.

(** C4, amended: the base class is not abstract.  It can be instantiated,
    and on every instance of it [get_spent_calories] runs its empty body and
    returns [None], without an error.  Each of the three subclasses resolves
    the method to its own definition, which returns a float or raises, never
    [None].  Reporting on an instance of the base class prints nothing: it
    raises, and once the distance and the mean speed have been returned, it
    is the [TypeError] of formatting [None]. *)
Theorem C4_spent_calories_default :
  new cTraining [VInt 100; VFloat f1_0; VFloat f75_0]
  = Ok (TrainingObj 100 f1_0 f75_0) /\
  (forall data t, new cTraining data = Ok t ->
     get_spent_calories t = Ok VNone) /\
  (forall c data t, c <> cTraining -> new c data = Ok t ->
     resolve c m_get_spent_calories = Some c /\
     returns_None (get_spent_calories t) = false /\
     forall v, get_spent_calories t = Ok v -> exists x, v = VFloat x) /\
  (forall data t, new cTraining data = Ok t ->
     raises (main t) = true /\
     forall dist speed,
       get_distance t = Ok dist -> get_mean_speed t = Ok speed ->
       main t = Raise (TypeError msg_format_none)).
Proof.
  split; [reflexivity|]. split; [|split].
  - intros data t H. destruct (new_base data t H) as (a & d & w & ->).
    reflexivity.
  - intros c data t Hc H. apply new_class in H. subst c. split; [|split].
    + destruct t; reflexivity.
    + apply variant_calories_not_None, Hc.
    + intros v. apply calories_float, Hc.
  - intros data t H. destruct (new_base data t H) as (a & d & w & ->). split.
    + unfold main, show_training_info.
      destruct (get_distance (TrainingObj a d w)); [|reflexivity].
      destruct (get_mean_speed (TrainingObj a d w)); reflexivity.
    + intros dist speed Hd Hs. unfold main, show_training_info.
      rewrite Hd, Hs. reflexivity.
Qed.

(** ** Validation *)

(** What the validators do refuse: a negative count, a float where a count
    is expected, an [int] (or anything but a float) where a measure is
    expected, and a negative measure. *)
Lemma verify_int_rejects (msg : string) (v : value) :
  (forall n, v = VInt n -> n < 0 -> verify_int msg v = Raise (TypeError msg)) /\
  (forall x, v = VFloat x -> verify_int msg v = Raise (TypeError msg)) /\
  (forall b, v = VBool b -> verify_int msg v = Raise (TypeError msg)).
Proof.
  repeat split; intros; subst; simpl; try reflexivity.
  destruct (Z.ltb_spec n 0); [reflexivity | lia].
Qed.

Lemma verify_float_rejects (msg : string) (v : value) :
  (forall n, v = VInt n -> verify_float msg v = Raise (TypeError msg)) /\
  (forall x, v = VFloat x -> fltb x float_zero = true ->
             verify_float msg v = Raise (TypeError msg)).
Proof.
  split; intros; subst; simpl; try reflexivity.
  rewrite H0. reflexivity.
Qed.

(** C5, at the failing input: NaN is a float that is not [>= 0], yet
    [verify_duration] and [verify_weight] accept it, at construction and on
    reassignment. *)
Lemma C5_nan_accepted :
  fleb float_zero S754_nan = false /\
  verify_duration (VFloat S754_nan) = Ok S754_nan /\
  verify_weight (VFloat S754_nan) = Ok S754_nan /\
  new cRunning [VInt 100; VFloat S754_nan; VFloat f75_0]
    = Ok (Running 100 S754_nan f75_0) /\
  set_duration (VFloat S754_nan) (Running 100 f1_0 f75_0)
    = Ok (Running 100 S754_nan f75_0).
Proof. repeat split. Qed.

(** ** The dispatcher *)

(** C6: a code other than "RUN", "SWM", "WLK" raises the dispatcher's
    [KeyError]; each of the three codes calls the constructor of its class
    on the positional parameters and returns what the call returns, an
    instance of that class or the constructor's exception unchanged. *)
Theorem C6_read_package (code : string) (data : list value) :
  (code <> "RUN" -> code <> "SWM" -> code <> "WLK" ->
   read_package code data = Raise (KeyError msg_unexpected)) /\
  (forall c, In (code, c) dict_for_classes ->
     read_package code data = new c data /\
     (forall t, new c data = Ok t -> __class__ t = c) /\
     (forall e, new c data = Raise e -> read_package code data = Raise e)).
Proof.
  split.
  - intros H1 H2 H3. unfold read_package, dict_for_classes, lookup.
    destruct (String.eqb_spec code "RUN"); [contradiction|].
    destruct (String.eqb_spec code "SWM"); [contradiction|].
    destruct (String.eqb_spec code "WLK"); [contradiction|]. reflexivity.
  - intros c Hin.
    assert (Hr : read_package code data = new c data).
    { simpl in Hin.
      destruct Hin as [[= <- <-]|[[= <- <-]|[[= <- <-]|[]]]]; reflexivity. }
    split; [exact Hr|]. split.
    + apply new_class.
    + intros e He. rewrite Hr. exact He.
Qed.

Lemma C6_read_package_witness :
  read_package "BIKE" package_RUN = Raise (KeyError msg_unexpected) /\
  read_package "WLK" package_WLK = new cSportsWalking package_WLK.
Proof.
  split.
  - apply (proj1 (C6_read_package "BIKE" package_RUN)); discriminate.
  - apply (proj2 (C6_read_package "WLK" package_WLK) cSportsWalking).
    simpl. right. right. left. reflexivity.
Defined.

(** ** Division by the duration *)

Lemma float_of_int_fits (n : Z) :
  fits_float n = true -> exists x, float_of_int n = Ok x.
Proof.
  unfold fits_float. destruct (float_of_int n) as [x|e]; [|discriminate].
  intros _. exists x. reflexivity.
Qed.

Lemma float_div_int_M_IN_KM (x : float) :
  float_div_int x M_IN_KM = Ok (fdiv x (literal 10000 1)).
Proof. reflexivity. Qed.

Lemma float_div_zero (x : float) : float_div x float_zero = Raise ZeroDivisionError.
Proof. reflexivity. Qed.

Lemma positive_float_not_zero (d : float) :
  positive_float d = true -> is_zero d = false.
Proof. destruct d; try reflexivity. destruct s; discriminate. Qed.

Lemma float_div_positive (x d : float) :
  positive_float d = true -> float_div x d = Ok (fdiv x d).
Proof.
  intros H. unfold float_div. rewrite (positive_float_not_zero d H). reflexivity.
Qed.

Lemma Training_get_mean_speed_zero (self : Training) :
  duration self = float_zero -> fits_float (action self) = true ->
  Training_get_mean_speed self = Raise ZeroDivisionError.
Proof.
  intros Hd Ha. apply float_of_int_fits in Ha. destruct Ha as (x & Hx).
  unfold Training_get_mean_speed, int_mul_float. rewrite Hx, Hd.
  cbn [bind float_mul]. rewrite float_div_int_M_IN_KM. reflexivity.
Qed.

(** C10, as stated, fails for a count beyond the range of float:
    [Running(2**1024, 0.0, 75.0)] is constructed, and [get_mean_speed]
    raises [OverflowError], from the conversion of the count, before it
    divides. *)
Lemma C10_count_beyond_float :
  ~ (forall a w, 0 <= a -> nonneg_float w = true ->
       new cRunning [VInt a; VFloat float_zero; VFloat w]
       = Ok (Running a float_zero w) /\
       get_mean_speed (Running a float_zero w) = Raise ZeroDivisionError).
Proof.
  intros H.
  assert (Ha : 0 <= 2 ^ 1024) by (apply Z.pow_nonneg; lia).
  destruct (H (2 ^ 1024) f75_0 Ha eq_refl) as [_ Hm].
  vm_compute in Hm. discriminate Hm.
Qed.

(** C10, amended: for each of the three subclasses, constructing with
    duration 0.0 (and otherwise acceptable arguments) succeeds, and when the
    step count, and for Swimming the lap count, is in the range of float,
    both [get_mean_speed] and [get_spent_calories] raise
    [ZeroDivisionError] on the instance.  (With a larger count the
    conversion of the count raises [OverflowError] first.) *)
Theorem C10_zero_duration (a : Z) (w h l : float) (c : Z) :
  0 <= a -> nonneg_float w = true -> nonneg_float h = true ->
  nonneg_float l = true -> 0 <= c ->
  fits_float a = true -> fits_float c = true ->
  (new cRunning [VInt a; VFloat float_zero; VFloat w]
     = Ok (Running a float_zero w) /\
   get_mean_speed (Running a float_zero w) = Raise ZeroDivisionError /\
   get_spent_calories (Running a float_zero w) = Raise ZeroDivisionError) /\
  (new cSportsWalking [VInt a; VFloat float_zero; VFloat w; VFloat h]
     = Ok (SportsWalking a float_zero w h) /\
   get_mean_speed (SportsWalking a float_zero w h) = Raise ZeroDivisionError /\
   get_spent_calories (SportsWalking a float_zero w h)
     = Raise ZeroDivisionError) /\
  (new cSwimming [VInt a; VFloat float_zero; VFloat w; VFloat l; VInt c]
     = Ok (Swimming a float_zero w l c) /\
   get_mean_speed (Swimming a float_zero w l c) = Raise ZeroDivisionError /\
   get_spent_calories (Swimming a float_zero w l c) = Raise ZeroDivisionError).
Proof.
  intros Ha Hw Hh Hl Hc Fa Fc.
  assert (Hms : forall self, duration self = float_zero ->
                             action self = a ->
                             Training_get_mean_speed self = Raise ZeroDivisionError).
  { intros self Hd Hact. apply Training_get_mean_speed_zero; [assumption|].
    rewrite Hact. assumption. }
  assert (Hsw : get_mean_speed (Swimming a float_zero w l c)
                = Raise ZeroDivisionError).
  { apply float_of_int_fits in Fc. destruct Fc as (x & Hx).
    unfold get_mean_speed. cbn [__class__ resolve mro find defines].
    unfold Swimming_get_mean_speed, float_mul_int.
    cbn [length_pool count_pool bind duration]. rewrite Hx.
    cbn [bind float_mul]. rewrite float_div_int_M_IN_KM. reflexivity. }
  assert (Hz : nonneg_float float_zero = true) by reflexivity.
  assert (Ha' : (0 <=? a) = true) by (apply Z.leb_le; assumption).
  assert (Hc' : (0 <=? c) = true) by (apply Z.leb_le; assumption).
  repeat split.
  - simpl. apply Training_init_Ok. exists a, float_zero, w. tauto_closed.
  - apply Hms; reflexivity.
  - unfold get_spent_calories. cbn [__class__ resolve mro find defines].
    unfold Running_get_spent_calories. rewrite Hms; reflexivity.
  - simpl. unfold SportsWalking_init. apply bind_Ok.
    exists (SportsWalking a float_zero w float_zero). split.
    + apply Training_init_Ok. exists a, float_zero, w. tauto_closed.
    + unfold set_height. apply bind_Ok. exists h. split; [|reflexivity].
      apply verify_float_Ok. tauto_closed.
  - apply Hms; reflexivity.
  - unfold get_spent_calories. cbn [__class__ resolve mro find defines].
    unfold SportsWalking_get_spent_calories. cbn [float_mul bind].
    rewrite Hms; reflexivity.
  - simpl. unfold Swimming_init. apply bind_Ok.
    exists (Swimming a float_zero w float_zero 0). split.
    + apply Training_init_Ok. exists a, float_zero, w. tauto_closed.
    + apply bind_Ok. exists (Swimming a float_zero w l 0). split.
      * unfold set_length_pool. apply bind_Ok. exists l.
        split; [|reflexivity]. apply verify_float_Ok. tauto_closed.
      * unfold set_count_pool. apply bind_Ok. exists c.
        split; [|reflexivity]. apply verify_int_Ok. tauto_closed.
  - exact Hsw.
  - unfold get_spent_calories. cbn [__class__ resolve mro find defines].
    unfold Swimming_get_spent_calories. rewrite Hsw. reflexivity.
Qed.

(** ** The formulas of the subclasses *)

(** C7: on a validly constructed SportsWalking instance with positive
    height and duration, [get_spent_calories] is the walking formula of the
    specification applied to the instance's mean speed, weight, height and
    duration, with the constants 0.035, 0.029, 0.278, 100 and 60; the mean
    speed itself is the distance divided by the duration, with no division
    by zero.  This holds whatever the platform's [pow] returns for the
    square: no value of it is assumed. *)
Theorem C7_walking_calories (a : Z) (d w h : float) :
  valid (SportsWalking a d w h) ->
  positive_float h = true -> positive_float d = true ->
  get_mean_speed (SportsWalking a d w h)
    = (s <- get_distance (SportsWalking a d w h) ;; Ok (fdiv s d)) /\
  get_spent_calories (SportsWalking a d w h)
    = (mean_speed <- get_mean_speed (SportsWalking a d w h) ;;
       kcal <- spec_walking_calories mean_speed w h d ;;
       Ok (VFloat kcal)).
Proof.
  intros _ _ Hd. split.
  - unfold get_mean_speed, get_distance. cbn [__class__ resolve mro find defines].
    unfold Training_get_mean_speed, Training_get_distance.
    destruct (int_mul_float _ _) as [x|e]; [|reflexivity]. cbn [bind].
    destruct (float_div_int x M_IN_KM) as [y|e]; [|reflexivity]. cbn [bind].
    apply float_div_positive. exact Hd.
  - unfold get_spent_calories, get_mean_speed.
    cbn [__class__ resolve mro find defines].
    unfold SportsWalking_get_spent_calories, spec_walking_calories.
    cbn [float_mul bind height weight duration].
    destruct (Training_get_mean_speed _) as [ms|e]; [|reflexivity]. cbn [bind].
    unfold SportsWalking_KMH_IN_MSEC, SportsWalking_CM_IN_M, MIN_IN_H,
      SportsWalking_CALORIES_WEIGHT_MULTIPLIER,
      SportsWalking_CALORIES_SPEED_HEIGHT_MULTIPLIER.
    destruct (float_pow2 _) as [sq|e]; [|reflexivity]. cbn [bind].
    destruct (float_div_int h 100) as [hm|e]; [|reflexivity]. cbn [bind].
    destruct (float_div sq hm) as [r|e]; [|reflexivity]. cbn [bind float_add].
    destruct (float_mul_int _ 60) as [t|e]; reflexivity.
Qed.

(** C8: on a validly constructed Swimming instance with positive duration,
    [get_mean_speed] is pool_length * lap_count / 1000 / duration, a float
    whenever the lap count converts to one, and it is the same for every
    other step count (and weight). *)
Theorem C8_swimming_mean_speed (a : Z) (d w l : float) (c : Z) :
  valid (Swimming a d w l c) -> positive_float d = true ->
  get_mean_speed (Swimming a d w l c) = spec_swimming_mean_speed l c d /\
  (forall x, float_of_int c = Ok x ->
     get_mean_speed (Swimming a d w l c)
       = Ok (fdiv (fdiv (fmul l x) (literal 10000 1)) d)) /\
  (forall a' w',
     get_mean_speed (Swimming a' d w' l c)
       = get_mean_speed (Swimming a d w l c)).
Proof.
  intros _ Hd. repeat split.
  - intros x Hx. unfold get_mean_speed. cbn [__class__ resolve mro find defines].
    unfold Swimming_get_mean_speed, float_mul_int.
    cbn [length_pool count_pool bind duration]. rewrite Hx.
    cbn [bind float_mul]. rewrite float_div_int_M_IN_KM. cbn [bind].
    apply float_div_positive. exact Hd.
Qed.

Lemma C8_swimming_mean_speed_witness :
  get_mean_speed (Swimming 720 f1_0 f80_0 f25_0 40)
    = spec_swimming_mean_speed f25_0 40 f1_0 /\
  get_mean_speed (Swimming 0 f1_0 f75_0 f25_0 40)
    = get_mean_speed (Swimming 720 f1_0 f80_0 f25_0 40).
Proof.
  destruct (C8_swimming_mean_speed 720 f1_0 f80_0 f25_0 40) as (H1 & _ & H3).
  - exists package_SWM. reflexivity.
  - reflexivity.
  - split; [exact H1 | exact (H3 0 f75_0)].
Defined.

(** ** The report line *)

(** C3, as stated, fails: the message of the Swimming record of the script
    is not the English line of the specification. *)
Lemma C3_line_not_english :
  InfoMessage.get_message info_SWM
  <> Ok (spec_line "Swimming" "1.000" "0.994" "1.000" "336.000").
Proof. vm_compute. discriminate. Qed.

Lemma digit_cases (k : Z) :
  0 <= k < 10 ->
  k = 0 \/ k = 1 \/ k = 2 \/ k = 3 \/ k = 4 \/ k = 5 \/ k = 6 \/ k = 7
  \/ k = 8 \/ k = 9.
Proof. lia. Qed.

Lemma digit_facts (k : Z) :
  0 <= k < 10 ->
  is_digit (digit k) = true /\
  Ascii.eqb (digit k) "." = false /\
  Ascii.eqb (digit k) "-" = false /\
  Ascii.eqb (digit k) "010" = false /\
  Z.of_nat (nat_of_ascii (digit k)) - 48 = k.
Proof.
  intros H. apply digit_cases in H.
  destruct H as [-> | [-> | [-> | [-> | [-> | [-> | [-> | [-> | [-> | ->]]]]]]]]];
    vm_compute; repeat split.
Qed.

Lemma all_digits_app (s t : string) :
  all_digits (s ++ t) = all_digits s && all_digits t.
Proof.
  induction s as [|c s IH]; simpl; [reflexivity|].
  rewrite IH. apply andb_assoc.
Qed.

Lemma digits_fuel_S (fuel : nat) (n : Z) (acc : string) :
  digits_fuel (S fuel) n acc
  = if n / 10 =? 0 then String (digit (n mod 10)) acc
    else digits_fuel fuel (n / 10) (String (digit (n mod 10)) acc).
Proof. reflexivity. Qed.

Lemma digits_fuel_all_digits (fuel : nat) :
  forall n acc, 0 <= n -> all_digits acc = true ->
                all_digits (digits_fuel fuel n acc) = true.
Proof.
  induction fuel as [|fuel IH]; intros n acc Hn Hacc; [exact Hacc|].
  rewrite digits_fuel_S.
  assert (Hd : all_digits (String (digit (n mod 10)) acc) = true).
  { cbn [all_digits]. rewrite Hacc.
    destruct (digit_facts (n mod 10)) as [-> _]; [|reflexivity].
    apply Z.mod_pos_bound. lia. }
  destruct (n / 10 =? 0); [assumption|].
  apply IH; [|assumption]. apply Z.div_pos; lia.
Qed.

Lemma digits_fuel_cons (fuel : nat) :
  forall n acc, 0 <= n ->
    exists k s, 0 <= k < 10 /\ digits_fuel (S fuel) n acc = String (digit k) s.
Proof.
  induction fuel as [|fuel IH]; intros n acc Hn; rewrite digits_fuel_S.
  - exists (n mod 10), acc. split; [apply Z.mod_pos_bound; lia|].
    destruct (n / 10 =? 0); reflexivity.
  - destruct (n / 10 =? 0).
    + exists (n mod 10), acc. split; [apply Z.mod_pos_bound; lia|reflexivity].
    + apply IH. apply Z.div_pos; lia.
Qed.

(** The digits written are those of the number: the fuel is enough. *)
Lemma digits_value_digit (k acc : Z) (s : string) :
  0 <= k < 10 ->
  digits_value acc (String (digit k) s) = digits_value (10 * acc + k) s.
Proof.
  intros Hk. cbn [digits_value].
  destruct (digit_facts k Hk) as (-> & _ & _ & _ & ->). reflexivity.
Qed.

Lemma digits_fuel_value (fuel : nat) :
  forall n acc, 0 <= n < 2 ^ Z.of_nat fuel ->
    digits_value 0 (digits_fuel fuel n acc) = digits_value n acc.
Proof.
  induction fuel as [|fuel IH]; intros n acc Hn.
  - change (2 ^ Z.of_nat 0) with 1 in Hn. assert (n = 0) as -> by lia.
    reflexivity.
  - rewrite digits_fuel_S.
    assert (Hm : 0 <= n mod 10 < 10) by (apply Z.mod_pos_bound; lia).
    assert (Hdm : n = 10 * (n / 10) + n mod 10) by (apply Z.div_mod; lia).
    destruct (Z.eqb_spec (n / 10) 0) as [Hq|Hq].
    + rewrite digits_value_digit by assumption. f_equal. lia.
    + rewrite IH.
      * rewrite digits_value_digit by assumption. f_equal. lia.
      * rewrite Nat2Z.inj_succ, Z.pow_succ_r in Hn by lia.
        split; [apply Z.div_pos; lia|].
        apply Z.div_lt_upper_bound; lia.
Qed.

Lemma decimal_value (n : Z) : 0 <= n -> digits_value 0 (decimal n) = n.
Proof.
  intros Hn. unfold decimal. rewrite digits_fuel_value; [reflexivity|].
  split; [assumption|].
  rewrite Nat2Z.inj_succ, Z2Nat.id by apply Z.log2_nonneg.
  destruct (Z.eq_dec n 0) as [->|Hz]; [reflexivity|].
  apply Z.log2_spec. lia.
Qed.

Lemma decimal_all_digits (n : Z) : 0 <= n -> all_digits (decimal n) = true.
Proof. intros Hn. apply digits_fuel_all_digits; [assumption|reflexivity]. Qed.

Lemma decimal_cons (n : Z) :
  0 <= n -> exists k s, 0 <= k < 10 /\ decimal n = String (digit k) s.
Proof. intros Hn. apply digits_fuel_cons. assumption. Qed.

Lemma digits_value_app (s t : string) :
  forall acc, digits_value acc (s ++ t) = digits_value (digits_value acc s) t.
Proof.
  induction s as [|c s IH]; intros acc; cbn [append digits_value];
    [reflexivity|].
  destruct (is_digit c); apply IH.
Qed.

Lemma is_digit_not_point (c : ascii) :
  is_digit c = true -> Ascii.eqb c "." = false.
Proof.
  intros H. destruct (Ascii.eqb_spec c ".") as [->|]; [discriminate|reflexivity].
Qed.

Lemma digits_point_3_app (ds fs : string) :
  all_digits ds = true ->
  forall seen,
    digits_point_3 seen (ds ++ String "." fs)
    = (seen || negb (String.eqb ds "")) && (String.length fs =? 3)%nat
      && all_digits fs.
Proof.
  induction ds as [|c ds IH]; intros Hds seen.
  - cbn. rewrite orb_false_r. reflexivity.
  - cbn [all_digits] in Hds. apply andb_prop in Hds. destruct Hds as [Hc Hds].
    cbn [append digits_point_3]. rewrite (is_digit_not_point c Hc), Hc.
    rewrite (IH Hds). cbn. rewrite orb_true_r. reflexivity.
Qed.

Lemma has_newline_app (s t : string) :
  has_newline (s ++ t) = has_newline s || has_newline t.
Proof.
  induction s as [|c s IH]; cbn [append has_newline]; [reflexivity|].
  rewrite IH. apply orb_assoc.
Qed.

Lemma all_digits_no_newline (s : string) :
  all_digits s = true -> has_newline s = false.
Proof.
  induction s as [|c s IH]; [reflexivity|]. cbn [all_digits has_newline].
  intros H. apply andb_prop in H. destruct H as [Hc Hs]. rewrite (IH Hs).
  destruct (Ascii.eqb_spec c "010") as [->|]; [discriminate|reflexivity].
Qed.

Lemma mod_digits (n : Z) :
  0 <= n ->
  0 <= n mod 1000 / 100 < 10 /\ 0 <= n mod 100 / 10 < 10 /\ 0 <= n mod 10 < 10
  /\ n = 1000 * (n / 1000) + 100 * (n mod 1000 / 100) + 10 * (n mod 100 / 10)
         + n mod 10.
Proof. intros Hn. Z.to_euclidean_division_equations. lia. Qed.

Lemma thousandths_facts (n : Z) :
  0 <= n ->
  digits_point_3 false (thousandths n) = true /\
  (exists k s, 0 <= k < 10 /\ thousandths n = String (digit k) s) /\
  digits_value 0 (thousandths n) = n /\
  has_newline (thousandths n) = false.
Proof.
  intros Hn. unfold thousandths.
  destruct (mod_digits n Hn) as (H1 & H2 & H3 & Hsum).
  set (d1 := n mod 1000 / 100) in *. set (d2 := n mod 100 / 10) in *.
  set (d3 := n mod 10) in *.
  assert (Hq : 0 <= n / 1000) by (apply Z.div_pos; lia).
  pose proof (decimal_all_digits _ Hq) as Hall.
  destruct (decimal_cons _ Hq) as (k & s & Hk & Hdec).
  assert (Hfs : all_digits (String (digit d1) (String (digit d2)
                                  (String (digit d3) ""))) = true).
  { cbn [all_digits].
    destruct (digit_facts d1 H1) as [-> _]. destruct (digit_facts d2 H2) as [-> _].
    destruct (digit_facts d3 H3) as [-> _]. reflexivity. }
  repeat split.
  - change ("." ++ ?x) with (String "." x).
    rewrite digits_point_3_app by assumption. rewrite Hfs, Hdec. reflexivity.
  - exists k, (s ++ "." ++ String (digit d1) (String (digit d2)
                                   (String (digit d3) ""))).
    split; [assumption|]. rewrite Hdec. reflexivity.
  - rewrite digits_value_app, decimal_value by assumption.
    change ("." ++ ?x) with (String "." x).
    change (digits_value ?a (String "." ?x)) with (digits_value a x).
    rewrite !digits_value_digit by assumption. cbn [digits_value]. lia.
  - rewrite has_newline_app, (all_digits_no_newline _ Hall).
    change ("." ++ ?x) with (String "." x).
    change (has_newline (String "." ?x)) with (has_newline x).
    rewrite (all_digits_no_newline _ Hfs). reflexivity.
Qed.

Lemma round_half_even_nonneg (m e : Z) : 0 <= m -> 0 <= round_half_even m e.
Proof.
  intros Hm. destruct e as [|p|p]; cbn [round_half_even].
  - lia.
  - apply Z.mul_nonneg_nonneg; [assumption|]. apply Z.pow_nonneg. lia.
  - assert (Hd : 0 < 2 ^ Z.pos p) by (apply Z.pow_pos_nonneg; lia).
    assert (Hq : 0 <= m / 2 ^ Z.pos p) by (apply Z.div_pos; assumption).
    destruct (2 * (m mod 2 ^ Z.pos p) ?= 2 ^ Z.pos p);
      [destruct (Z.even _)| |]; lia.
Qed.

(** [round_half_even m e] is an integer nearest to [m * 2^e]: exact for
    [e >= 0]; for [e < 0], within half a unit, and even on a tie. *)
Lemma round_half_even_nearest (m e : Z) :
  let n := round_half_even m e in
  (0 <= e -> n = m * 2 ^ e) /\
  (e < 0 ->
   Z.abs (2 * m - 2 * n * 2 ^ (- e)) <= 2 ^ (- e) /\
   (Z.abs (2 * m - 2 * n * 2 ^ (- e)) = 2 ^ (- e) -> Z.even n = true)).
Proof.
  destruct e as [|p|p]; cbn [round_half_even]; cbv zeta.
  - split; [reflexivity | lia].
  - split; [reflexivity | lia].
  - split; [lia|]. intros _. change (- Z.neg p) with (Z.pos p).
    assert (Hd : 0 < 2 ^ Z.pos p) by (apply Z.pow_pos_nonneg; lia).
    pose proof (Z.div_mod m (2 ^ Z.pos p) ltac:(lia)) as Hdm.
    pose proof (Z.mod_pos_bound m (2 ^ Z.pos p) Hd) as Hr.
    set (d := 2 ^ Z.pos p) in *. set (q := m / d) in *. set (r := m mod d) in *.
    destruct (Z.compare_spec (2 * r) d) as [Heq|Hlt|Hgt].
    + destruct (Z.even q) eqn:Hev.
      * split; [nia|]. intros _. exact Hev.
      * split; [nia|]. intros _. rewrite Z.even_add, Hev. reflexivity.
    + split; [nia|]. intros Habs. exfalso. nia.
    + split; [nia|]. intros Habs. exfalso. nia.
Qed.

Lemma format_float_3f_finite (sg : bool) (m : positive) (e : Z) :
  format_float_3f (S754_finite sg m e)
  = (if sg then "-" else "") ++ thousandths (round_half_even (Zpos m * 1000) e).
Proof. reflexivity. Qed.

Lemma three_decimals_format (x : float) :
  three_decimals (format_float_3f x) = is_finite x.
Proof.
  destruct x as [[|]|[|]| |sg m e]; try reflexivity.
  rewrite format_float_3f_finite.
  assert (Hn : 0 <= round_half_even (Zpos m * 1000) e)
    by (apply round_half_even_nonneg; lia).
  destruct (thousandths_facts _ Hn) as (H3 & (k & s & Hk & Hs) & _).
  destruct sg.
  - change ("-" ++ ?t) with (String "-" t). cbn [three_decimals is_finite].
    change (Ascii.eqb "-" "-") with true. cbn iota. exact H3.
  - change ("" ++ ?t) with t. cbn [is_finite]. rewrite <- H3.
    rewrite Hs. cbn [three_decimals].
    destruct (digit_facts k Hk) as (_ & _ & -> & _). reflexivity.
Qed.

Lemma digits_value_format (sg : bool) (m : positive) (e : Z) :
  digits_value 0 (format_float_3f (S754_finite sg m e))
  = round_half_even (Zpos m * 1000) e.
Proof.
  rewrite format_float_3f_finite.
  assert (Hn : 0 <= round_half_even (Zpos m * 1000) e)
    by (apply round_half_even_nonneg; lia).
  destruct (thousandths_facts _ Hn) as (_ & _ & Hv & _).
  destruct sg; [|exact Hv].
  change ("-" ++ ?t) with (String "-" t).
  change (digits_value 0 (String "-" ?t)) with (digits_value 0 t). exact Hv.
Qed.

Lemma format_float_3f_no_newline (x : float) :
  has_newline (format_float_3f x) = false.
Proof.
  destruct x as [[|]|[|]| |sg m e]; try reflexivity.
  rewrite format_float_3f_finite, has_newline_app.
  assert (Hn : 0 <= round_half_even (Zpos m * 1000) e)
    by (apply round_half_even_nonneg; lia).
  destruct (thousandths_facts _ Hn) as (_ & _ & _ & ->).
  destruct sg; reflexivity.
Qed.

(** C3, amended: the message of a record with float fields is the single
    line of the program's template, in Russian, around the training type
    and the four numbers; each finite number is written with an optional
    sign, digits, a point and exactly three decimals, which are the digits
    of its value rounded to the nearest thousandth. *)
Theorem C3_get_message (training_type : string) (d s v c : float) :
  let line := template_line training_type (format_float_3f d)
                (format_float_3f s) (format_float_3f v) (format_float_3f c) in
  InfoMessage.get_message (InfoMessage_of_floats training_type d s v c)
    = Ok line /\
  has_newline line = has_newline training_type /\
  (forall x, three_decimals (format_float_3f x) = is_finite x) /\
  (forall sg m e,
      digits_value 0 (format_float_3f (S754_finite sg m e))
      = round_half_even (Zpos m * 1000) e).
Proof.
  cbv zeta. split; [reflexivity|]. split; [|split].
  - unfold template_line. rewrite !has_newline_app.
    rewrite !format_float_3f_no_newline.
    repeat match goal with
           | |- context [has_newline (String ?a ?b)] =>
               change (has_newline (String a b)) with false
           end.
    rewrite !orb_false_r. reflexivity.
  - apply three_decimals_format.
  - apply digits_value_format.
Qed.

(** ** The distance is monotone in the step count *)

(** The floating-point specification is written with the core library's
    integer operations; bring them to the ones the arithmetic lemmas and
    [lia] know. *)
Ltac std_Z :=
  change IntDef.Z.add with Z.add in *;
  change IntDef.Z.sub with Z.sub in *;
  change IntDef.Z.mul with Z.mul in *;
  change IntDef.Z.opp with Z.opp in *;
  change IntDef.Z.max with Z.max in *;
  change IntDef.Z.min with Z.min in *;
  change IntDef.Z.leb with Z.leb in *;
  change IntDef.Z.ltb with Z.ltb in *;
  change IntDef.Z.eqb with Z.eqb in *;
  change IntDef.Z.compare with Z.compare in *;
  change IntDef.Z.div with Z.div in *;
  change IntDef.Z.modulo with Z.modulo in *;
  change IntDef.Z.div_eucl with Z.div_eucl in *;
  change IntDef.Z.pow with Z.pow in *;
  change IntDef.Z.even with Z.even in *;
  change IntDef.Z.div2 with Z.div2 in *;
  change IntDef.Z.shiftl with Z.shiftl in *;
  change PosDef.Pos.mul with Pos.mul in *;
  change @PosDef.Pos.iter with @Pos.iter in *.

Lemma digits2_size (p : positive) : digits2_pos p = Pos.size p.
Proof. induction p; simpl; congruence. Qed.

Lemma Zdigits2_bounds (m : Z) :
  0 < m -> 2 ^ (Zdigits2 m - 1) <= m < 2 ^ Zdigits2 m.
Proof.
  destruct m as [|p|p]; try lia. intros _. cbn [Zdigits2].
  rewrite digits2_size. split.
  - pose proof (Pos.size_le p) as H.
    assert (H2 : 2 ^ Z.pos (Pos.size p) <= 2 * Z.pos p).
    { apply (Pos2Z.pos_le_pos _ _) in H.
      rewrite Pos2Z.inj_pow in H. exact H. }
    replace (Z.pos (Pos.size p)) with (Z.succ (Z.pos (Pos.size p) - 1)) in H2
      by lia.
    rewrite Z.pow_succ_r in H2 by lia. lia.
  - pose proof (Pos.size_gt p) as H.
    apply (Pos2Z.pos_lt_pos _ _) in H. rewrite Pos2Z.inj_pow in H. exact H.
Qed.

Lemma Zdigits2_nonneg (m : Z) : 0 <= Zdigits2 m.
Proof. destruct m; cbn; lia. Qed.

(** [Zdigits2] is characterised by the bounds. *)
Lemma Zdigits2_unique (m d : Z) :
  0 < m -> 2 ^ (d - 1) <= m < 2 ^ d -> Zdigits2 m = d.
Proof.
  intros Hm [Hlo Hhi]. pose proof (Zdigits2_bounds m Hm) as [Blo Bhi].
  pose proof (Zdigits2_nonneg m) as Hn.
  assert (Hd : 0 < d).
  { destruct (Z.lt_ge_cases 0 d) as [|Hd]; [assumption|].
    destruct (Z.eq_dec d 0) as [->|]; [simpl in Hhi; lia|].
    rewrite Z.pow_neg_r in Hhi by lia. lia. }
  destruct (Z.lt_trichotomy (Zdigits2 m) d) as [Hlt|[Heq|Hgt]]; [|assumption|].
  - assert (2 ^ Zdigits2 m <= 2 ^ (d - 1)) by (apply Z.pow_le_mono_r; lia). lia.
  - assert (2 ^ d <= 2 ^ (Zdigits2 m - 1)) by (apply Z.pow_le_mono_r; lia). lia.
Qed.

(** *** Shifting a mantissa right *)

Lemma shr_1_spec (m : Z) (r s : bool) :
  0 <= m ->
  shr_1 (Build_shr_record m r s) = Build_shr_record (m / 2) (Z.odd m) (r || s).
Proof.
  intros Hm. destruct m as [|p|p]; [reflexivity| |lia].
  rewrite <- Z.div2_div. destruct p; reflexivity.
Qed.

Lemma rec_of_fields (x y : Z) :
  0 < y ->
  rec_of x y
  = Build_shr_record (x / y) (y <=? 2 * (x mod y))
      (negb (x mod y =? 0) && negb (2 * (x mod y) =? y)).
Proof.
  intros Hy. unfold rec_of, loc_of.
  pose proof (Z.mod_pos_bound x y Hy) as Hr.
  destruct (Z.eqb_spec (x mod y) 0) as [H0|H0].
  - rewrite H0. cbn [shr_record_of_loc negb andb].
    destruct (Z.leb_spec y (2 * 0)); [lia|reflexivity].
  - destruct (Z.compare_spec (2 * (x mod y)) y) as [He|Hl|Hg];
      cbn [shr_record_of_loc negb andb].
    + destruct (Z.leb_spec y (2 * (x mod y))); [|lia].
      destruct (Z.eqb_spec (2 * (x mod y)) y); [reflexivity|lia].
    + destruct (Z.leb_spec y (2 * (x mod y))); [lia|].
      destruct (Z.eqb_spec (2 * (x mod y)) y); [lia|reflexivity].
    + destruct (Z.leb_spec y (2 * (x mod y))); [|lia].
      destruct (Z.eqb_spec (2 * (x mod y)) y); [lia|reflexivity].
Qed.

Lemma div_mod_double (x y : Z) :
  0 <= x -> 0 < y ->
  x / (2 * y) = x / y / 2 /\
  x mod (2 * y) = y * (if Z.odd (x / y) then 1 else 0) + x mod y.
Proof.
  intros Hx Hy.
  pose proof (Z.div_mod x y ltac:(lia)) as Hdm.
  pose proof (Z.mod_pos_bound x y Hy) as Hr.
  pose proof (Z.div_mod (x / y) 2 ltac:(lia)) as Hq.
  rewrite Zmod_odd in Hq.
  assert (Hb : 0 <= (if Z.odd (x / y) then 1 else 0) <= 1)
    by (destruct (Z.odd (x / y)); lia).
  set (b := if Z.odd (x / y) then 1 else 0) in *.
  set (q := x / y) in *. set (r := x mod y) in *. set (q' := q / 2) in *.
  assert (Hx' : x = (2 * y) * q' + (y * b + r)) by nia.
  assert (Hbound : 0 <= y * b + r < 2 * y) by nia.
  split.
  - symmetry. apply (Z.div_unique x (2 * y) q' (y * b + r)); [lia|exact Hx'].
  - symmetry. apply (Z.mod_unique x (2 * y) q' (y * b + r)); [lia|exact Hx'].
Qed.

Lemma shr_1_rec_of (x y : Z) :
  0 <= x -> 0 < y -> shr_1 (rec_of x y) = rec_of x (2 * y).
Proof.
  intros Hx Hy.
  rewrite (rec_of_fields x y Hy), (rec_of_fields x (2 * y)) by lia.
  rewrite shr_1_spec by (apply Z.div_pos; lia).
  destruct (div_mod_double x y Hx Hy) as [-> ->].
  pose proof (Z.mod_pos_bound x y Hy) as Hr.
  set (r := x mod y) in *. f_equal.
  - destruct (Z.odd (x / y));
      destruct (Z.leb_spec (2 * y) (2 * (y * 1 + r)));
      destruct (Z.leb_spec (2 * y) (2 * (y * 0 + r))); try reflexivity; lia.
  - destruct (Z.odd (x / y));
      destruct (Z.leb_spec y (2 * r));
      destruct (Z.eqb_spec r 0);
      destruct (Z.eqb_spec (2 * r) y);
      destruct (Z.eqb_spec (y * 1 + r) 0);
      destruct (Z.eqb_spec (y * 0 + r) 0);
      destruct (Z.eqb_spec (2 * (y * 1 + r)) (2 * y));
      destruct (Z.eqb_spec (2 * (y * 0 + r)) (2 * y));
      try reflexivity; lia.
Qed.

Lemma pow2_xI (p : positive) :
  2 ^ Z.pos p~1 = 2 * (2 ^ Z.pos p * 2 ^ Z.pos p).
Proof.
  replace (Z.pos p~1) with (Z.pos p + Z.pos p + 1) by lia.
  rewrite !Z.pow_add_r by lia. change (2 ^ 1) with 2. ring.
Qed.

Lemma pow2_xO (p : positive) : 2 ^ Z.pos p~0 = 2 ^ Z.pos p * 2 ^ Z.pos p.
Proof.
  replace (Z.pos p~0) with (Z.pos p + Z.pos p) by lia.
  rewrite !Z.pow_add_r by lia. ring.
Qed.

Lemma iter_pos_shr_1 (p : positive) :
  forall x y, 0 <= x -> 0 < y ->
    iter_pos shr_1 p (rec_of x y) = rec_of x (y * 2 ^ Z.pos p).
Proof.
  induction p as [p IH|p IH|]; intros x y Hx Hy; cbn [iter_pos].
  - assert (Hp : 0 < 2 ^ Z.pos p) by (apply Z.pow_pos_nonneg; lia).
    rewrite shr_1_rec_of, IH, IH by (try apply Z.mul_pos_pos; lia).
    f_equal. rewrite pow2_xI. ring.
  - assert (Hp : 0 < 2 ^ Z.pos p) by (apply Z.pow_pos_nonneg; lia).
    rewrite IH, IH by (try apply Z.mul_pos_pos; lia).
    f_equal. rewrite pow2_xO. ring.
  - rewrite shr_1_rec_of by assumption. f_equal. change (2 ^ 1) with 2. ring.
Qed.

Lemma shr_rec_of (x y e s : Z) :
  0 <= x -> 0 < y -> 0 <= s ->
  shr (rec_of x y) e s = (rec_of x (y * 2 ^ s), e + s).
Proof.
  intros Hx Hy Hs. destruct s as [|p|p]; [|simpl|lia].
  - cbn [shr]. rewrite Z.pow_0_r, Z.mul_1_r, Z.add_0_r. reflexivity.
  - rewrite iter_pos_shr_1 by assumption. reflexivity.
Qed.

Lemma loc_of_shr_record_of_loc (m : Z) (l : location) :
  loc_of_shr_record (shr_record_of_loc m l) = l.
Proof. destruct l as [|[]]; reflexivity. Qed.

Lemma shr_m_of_loc (m : Z) (l : location) : shr_m (shr_record_of_loc m l) = m.
Proof. destruct l as [|[]]; reflexivity. Qed.

Lemma round_nearest_even_rne (x y : Z) :
  0 < y -> round_nearest_even (x / y) (loc_of (x mod y) y) = rne x y.
Proof.
  intros Hy. unfold loc_of, rne.
  pose proof (Z.mod_pos_bound x y Hy) as Hr.
  destruct (Z.eqb_spec (x mod y) 0) as [H0|H0]; cbn [round_nearest_even].
  - rewrite H0. destruct (Z.compare_spec (2 * 0) y); lia.
  - reflexivity.
Qed.

Lemma fexp_eq (z : Z) : fexp prec emax z = Z.max (z - 53) (-1074).
Proof. reflexivity. Qed.

Lemma rne_bounds (x y : Z) :
  0 <= x -> 0 < y -> x / y <= rne x y <= x / y + 1.
Proof.
  intros Hx Hy. unfold rne.
  destruct (2 * (x mod y) ?= y); [destruct (Z.even (x / y))| |]; lia.
Qed.

Lemma pow2_53 : 2 ^ 53 = 9007199254740992.
Proof. reflexivity. Qed.

Lemma finish_second_stage (n k : Z) :
  0 <= n <= 2 ^ 53 -> -1074 <= k ->
  (let '(mrs, e) := shr_fexp prec emax n k loc_Exact in
   match shr_m mrs with
   | Z0 => S754_zero false
   | Zpos m => if e <=? emax - prec then S754_finite false m e
               else S754_infinity false
   | Zneg _ => S754_nan
   end) = finish n k.
Proof.
  intros Hn Hk. unfold shr_fexp, finish. rewrite fexp_eq.
  change (emax - prec) with 971.
  destruct (Z.ltb_spec n (2 ^ 53)) as [Hlt|Hge].
  - assert (Hs : Z.max (Zdigits2 n + k - 53) (-1074) - k <= 0).
    { destruct (Z.eq_dec n 0) as [->|Hz]; [cbn [Zdigits2]; lia|].
      pose proof (Zdigits2_bounds n ltac:(lia)) as [Hlo _].
      assert (Zdigits2 n <= 53); [|lia].
      destruct (Z.le_gt_cases (Zdigits2 n) 53) as [|Hgt]; [assumption|].
      assert (2 ^ 53 <= 2 ^ (Zdigits2 n - 1)) by (apply Z.pow_le_mono_r; lia).
      lia. }
    destruct (Z.max (Zdigits2 n + k - 53) (-1074) - k) as [|p|p] eqn:E;
      [|lia|]; cbn [shr shr_record_of_loc shr_m]; reflexivity.
  - assert (n = 2 ^ 53) as -> by lia.
    change (Zdigits2 (2 ^ 53)) with 54.
    replace (Z.max (54 + k - 53) (-1074) - k) with 1 by lia.
    cbn [shr iter_pos shr_record_of_loc]. reflexivity.
Qed.

(** *** What [binary_round_aux] computes *)

Lemma canon_shift (x y e : Z) :
  0 <= x -> 0 < y ->
  let k := fexp prec emax (Zdigits2 (x / y) + e) in
  e <= k -> canon x (y * 2 ^ (k - e)) k.
Proof.
  intros Hx Hy k Hek. unfold canon.
  assert (Hk : k = Z.max (Zdigits2 (x / y) + e - 53) (-1074)) by reflexivity.
  assert (Hs : 0 < 2 ^ (k - e)) by (apply Z.pow_pos_nonneg; lia).
  rewrite <- Z.div_div by lia.
  assert (Hq : 0 <= x / y) by (apply Z.div_pos; lia).
  destruct (Z.eq_dec (x / y) 0) as [H0|H0].
  - rewrite H0 in *. cbn [Zdigits2] in Hk. rewrite Z.div_0_l by lia.
    repeat split; try lia.
  - pose proof (Zdigits2_bounds (x / y) ltac:(lia)) as [Hlo Hhi].
    set (d := Zdigits2 (x / y)) in *. set (q := x / y) in *.
    split; [lia|]. split.
    + apply Z.div_lt_upper_bound; [lia|].
      rewrite <- Z.pow_add_r by lia.
      assert (2 ^ d <= 2 ^ (k - e + 53)) by (apply Z.pow_le_mono_r; lia). lia.
    + destruct (Z.eq_dec k (-1074)) as [|Hne]; [left; assumption|right].
      assert (Hkd : k - e = d - 53) by lia.
      apply Z.div_le_lower_bound; [lia|].
      rewrite <- Z.pow_add_r by lia. rewrite Hkd.
      replace (d - 53 + 52) with (d - 1) by lia. exact Hlo.
Qed.

Lemma binary_round_aux_spec (x y e : Z) :
  0 <= x -> 0 < y ->
  let k := fexp prec emax (Zdigits2 (x / y) + e) in
  e <= k ->
  binary_round_aux prec emax false (x / y) e (loc_of (x mod y) y)
  = finish (rne x (y * 2 ^ (k - e))) k.
Proof.
  intros Hx Hy k Hek.
  pose proof (canon_shift x y e Hx Hy Hek) as (Hk & Hlt & _). fold k in Hk, Hlt.
  assert (Hs : 0 < 2 ^ (k - e)) by (apply Z.pow_pos_nonneg; lia).
  assert (HY : 0 < y * 2 ^ (k - e)) by (apply Z.mul_pos_pos; lia).
  unfold binary_round_aux.
  assert (H1 : shr_fexp prec emax (x / y) e (loc_of (x mod y) y)
               = (rec_of x (y * 2 ^ (k - e)), k)).
  { unfold shr_fexp. fold (rec_of x y). fold k. clearbody k.
    rewrite shr_rec_of by (std_Z; lia). f_equal. std_Z. lia. }
  rewrite H1. clearbody k.
  unfold rec_of at 1 2. rewrite shr_m_of_loc, loc_of_shr_record_of_loc.
  rewrite round_nearest_even_rne by assumption.
  apply finish_second_stage; [|assumption].
  pose proof (rne_bounds x (y * 2 ^ (k - e)) Hx HY).
  assert (0 <= x / (y * 2 ^ (k - e))) by (apply Z.div_pos; lia). lia.
Qed.

(** *** The rounding is monotone *)

Lemma rne_mono (x1 y1 x2 y2 : Z) :
  0 <= x1 -> 0 < y1 -> 0 <= x2 -> 0 < y2 ->
  x1 * y2 <= x2 * y1 -> rne x1 y1 <= rne x2 y2.
Proof.
  intros Hx1 Hy1 Hx2 Hy2 Hle.
  pose proof (Z.div_mod x1 y1 ltac:(lia)) as D1.
  pose proof (Z.div_mod x2 y2 ltac:(lia)) as D2.
  pose proof (Z.mod_pos_bound x1 y1 Hy1) as R1.
  pose proof (Z.mod_pos_bound x2 y2 Hy2) as R2.
  pose proof (rne_bounds x1 y1 Hx1 Hy1) as B1.
  pose proof (rne_bounds x2 y2 Hx2 Hy2) as B2.
  unfold rne in *.
  set (q1 := x1 / y1) in *. set (r1 := x1 mod y1) in *.
  set (q2 := x2 / y2) in *. set (r2 := x2 mod y2) in *.
  destruct (Z.lt_trichotomy q1 q2) as [Hlt|[Heq|Hgt]].
  - lia.
  - rewrite Heq in *. clear Heq.
    assert (Hr : r1 * y2 <= r2 * y1) by nia.
    destruct (Z.compare_spec (2 * r1) y1) as [E1|L1|G1];
      destruct (Z.compare_spec (2 * r2) y2) as [E2|L2|G2];
      try destruct (Z.even q2); try lia; exfalso; nia.
  - exfalso.
    assert (H1 : x1 * y2 = y1 * y2 * q1 + r1 * y2) by (rewrite D1 at 1; ring).
    assert (H2 : x2 * y1 = y1 * y2 * q2 + r2 * y1) by (rewrite D2 at 1; ring).
    assert (H3 : y1 * y2 * (q2 + 1) <= y1 * y2 * q1)
      by (apply Z.mul_le_mono_nonneg_l; nia).
    assert (H4 : r2 * y1 < y2 * y1) by (apply Z.mul_lt_mono_pos_r; lia).
    assert (H5 : 0 <= r1 * y2) by (apply Z.mul_nonneg_nonneg; lia).
    lia.
Qed.

Lemma finish_mk (n k : Z) :
  finish n k = if n <? 2 ^ 53 then mk_float n k else mk_float (n / 2) (k + 1).
Proof. unfold finish, mk_float. destruct (n <? 2 ^ 53); reflexivity. Qed.

Lemma mk_float_le (m1 e1 m2 e2 : Z) :
  0 <= m1 -> 0 < m2 -> e1 < e2 \/ (e1 = e2 /\ m1 <= m2) ->
  fleb (mk_float m1 e1) (mk_float m2 e2) = true.
Proof.
  intros H1 H2 H. destruct m2 as [|p2|p2]; try lia.
  destruct m1 as [|p1|p1]; try lia; unfold mk_float, fleb, SFleb.
  - destruct (e2 <=? 971); reflexivity.
  - destruct (Z.leb_spec e1 971), (Z.leb_spec e2 971); cbn [SFcompare];
      try reflexivity; try lia.
    std_Z. destruct (Z.compare_spec e1 e2) as [He|Hl|Hg]; try reflexivity;
      try lia.
    destruct H as [H|[_ H]]; [lia|].
    change (PosDef.Pos.compare_cont Eq p1 p2) with (Pos.compare p1 p2).
    destruct (Pos.compare_spec p1 p2); try reflexivity. lia.
Qed.

Lemma finish_mono_same (n1 n2 k : Z) :
  0 <= n1 <= n2 -> n2 <= 2 ^ 53 ->
  fleb (finish n1 k) (finish n2 k) = true.
Proof.
  intros H1 H2. rewrite !finish_mk. rewrite pow2_53 in *.
  destruct (Z.eq_dec n2 0) as [->|Hz].
  - assert (n1 = 0) as -> by lia. reflexivity.
  - destruct (Z.ltb_spec n1 9007199254740992), (Z.ltb_spec n2 9007199254740992).
    + apply mk_float_le; lia.
    + assert (n2 = 9007199254740992) as -> by lia.
      change (9007199254740992 / 2) with 4503599627370496.
      apply mk_float_le; lia.
    + lia.
    + assert (n2 = 9007199254740992) as -> by lia.
      assert (n1 = 9007199254740992) as -> by lia.
      change (9007199254740992 / 2) with 4503599627370496.
      apply mk_float_le; lia.
Qed.

Lemma finish_mono_lt (n1 k1 n2 k2 : Z) :
  0 <= n1 <= 2 ^ 53 -> 2 ^ 52 <= n2 <= 2 ^ 53 -> k1 < k2 ->
  fleb (finish n1 k1) (finish n2 k2) = true.
Proof.
  intros H1 H2 Hk. rewrite !finish_mk. rewrite pow2_53 in *.
  change (2 ^ 52) with 4503599627370496 in *.
  destruct (Z.ltb_spec n1 9007199254740992), (Z.ltb_spec n2 9007199254740992).
  - apply mk_float_le; lia.
  - assert (n2 = 9007199254740992) as -> by lia.
    change (9007199254740992 / 2) with 4503599627370496.
    apply mk_float_le; lia.
  - assert (n1 = 9007199254740992) as -> by lia.
    change (9007199254740992 / 2) with 4503599627370496.
    apply mk_float_le; lia.
  - assert (n2 = 9007199254740992) as -> by lia.
    assert (n1 = 9007199254740992) as -> by lia.
    change (9007199254740992 / 2) with 4503599627370496.
    apply mk_float_le; lia.
Qed.

Lemma round_mono (x1 y1 k1 x2 y2 k2 : Z) :
  0 <= x1 -> 0 < y1 -> 0 <= x2 -> 0 < y2 ->
  canon x1 y1 k1 -> canon x2 y2 k2 ->
  val_le x1 y1 k1 x2 y2 k2 ->
  fleb (finish (rne x1 y1) k1) (finish (rne x2 y2) k2) = true.
Proof.
  intros Hx1 Hy1 Hx2 Hy2 (Hk1 & Hu1 & Hl1) (Hk2 & Hu2 & Hl2) Hle.
  pose proof (rne_bounds x1 y1 Hx1 Hy1) as B1.
  pose proof (rne_bounds x2 y2 Hx2 Hy2) as B2.
  assert (Q1 : 0 <= x1 / y1) by (apply Z.div_pos; lia).
  assert (Q2 : 0 <= x2 / y2) by (apply Z.div_pos; lia).
  unfold val_le in Hle.
  destruct (Z.lt_trichotomy k1 k2) as [Hlt|[Heq|Hgt]].
  - apply finish_mono_lt; lia.
  - subst k2. rewrite Z.min_id, Z.sub_diag, Z.pow_0_r, !Z.mul_1_r in Hle.
    apply finish_mono_same; [|lia].
    pose proof (rne_mono x1 y1 x2 y2 Hx1 Hy1 Hx2 Hy2 Hle). lia.
  - exfalso. rewrite Z.min_r, Z.sub_diag, Z.pow_0_r, Z.mul_1_r in Hle by lia.
    assert (Hp : 2 <= 2 ^ (k1 - k2)).
    { change 2 with (2 ^ 1) at 1. apply Z.pow_le_mono_r; lia. }
    assert (H52 : 2 ^ 52 <= x1 / y1) by lia.
    pose proof (Z.div_mod x1 y1 ltac:(lia)) as D1.
    pose proof (Z.div_mod x2 y2 ltac:(lia)) as D2.
    pose proof (Z.mod_pos_bound x1 y1 Hy1) as R1.
    pose proof (Z.mod_pos_bound x2 y2 Hy2) as R2.
    rewrite pow2_53 in *. change (2 ^ 52) with 4503599627370496 in *.
    set (q1 := x1 / y1) in *. set (q2 := x2 / y2) in *.
    set (P := 2 ^ (k1 - k2)) in *.
    assert (A1 : 4503599627370496 * y1 <= x1) by nia.
    assert (A2 : x2 < 9007199254740992 * y2) by nia.
    assert (A3 : 4503599627370496 * y1 * y2 * 2 <= x1 * y2 * P).
    { assert (4503599627370496 * y1 * y2 <= x1 * y2) by nia.
      assert (0 <= x1 * y2) by nia. nia. }
    assert (A4 : x2 * y1 < 9007199254740992 * y2 * y1) by nia.
    lia.
Qed.

(** *** Comparing values *)

Lemma pow_le_shift (a b p q t : Z) :
  0 <= p -> 0 <= q -> 0 <= p + t -> 0 <= q + t ->
  (a * 2 ^ p <= b * 2 ^ q <-> a * 2 ^ (p + t) <= b * 2 ^ (q + t)).
Proof.
  intros Hp Hq Hpt Hqt.
  destruct (Z.le_gt_cases 0 t) as [Ht|Ht].
  - rewrite (Z.pow_add_r 2 p t), (Z.pow_add_r 2 q t), !Z.mul_assoc by lia.
    assert (0 < 2 ^ t) by (apply Z.pow_pos_nonneg; lia).
    apply Z.mul_le_mono_pos_r. assumption.
  - replace (2 ^ p) with (2 ^ (p + t) * 2 ^ (- t))
      by (rewrite <- Z.pow_add_r by lia; f_equal; lia).
    replace (2 ^ q) with (2 ^ (q + t) * 2 ^ (- t))
      by (rewrite <- Z.pow_add_r by lia; f_equal; lia).
    rewrite !Z.mul_assoc.
    assert (0 < 2 ^ (- t)) by (apply Z.pow_pos_nonneg; lia).
    symmetry. apply Z.mul_le_mono_pos_r. assumption.
Qed.

Lemma val_le_shift (x1 y1 k1 x2 y2 k2 s : Z) :
  0 <= k1 + s -> 0 <= k2 + s ->
  (val_le x1 y1 k1 x2 y2 k2
   <-> x1 * y2 * 2 ^ (k1 + s) <= x2 * y1 * 2 ^ (k2 + s)).
Proof.
  intros H1 H2. unfold val_le.
  rewrite (pow_le_shift (x1 * y2) (x2 * y1) (k1 - Z.min k1 k2)
             (k2 - Z.min k1 k2) (s + Z.min k1 k2)) by lia.
  replace (k1 - Z.min k1 k2 + (s + Z.min k1 k2)) with (k1 + s) by lia.
  replace (k2 - Z.min k1 k2 + (s + Z.min k1 k2)) with (k2 + s) by lia.
  reflexivity.
Qed.

(** The same value written in a coarser unit. *)
Lemma val_le_rescale (x1 y1 k1 x2 y2 k2 s1 s2 : Z) :
  0 <= s1 -> 0 <= s2 ->
  (val_le x1 (y1 * 2 ^ s1) (k1 + s1) x2 (y2 * 2 ^ s2) (k2 + s2)
   <-> val_le x1 y1 k1 x2 y2 k2).
Proof.
  intros H1 H2.
  set (s := Z.max 0 (- Z.min k1 k2)).
  rewrite (val_le_shift x1 (y1 * 2 ^ s1) (k1 + s1) x2 (y2 * 2 ^ s2) (k2 + s2) s)
    by lia.
  rewrite (val_le_shift x1 y1 k1 x2 y2 k2 (s + s1 + s2)) by lia.
  replace (k1 + (s + s1 + s2)) with (k1 + s1 + s + s2) by lia.
  replace (k2 + (s + s1 + s2)) with (k2 + s2 + s + s1) by lia.
  rewrite (Z.pow_add_r 2 (k1 + s1 + s) s2), (Z.pow_add_r 2 (k2 + s2 + s) s1)
    by lia.
  replace (x1 * (y2 * 2 ^ s2) * 2 ^ (k1 + s1 + s))
    with (x1 * y2 * (2 ^ (k1 + s1 + s) * 2 ^ s2)) by ring.
  replace (x2 * (y1 * 2 ^ s1) * 2 ^ (k2 + s2 + s))
    with (x2 * y1 * (2 ^ (k2 + s2 + s) * 2 ^ s1)) by ring.
  reflexivity.
Qed.

(** *** [binary_round_aux] is monotone *)

Lemma round_of_mono (x1 y1 e1 x2 y2 e2 : Z) :
  shift_ok x1 y1 e1 -> shift_ok x2 y2 e2 ->
  val_le x1 y1 e1 x2 y2 e2 ->
  fleb (round_of x1 y1 e1) (round_of x2 y2 e2) = true.
Proof.
  intros (Hx1 & Hy1 & Hk1) (Hx2 & Hy2 & Hk2) Hle. unfold round_of.
  rewrite !binary_round_aux_spec by assumption.
  pose proof (canon_shift x1 y1 e1 Hx1 Hy1 Hk1) as C1.
  pose proof (canon_shift x2 y2 e2 Hx2 Hy2 Hk2) as C2.
  cbv zeta in C1, C2.
  set (k1 := fexp prec emax (Zdigits2 (x1 / y1) + e1)) in *.
  set (k2 := fexp prec emax (Zdigits2 (x2 / y2) + e2)) in *.
  clearbody k1 k2.
  assert (P1 : 0 < 2 ^ (k1 - e1)) by (apply Z.pow_pos_nonneg; lia).
  assert (P2 : 0 < 2 ^ (k2 - e2)) by (apply Z.pow_pos_nonneg; lia).
  apply round_mono; try assumption; try (apply Z.mul_pos_pos; lia).
  replace k1 with (e1 + (k1 - e1)) at 2 by lia.
  replace k2 with (e2 + (k2 - e2)) at 2 by lia.
  apply val_le_rescale; [lia|lia|assumption].
Qed.

(** *** Canonical floats *)

Lemma mk_float_canonical (m e : Z) :
  0 <= m < 2 ^ 53 -> -1074 <= e -> (e = -1074 \/ 2 ^ 52 <= m \/ m = 0) ->
  canonical (mk_float m e).
Proof.
  intros Hm He Hc. destruct m as [|p|p]; [exact I| |lia].
  unfold mk_float. destruct (e <=? 971); [|exact I].
  cbn [canonical]. repeat split; try lia.
Qed.

Lemma finish_canonical (x y k : Z) :
  0 <= x -> 0 < y -> canon x y k -> canonical (finish (rne x y) k).
Proof.
  intros Hx Hy (Hk & Hu & Hl).
  pose proof (rne_bounds x y Hx Hy) as B.
  assert (Q : 0 <= x / y) by (apply Z.div_pos; lia).
  rewrite finish_mk. rewrite pow2_53 in *.
  change (2 ^ 52) with 4503599627370496 in *.
  destruct (Z.ltb_spec (rne x y) 9007199254740992).
  - apply mk_float_canonical; rewrite ?pow2_53;
      change (2 ^ 52) with 4503599627370496; lia.
  - assert (rne x y = 9007199254740992) as -> by lia.
    change (9007199254740992 / 2) with 4503599627370496.
    apply mk_float_canonical; rewrite ?pow2_53;
      change (2 ^ 52) with 4503599627370496; lia.
Qed.

Lemma round_of_canonical (x y e : Z) :
  shift_ok x y e -> canonical (round_of x y e).
Proof.
  intros (Hx & Hy & Hk). unfold round_of.
  rewrite binary_round_aux_spec by assumption.
  pose proof (canon_shift x y e Hx Hy Hk) as C. cbv zeta in C.
  set (k := fexp prec emax (Zdigits2 (x / y) + e)) in *. clearbody k.
  assert (0 < 2 ^ (k - e)) by (apply Z.pow_pos_nonneg; lia).
  apply finish_canonical; [assumption| |assumption].
  apply Z.mul_pos_pos; lia.
Qed.

(** On canonical floats the order of [fleb] is the order of the values. *)
Lemma canonical_val_le (m1 : positive) (e1 : Z) (m2 : positive) (e2 : Z) :
  canonical (S754_finite false m1 e1) -> canonical (S754_finite false m2 e2) ->
  fleb (S754_finite false m1 e1) (S754_finite false m2 e2) = true ->
  val_le (Z.pos m1) 1 e1 (Z.pos m2) 1 e2.
Proof.
  intros (K1 & U1 & L1) (K2 & U2 & L2) H.
  unfold fleb, SFleb in H. cbn [SFcompare] in H. std_Z.
  unfold val_le. rewrite !Z.mul_1_r.
  rewrite pow2_53 in *. change (2 ^ 52) with 4503599627370496 in *.
  destruct (Z.compare_spec e1 e2) as [He|Hl|Hg]; [| |discriminate H].
  - subst e2. rewrite Z.min_id, Z.sub_diag, Z.pow_0_r, !Z.mul_1_r.
    change (PosDef.Pos.compare_cont Eq m1 m2) with (Pos.compare m1 m2) in H.
    destruct (Pos.compare_spec m1 m2); try discriminate H; lia.
  - rewrite Z.min_l, Z.sub_diag, Z.pow_0_r, Z.mul_1_r by lia.
    assert (Hp : 2 <= 2 ^ (e2 - e1)).
    { change 2 with (2 ^ 1) at 1. apply Z.pow_le_mono_r; lia. }
    nia.
Qed.

Lemma fleb_zero_canonical (f : float) :
  canonical f -> fleb (S754_zero false) f = true.
Proof. destruct f as [[|]|[|]| |[|] m e]; intros H; try contradiction H; reflexivity. Qed.

Lemma fleb_canonical_inf (f : float) :
  canonical f -> fleb f (S754_infinity false) = true.
Proof. destruct f as [[|]|[|]| |[|] m e]; intros H; try contradiction H; reflexivity. Qed.

(** *** Multiplication by a positive normal constant *)

Lemma round_of_exact (x e : Z) :
  round_of x 1 e = binary_round_aux prec emax false x e loc_Exact.
Proof. unfold round_of. rewrite Z.div_1_r, Z.mod_1_r. reflexivity. Qed.

Lemma shift_ok_wide (x e : Z) : 2 ^ 52 <= x -> shift_ok x 1 e.
Proof.
  intros Hx. assert (H0 : 0 < x) by (pose proof (Z.pow_pos_nonneg 2 52); lia).
  unfold shift_ok. rewrite Z.div_1_r, fexp_eq. repeat split; try lia.
  pose proof (Zdigits2_bounds x H0) as [_ Hhi].
  assert (53 <= Zdigits2 x); [|lia].
  destruct (Z.le_gt_cases 53 (Zdigits2 x)) as [|Hlt]; [assumption|].
  assert (2 ^ Zdigits2 x <= 2 ^ 52)
    by (apply Z.pow_le_mono_r; [lia|]; lia). lia.
Qed.

Lemma fmul_finite (mx : positive) (ex : Z) (mc : positive) (ec : Z) :
  fmul (S754_finite false mx ex) (S754_finite false mc ec)
  = round_of (Z.pos mx * Z.pos mc) 1 (ex + ec).
Proof. rewrite round_of_exact. reflexivity. Qed.

Lemma shift_ok_mul (mx mc : positive) (e : Z) :
  2 ^ 52 <= Z.pos mc -> shift_ok (Z.pos mx * Z.pos mc) 1 e.
Proof. intros H. apply shift_ok_wide. nia. Qed.

Lemma fmul_canonical (x : float) (mc : positive) (ec : Z) :
  2 ^ 52 <= Z.pos mc -> canonical x ->
  canonical (fmul x (S754_finite false mc ec)).
Proof.
  intros Hc Hx. destruct x as [[|]|[|]| |[|] mx ex]; try contradiction Hx;
    try exact I.
  rewrite fmul_finite. apply round_of_canonical, shift_ok_mul, Hc.
Qed.

Lemma val_le_mul (m1 e1 m2 e2 c ec : Z) :
  0 < c -> val_le m1 1 e1 m2 1 e2 ->
  val_le (m1 * c) 1 (e1 + ec) (m2 * c) 1 (e2 + ec).
Proof.
  intros Hc H.
  set (s := Z.max 0 (Z.max (- (e1 + ec)) (- (e2 + ec)))).
  apply (val_le_shift _ _ _ _ _ _ s); [lia|lia|].
  apply (val_le_shift _ _ _ _ _ _ (ec + s)) in H; [|lia|lia].
  replace (e1 + ec + s) with (e1 + (ec + s)) by lia.
  replace (e2 + ec + s) with (e2 + (ec + s)) by lia.
  rewrite !Z.mul_1_r in *.
  replace (m1 * c * 2 ^ (e1 + (ec + s))) with (m1 * 2 ^ (e1 + (ec + s)) * c)
    by ring.
  replace (m2 * c * 2 ^ (e2 + (ec + s))) with (m2 * 2 ^ (e2 + (ec + s)) * c)
    by ring.
  apply Z.mul_le_mono_nonneg_r; lia.
Qed.

Lemma fmul_mono (x1 x2 : float) (mc : positive) (ec : Z) :
  2 ^ 52 <= Z.pos mc -> canonical x1 -> canonical x2 -> fleb x1 x2 = true ->
  fleb (fmul x1 (S754_finite false mc ec)) (fmul x2 (S754_finite false mc ec))
  = true.
Proof.
  intros Hc H1 H2 Hle.
  pose proof (fmul_canonical x1 mc ec Hc H1) as C1.
  pose proof (fmul_canonical x2 mc ec Hc H2) as C2.
  destruct x1 as [[|]|[|]| |[|] m1 e1]; try contradiction H1;
    destruct x2 as [[|]|[|]| |[|] m2 e2]; try contradiction H2;
    try discriminate Hle;
    try (apply fleb_zero_canonical; assumption);
    try (apply fleb_canonical_inf; assumption).
  rewrite !fmul_finite. apply round_of_mono; try (apply shift_ok_mul, Hc).
  apply val_le_mul; [lia|]. apply canonical_val_le; assumption.
Qed.

(** *** Division by a positive constant *)

Lemma new_location_loc_of (y r : Z) :
  0 < y -> 0 <= r < y -> new_location y r = loc_of r y.
Proof.
  intros Hy Hr.
  unfold new_location, new_location_even, new_location_odd, loc_of. std_Z.
  destruct (Z.even y) eqn:Hev; cbv beta; [reflexivity|].
  destruct (Z.eqb_spec r 0) as [H0|H0]; [reflexivity|]. f_equal.
  assert (Hodd : Z.odd y = true) by (rewrite <- Z.negb_even, Hev; reflexivity).
  apply Z.odd_spec in Hodd. destruct Hodd as [h Hh].
  destruct (Z.compare_spec (2 * r + 1) y), (Z.compare_spec (2 * r) y);
    try reflexivity; lia.
Qed.

Lemma div_eucl_div_mod (a b : Z) : Z.div_eucl a b = (a / b, a mod b).
Proof. unfold Z.div, Z.modulo. destruct (Z.div_eucl a b). reflexivity. Qed.

Lemma fdiv_finite (mx : positive) (ex : Z) (mc : positive) (ec : Z) :
  let e' := div_exp mx ex mc ec in
  fdiv (S754_finite false mx ex) (S754_finite false mc ec)
  = round_of (Z.pos mx * 2 ^ (ex - ec - e')) (Z.pos mc) e'.
Proof.
  intros e'. unfold fdiv, SFdiv, SFdiv_core_binary. std_Z.
  fold (div_exp mx ex mc ec). fold e'.
  assert (Hs : 0 <= ex - ec - e') by (unfold e', div_exp; lia).
  assert (Hm : match ex - ec - e' with
               | Z0 => Z.pos mx
               | Z.pos _ => Z.shiftl (Z.pos mx) (ex - ec - e')
               | Z.neg _ => 0
               end = Z.pos mx * 2 ^ (ex - ec - e')).
  { destruct (ex - ec - e') as [|p|p] eqn:E; [| |lia].
    - rewrite Z.pow_0_r, Z.mul_1_r. reflexivity.
    - apply Z.shiftl_mul_pow2. lia. }
  rewrite Hm, div_eucl_div_mod. cbn [xorb].
  unfold round_of. rewrite new_location_loc_of; [reflexivity|lia|].
  apply Z.mod_pos_bound. lia.
Qed.

Lemma shift_ok_div (mx : positive) (ex : Z) (mc : positive) (ec : Z) :
  let e' := div_exp mx ex mc ec in
  shift_ok (Z.pos mx * 2 ^ (ex - ec - e')) (Z.pos mc) e'.
Proof.
  intros e'.
  assert (He : e' <= ex - ec) by (unfold e', div_exp; lia).
  assert (Hf : e' <= fexp prec emax (Zdigits2 (Z.pos mx) + ex
                                     - (Zdigits2 (Z.pos mc) + ec)))
    by (unfold e', div_exp; lia).
  rewrite fexp_eq in Hf.
  pose proof (Zdigits2_bounds (Z.pos mx) ltac:(lia)) as [L1 _].
  pose proof (Zdigits2_bounds (Z.pos mc) ltac:(lia)) as [_ U2].
  assert (Hd1 : 0 < Zdigits2 (Z.pos mx)) by (cbn [Zdigits2]; lia).
  assert (Hd2 : 0 < Zdigits2 (Z.pos mc)) by (cbn [Zdigits2]; lia).
  set (d1 := Zdigits2 (Z.pos mx)) in *. set (d2 := Zdigits2 (Z.pos mc)) in *.
  clearbody e'.
  assert (Hp : 0 < 2 ^ (ex - ec - e')) by (apply Z.pow_pos_nonneg; lia).
  unfold shift_ok. split; [lia|]. split; [lia|]. rewrite fexp_eq.
  destruct (Z.le_gt_cases e' (-1074)) as [Hlow|Hhigh]; [lia|].
  assert (Hq : 2 ^ 52 <= Z.pos mx * 2 ^ (ex - ec - e') / Z.pos mc).
  { apply Z.div_le_lower_bound; [lia|].
    set (t := Z.max 0 (53 - d1 + d2)).
    assert (H1 : 2 ^ t <= 2 ^ (ex - ec - e'))
      by (apply Z.pow_le_mono_r; lia).
    assert (H2 : 2 ^ 52 * 2 ^ d2 <= 2 ^ (d1 - 1) * 2 ^ t).
    { rewrite <- !Z.pow_add_r by lia. apply Z.pow_le_mono_r; lia. }
    assert (H3 : 2 ^ (d1 - 1) * 2 ^ t <= Z.pos mx * 2 ^ (ex - ec - e')).
    { apply Z.mul_le_mono_nonneg; try lia; apply Z.pow_nonneg; lia. }
    assert (H4 : Z.pos mc * 2 ^ 52 <= 2 ^ d2 * 2 ^ 52).
    { apply Z.mul_le_mono_nonneg_r; [apply Z.pow_nonneg|]; lia. }
    lia. }
  set (q := Z.pos mx * 2 ^ (ex - ec - e') / Z.pos mc) in *.
  assert (H0 : 0 < q) by (pose proof (Z.pow_pos_nonneg 2 52); lia).
  pose proof (Zdigits2_bounds q H0) as [_ Hhi].
  assert (53 <= Zdigits2 q); [|lia].
  destruct (Z.le_gt_cases 53 (Zdigits2 q)) as [|Hlt]; [assumption|].
  assert (2 ^ Zdigits2 q <= 2 ^ 52) by (apply Z.pow_le_mono_r; lia). lia.
Qed.

Lemma fdiv_canonical (x : float) (mc : positive) (ec : Z) :
  canonical x -> canonical (fdiv x (S754_finite false mc ec)).
Proof.
  intros Hx. destruct x as [[|]|[|]| |[|] mx ex]; try contradiction Hx;
    try exact I.
  rewrite fdiv_finite. apply round_of_canonical, shift_ok_div.
Qed.

Lemma val_le_div (m1 e1 m2 e2 c ec s1 s2 : Z) :
  0 < c -> 0 <= s1 -> 0 <= s2 ->
  val_le m1 1 e1 m2 1 e2 ->
  val_le (m1 * 2 ^ s1) c (e1 - ec - s1) (m2 * 2 ^ s2) c (e2 - ec - s2).
Proof.
  intros Hc H1 H2 H.
  set (s := Z.max 0 (Z.max (- (e1 - ec - s1)) (- (e2 - ec - s2)))).
  apply (val_le_shift _ _ _ _ _ _ s); [lia|lia|].
  apply (val_le_shift _ _ _ _ _ _ (s - ec)) in H; [|lia|lia].
  rewrite !Z.mul_1_r in H.
  replace (m1 * 2 ^ s1 * c * 2 ^ (e1 - ec - s1 + s))
    with (m1 * (2 ^ s1 * 2 ^ (e1 - ec - s1 + s)) * c) by ring.
  replace (m2 * 2 ^ s2 * c * 2 ^ (e2 - ec - s2 + s))
    with (m2 * (2 ^ s2 * 2 ^ (e2 - ec - s2 + s)) * c) by ring.
  rewrite <- !Z.pow_add_r by lia.
  replace (s1 + (e1 - ec - s1 + s)) with (e1 + (s - ec)) by lia.
  replace (s2 + (e2 - ec - s2 + s)) with (e2 + (s - ec)) by lia.
  apply Z.mul_le_mono_nonneg_r; lia.
Qed.

Lemma fdiv_mono (x1 x2 : float) (mc : positive) (ec : Z) :
  canonical x1 -> canonical x2 -> fleb x1 x2 = true ->
  fleb (fdiv x1 (S754_finite false mc ec)) (fdiv x2 (S754_finite false mc ec))
  = true.
Proof.
  intros H1 H2 Hle.
  pose proof (fdiv_canonical x1 mc ec H1) as C1.
  pose proof (fdiv_canonical x2 mc ec H2) as C2.
  destruct x1 as [[|]|[|]| |[|] m1 e1]; try contradiction H1;
    destruct x2 as [[|]|[|]| |[|] m2 e2]; try contradiction H2;
    try discriminate Hle;
    try (apply fleb_zero_canonical; assumption);
    try (apply fleb_canonical_inf; assumption).
  rewrite !fdiv_finite. apply round_of_mono; try apply shift_ok_div.
  pose proof (canonical_val_le m1 e1 m2 e2 H1 H2 Hle) as Hv.
  set (d1 := div_exp m1 e1 mc ec). set (d2 := div_exp m2 e2 mc ec).
  assert (D1 : d1 <= e1 - ec) by (unfold d1, div_exp; lia).
  assert (D2 : d2 <= e2 - ec) by (unfold d2, div_exp; lia).
  clearbody d1 d2.
  replace d1 with (e1 - ec - (e1 - ec - d1)) at 2 by lia.
  replace d2 with (e2 - ec - (e2 - ec - d2)) at 2 by lia.
  apply val_le_div; [lia|lia|lia|assumption].
Qed.

(** *** Conversion of a non-negative integer *)

Lemma iter_xO (d p : positive) :
  Z.pos (Pos.iter xO p d) = Z.pos p * 2 ^ Z.pos d.
Proof.
  induction d as [|d IH] using Pos.peano_ind.
  - cbn [Pos.iter]. change (2 ^ 1) with 2. lia.
  - rewrite Pos.iter_succ, Pos2Z.inj_succ, Z.pow_succ_r by lia.
    rewrite Pos2Z.inj_xO, IH. ring.
Qed.

Lemma Zdigits2_shift (m t : Z) :
  0 < m -> 0 <= t -> Zdigits2 (m * 2 ^ t) = Zdigits2 m + t.
Proof.
  intros Hm Ht. pose proof (Zdigits2_bounds m Hm) as [Hlo Hhi].
  assert (Hd : 0 < Zdigits2 m) by (destruct m; cbn; lia).
  assert (Hp : 0 < 2 ^ t) by (apply Z.pow_pos_nonneg; lia).
  apply Zdigits2_unique; [nia|].
  replace (Zdigits2 m + t - 1) with (Zdigits2 m - 1 + t) by lia.
  rewrite !Z.pow_add_r by lia. split; nia.
Qed.

Lemma normalize_pos (p : positive) :
  binary_normalize prec emax (Z.pos p) 0 false
  = round_of (Z.pos p * 2 ^ align p) 1 (- align p).
Proof.
  rewrite round_of_exact.
  unfold binary_normalize, binary_round, shl_align, align. std_Z.
  set (f := fexp prec emax (Z.pos (digits2_pos p) + 0)).
  rewrite Z.sub_0_r. destruct f as [|q|q].
  - rewrite Z.pow_0_r, Z.mul_1_r. reflexivity.
  - change (Z.max 0 (- Z.pos q)) with 0.
    rewrite Z.pow_0_r, Z.mul_1_r. reflexivity.
  - change (Z.max 0 (- Z.neg q)) with (Z.pos q).
    rewrite <- iter_xO. reflexivity.
Qed.

Lemma shift_ok_normalize (p : positive) :
  shift_ok (Z.pos p * 2 ^ align p) 1 (- align p).
Proof.
  assert (Ha : 0 <= align p) by (unfold align; lia).
  assert (Hp : 0 < 2 ^ align p) by (apply Z.pow_pos_nonneg; lia).
  unfold shift_ok. rewrite Z.div_1_r. split; [nia|]. split; [lia|].
  rewrite Zdigits2_shift by lia.
  replace (Zdigits2 (Z.pos p) + align p + - align p)
    with (Z.pos (digits2_pos p) + 0) by (cbn [Zdigits2]; lia).
  unfold align. lia.
Qed.

Lemma normalize_canonical (a : Z) :
  0 <= a -> canonical (binary_normalize prec emax a 0 false).
Proof.
  intros Ha. destruct a as [|p|p]; [exact I| |lia].
  rewrite normalize_pos. apply round_of_canonical, shift_ok_normalize.
Qed.

Lemma normalize_mono (a b : Z) :
  0 <= a <= b ->
  fleb (binary_normalize prec emax a 0 false)
       (binary_normalize prec emax b 0 false) = true.
Proof.
  intros [Ha Hab].
  destruct a as [|p|p]; [|  |lia].
  - apply fleb_zero_canonical, normalize_canonical. lia.
  - destruct b as [|q|q]; try lia.
    rewrite !normalize_pos.
    apply round_of_mono; try apply shift_ok_normalize.
    assert (Ap : 0 <= align p) by (unfold align; lia).
    assert (Aq : 0 <= align q) by (unfold align; lia).
    apply (val_le_shift _ _ _ _ _ _ (align p + align q)); [lia|lia|].
    replace (- align p + (align p + align q)) with (align q) by lia.
    replace (- align q + (align p + align q)) with (align p) by lia.
    rewrite !Z.mul_1_r.
    replace (Z.pos p * 2 ^ align p * 2 ^ align q)
      with (Z.pos p * (2 ^ align p * 2 ^ align q)) by ring.
    replace (Z.pos q * 2 ^ align q * 2 ^ align p)
      with (Z.pos q * (2 ^ align p * 2 ^ align q)) by ring.
    apply Z.mul_le_mono_nonneg_r; [|lia].
    apply Z.mul_nonneg_nonneg; apply Z.pow_nonneg; lia.
Qed.


(** *** The distance of the land trainings *)

Lemma get_distance_land (self : Training) :
  land self = true ->
  get_distance self
  = (y <- float_of_int (action self) ;;
     Ok (fdiv (fmul y LEN_STEP_land) M_IN_KM_float)).
Proof.
  intros Hl. unfold get_distance, Training_get_distance, int_mul_float.
  assert (HL : LEN_STEP (__class__ self) = LEN_STEP_land)
    by (destruct self; try discriminate Hl; reflexivity).
  rewrite HL. destruct (float_of_int (action self)) as [y|e]; [|reflexivity].
  cbn [bind float_mul]. apply float_div_int_M_IN_KM.
Qed.

Lemma float_of_int_Ok (n : Z) (y : float) :
  float_of_int n = Ok y <->
  binary_normalize prec emax n 0 false = y /\ y <> S754_infinity false
  /\ y <> S754_infinity true.
Proof.
  unfold float_of_int.
  destruct (binary_normalize prec emax n 0 false) as [s|[|]| |s m e]; split;
    try discriminate; try (intros [= <-]; repeat split; discriminate);
    try (intros (<- & H1 & H2); reflexivity || congruence).
Qed.

Lemma float_of_int_mono (a b : Z) (yb : float) :
  0 <= a <= b -> float_of_int b = Ok yb ->
  exists ya, float_of_int a = Ok ya /\ canonical ya /\ canonical yb
             /\ fleb ya yb = true.
Proof.
  intros Hab Hb. apply float_of_int_Ok in Hb. destruct Hb as (Hb & Hfin & _).
  pose proof (normalize_mono a b Hab) as Hle.
  pose proof (normalize_canonical a ltac:(lia)) as Ca.
  pose proof (normalize_canonical b ltac:(lia)) as Cb.
  rewrite Hb in *. exists (binary_normalize prec emax a 0 false).
  repeat split; try assumption.
  apply float_of_int_Ok. split; [reflexivity|].
  destruct (binary_normalize prec emax a 0 false) as [s|[|]| |s m e];
    try contradiction Ca; try (split; discriminate).
  destruct yb as [[|]|[|]| |[|] mb eb]; try contradiction Cb;
    try discriminate Hle. contradiction Hfin. reflexivity.
Qed.

Lemma LEN_STEP_land_normal : 2 ^ 52 <= Z.pos 5854679515581645.
Proof. change (2 ^ 52) with 4503599627370496. lia. Qed.

Lemma get_distance_mono (s t : Training) (dt : float) :
  land s = true -> land t = true -> 0 <= action s <= action t ->
  get_distance t = Ok dt ->
  exists ds, get_distance s = Ok ds /\ fleb ds dt = true.
Proof.
  intros Ls Lt Hst Ht. rewrite get_distance_land in * by assumption.
  apply bind_Ok in Ht. destruct Ht as (yt & Hyt & [= <-]).
  destruct (float_of_int_mono _ _ yt Hst Hyt) as (ys & Hys & Cs & Ct & Hle).
  rewrite Hys. cbn [bind].
  exists (fdiv (fmul ys LEN_STEP_land) M_IN_KM_float). split; [reflexivity|].
  apply fdiv_mono.
  - apply fmul_canonical; [apply LEN_STEP_land_normal | assumption].
  - apply fmul_canonical; [apply LEN_STEP_land_normal | assumption].
  - apply fmul_mono; [apply LEN_STEP_land_normal | assumption..].
Qed.

(** C9: of two validly constructed Running instances, or two SportsWalking
    instances, that differ only in the step count, the one with the smaller
    count has the smaller or equal distance; the distance exists for the
    smaller count as soon as it does for the larger. *)
Theorem C9_distance_monotone (a b : Z) (d w h : float) :
  a <= b ->
  (valid (Running a d w) -> valid (Running b d w) ->
   forall db, get_distance (Running b d w) = Ok db ->
     exists da, get_distance (Running a d w) = Ok da /\ fleb da db = true) /\
  (valid (SportsWalking a d w h) -> valid (SportsWalking b d w h) ->
   forall db, get_distance (SportsWalking b d w h) = Ok db ->
     exists da, get_distance (SportsWalking a d w h) = Ok da
                /\ fleb da db = true).
Proof.
  intros Hab. split; intros Va _ db Hb.
  - apply valid_invariant in Va. cbn [invariant] in Va.
    apply andb_prop in Va. destruct Va as [Va _].
    apply andb_prop in Va. destruct Va as [Va _]. apply Z.leb_le in Va.
    apply (get_distance_mono (Running a d w) (Running b d w) db);
      try reflexivity; [|assumption]. cbn [action]. lia.
  - apply valid_invariant in Va. cbn [invariant] in Va.
    apply andb_prop in Va. destruct Va as [Va _].
    apply andb_prop in Va. destruct Va as [Va _].
    apply andb_prop in Va. destruct Va as [Va _]. apply Z.leb_le in Va.
    apply (get_distance_mono (SportsWalking a d w h) (SportsWalking b d w h) db);
      try reflexivity; [|assumption]. cbn [action]. lia.
Qed.

Lemma C9_distance_monotone_witness :
  exists da,
    get_distance (Running 9000 f1_0 f75_0) = Ok da /\ fleb da f9_75 = true.
Proof.
  assert (H : 9000 <= 15000) by lia.
  apply (proj1 (C9_distance_monotone 9000 15000 f1_0 f75_0 f180_0 H)).
  - exists [VInt 9000; VFloat f1_0; VFloat f75_0]. reflexivity.
  - exists package_RUN. reflexivity.
  - reflexivity.
Defined.

(** * Further properties of the program *)

(** ** Constructors *)

Lemma new_Ok_args (c : class) (data : list value) (t : Training) :
  new c data = Ok t ->
  __class__ t = c /\ data = args_of t /\ invariant t = true.
Proof.
  intros H. assert (Hv : valid t).
  { exists data. rewrite (new_class c data t H). exact H. }
  apply valid_invariant in Hv. split; [exact (new_class c data t H)|].
  split; [|exact Hv].
  destruct c; simpl in H;
    repeat (destruct data as [|? data]; try discriminate H).
  - apply Training_init_Ok in H.
    destruct H as (? & ? & ? & -> & -> & -> & -> & _). reflexivity.
  - apply Training_init_Ok in H.
    destruct H as (? & ? & ? & -> & -> & -> & -> & _). reflexivity.
  - unfold SportsWalking_init in H. apply bind_Ok in H.
    destruct H as (s & Hs & H). apply Training_init_Ok in Hs.
    destruct Hs as (? & ? & ? & -> & -> & -> & -> & _).
    unfold set_height in H. apply bind_Ok in H.
    destruct H as (h & Hh & [= <-]). apply verify_float_Ok in Hh.
    destruct Hh as [-> _]. reflexivity.
  - unfold Swimming_init in H. apply bind_Ok in H.
    destruct H as (s & Hs & H). apply Training_init_Ok in Hs.
    destruct Hs as (? & ? & ? & -> & -> & -> & -> & _).
    apply bind_Ok in H. destruct H as (s & Hs & H).
    unfold set_length_pool in Hs. apply bind_Ok in Hs.
    destruct Hs as (l & Hl & [= <-]). apply verify_float_Ok in Hl.
    destruct Hl as [-> _].
    unfold set_count_pool in H. apply bind_Ok in H.
    destruct H as (n & Hn & [= <-]). apply verify_int_Ok in Hn.
    destruct Hn as [-> _]. reflexivity.
Qed.

Lemma new_args_Ok (t : Training) :
  invariant t = true -> new (__class__ t) (args_of t) = Ok t.
Proof.
  intros H. apply valid_invariant in H. destruct H as (data & H).
  destruct (new_Ok_args _ _ _ H) as (_ & -> & _). exact H.
Qed.

(** X1: calling a class on an argument list returns an instance exactly
    when the list has the constructor's length, holds an [int] where a
    count is expected and a [float] where a measure is expected, none of
    them below zero; the instance is of that class and holds exactly these
    values. *)
Theorem new_Ok_iff (c : class) (data : list value) (t : Training) :
  new c data = Ok t <->
  __class__ t = c /\ data = args_of t /\ invariant t = true.
Proof.
  split.
  - apply new_Ok_args.
  - intros (<- & -> & H). apply new_args_Ok. exact H.
Qed.

Lemma new_Ok_iff_witness :
  new cSwimming package_SWM = Ok (Swimming 720 f1_0 f80_0 f25_0 40).
Proof.
  apply (proj2 (new_Ok_iff cSwimming package_SWM
                  (Swimming 720 f1_0 f80_0 f25_0 40))).
  repeat split.
Defined.

Lemma Training_init_Raise mk a d w e :
  Training_init mk a d w = Raise e ->
  e = TypeError msg_action \/ e = TypeError msg_duration
  \/ e = TypeError msg_weight.
Proof.
  unfold Training_init. intros H.
  destruct (verify_action a) as [a'|e1] eqn:Ea; cbn [bind] in H.
  2:{ injection H as <-. left. apply (verify_int_Raise _ _ _ Ea). }
  destruct (verify_duration d) as [d'|e1] eqn:Ed; cbn [bind] in H.
  2:{ injection H as <-. right. left. apply (verify_float_Raise _ _ _ Ed). }
  destruct (verify_weight w) as [w'|e1] eqn:Ew; cbn [bind] in H.
  2:{ injection H as <-. right. right. apply (verify_float_Raise _ _ _ Ew). }
  discriminate H.
Qed.

Ltac type_error_of :=
  right; eexists; split; [reflexivity|]; split; [cbn; tauto_closed|reflexivity].

Lemma new_Raise_kinds (c : class) (data : list value) (e : exn) :
  new c data = Raise e ->
  (e = ArityError /\ List.length data <> arity c) \/
  (exists msg, e = TypeError msg /\ In msg (field_messages c)
               /\ List.length data = arity c).
Proof.
  intros H.
  destruct c; cbn [new] in H;
    repeat (destruct data as [|? data];
            try (injection H as <-; left; split; [reflexivity|discriminate])).
  - apply Training_init_Raise in H.
    destruct H as [ -> | [ -> | -> ] ]; type_error_of.
  - apply Training_init_Raise in H.
    destruct H as [ -> | [ -> | -> ] ]; type_error_of.
  - unfold SportsWalking_init in H.
    destruct (Training_init _ v v0 v1) as [s|e1] eqn:Ei; cbn [bind] in H.
    + apply Training_init_Ok in Ei.
      destruct Ei as (? & ? & ? & _ & _ & _ & -> & _).
      unfold set_height in H.
      destruct (verify_height v2) as [h|e1] eqn:Eh; cbn [bind] in H;
        [discriminate H|]. injection H as <-.
      apply verify_float_Raise in Eh. subst. type_error_of.
    + injection H as <-. apply Training_init_Raise in Ei.
      destruct Ei as [ -> | [ -> | -> ] ]; type_error_of.
  - unfold Swimming_init in H.
    destruct (Training_init _ v v0 v1) as [s|e1] eqn:Ei; cbn [bind] in H.
    + apply Training_init_Ok in Ei.
      destruct Ei as (? & ? & ? & _ & _ & _ & -> & _).
      unfold set_length_pool in H at 1.
      destruct (verify_length_pool v2) as [l|e1] eqn:El; cbn [bind] in H.
      * unfold set_count_pool in H.
        destruct (verify_count_pool v3) as [n|e1] eqn:En; cbn [bind] in H;
          [discriminate H|]. injection H as <-.
        apply verify_int_Raise in En. subst. type_error_of.
      * injection H as <-. apply verify_float_Raise in El. subst.
        type_error_of.
    + injection H as <-. apply Training_init_Raise in Ei.
      destruct Ei as [ -> | [ -> | -> ] ]; type_error_of.
Qed.

Lemma new_arity (c : class) (data : list value) :
  List.length data <> arity c -> new c data = Raise ArityError.
Proof.
  intros H. destruct c; cbn [new arity] in *;
    repeat (destruct data as [|? data]; try reflexivity);
    contradiction H; reflexivity.
Qed.

(** X2: a constructor call fails in two ways only: with the arity error,
    exactly when the list has not the constructor's length, and otherwise
    with the [TypeError] of one of the validators of the class, carrying
    that validator's message. *)
Theorem new_Raise (c : class) (data : list value) :
  (List.length data <> arity c -> new c data = Raise ArityError) /\
  (forall e, new c data = Raise e ->
     (e = ArityError /\ List.length data <> arity c) \/
     (exists msg, e = TypeError msg /\ In msg (field_messages c)
                  /\ List.length data = arity c)).
Proof. split; [apply new_arity | intros e; apply new_Raise_kinds]. Qed.

Lemma new_Raise_witness :
  new cRunning [VInt 1; VFloat f1_0] = Raise ArityError.
Proof. apply (proj1 (new_Raise cRunning [VInt 1; VFloat f1_0])). discriminate. Defined.

(** ** The dispatcher, end to end *)

Lemma lookup_cases (code : string) (c : class) :
  lookup code dict_for_classes = Some c ->
  (code = "RUN" /\ c = cRunning) \/ (code = "SWM" /\ c = cSwimming)
  \/ (code = "WLK" /\ c = cSportsWalking).
Proof.
  unfold dict_for_classes, lookup.
  destruct (String.eqb_spec code "RUN") as [->|_];
    [intros [= <-]; tauto_closed|].
  destruct (String.eqb_spec code "SWM") as [->|_];
    [intros [= <-]; tauto_closed|].
  destruct (String.eqb_spec code "WLK") as [->|_];
    [intros [= <-]; tauto_closed|]. discriminate.
Qed.

(** X3: whatever [read_package] returns is an instance of the class that
    the code names, never of the base class, built from exactly the given
    parameters and satisfying the validators; whatever it raises is the
    dispatcher's [KeyError], the arity error or a validator's [TypeError]. *)
Theorem read_package_outcomes (code : string) (data : list value) :
  (forall t, read_package code data = Ok t ->
     lookup code dict_for_classes = Some (__class__ t) /\
     __class__ t <> cTraining /\
     data = args_of t /\ invariant t = true) /\
  (forall e, read_package code data = Raise e ->
     e = KeyError msg_unexpected \/ e = ArityError \/
     exists c msg, lookup code dict_for_classes = Some c /\
                   e = TypeError msg /\ In msg (field_messages c)).
Proof.
  unfold read_package. split.
  - intros t H. destruct (lookup code dict_for_classes) as [c|] eqn:El;
      [|discriminate H].
    apply new_Ok_args in H. destruct H as (Hc & Hd & Hi). subst c.
    repeat split; try assumption.
    intros Hb. rewrite Hb in El. apply lookup_cases in El.
    destruct El as [[_ E]|[[_ E]|[_ E]]]; discriminate E.
  - intros e H. destruct (lookup code dict_for_classes) as [c|] eqn:El.
    + apply new_Raise_kinds in H.
      destruct H as [[-> _]|(msg & -> & Hin & _)]; [tauto_closed|].
      right. right. exists c, msg. tauto_closed.
    + injection H as <-. left. reflexivity.
Qed.

Lemma read_package_outcomes_witness :
  lookup "RUN" dict_for_classes = Some cRunning /\
  package_RUN = args_of (Running 15000 f1_0 f75_0) /\
  invariant (Running 15000 f1_0 f75_0) = true.
Proof.
  destruct (proj1 (read_package_outcomes "RUN" package_RUN)
              (Running 15000 f1_0 f75_0) eq_refl) as (H1 & _ & H3 & H4).
  exact (conj H1 (conj H3 H4)).
Defined.

(** ** Reassignment through the properties *)

Lemma args_class_inj (s t : Training) :
  __class__ s = __class__ t -> args_of s = args_of t -> s = t.
Proof.
  destruct s, t; cbn; intros Hc Ha; try discriminate Hc;
    injection Ha as -> -> ->; subst; reflexivity.
Qed.

(** X4: assigning to [action], [duration] or [weight] succeeds exactly on
    an [int], respectively a [float], that is not below zero; the instance
    then differs from the old one in that attribute alone. *)
Theorem base_setters_Ok_iff (self self' : Training) (v : value) :
  (set_action v self = Ok self' <->
   (exists n, v = VInt n /\ 0 <= n) /\
   __class__ self' = __class__ self /\
   args_of self' = update 0 v (args_of self)) /\
  (set_duration v self = Ok self' <->
   (exists x, v = VFloat x /\ nonneg_float x = true) /\
   __class__ self' = __class__ self /\
   args_of self' = update 1 v (args_of self)) /\
  (set_weight v self = Ok self' <->
   (exists x, v = VFloat x /\ nonneg_float x = true) /\
   __class__ self' = __class__ self /\
   args_of self' = update 2 v (args_of self)).
Proof.
  repeat split.
  - apply bind_Ok in H. destruct H as (n & Hn & _).
    apply verify_int_Ok in Hn. exists n. exact Hn.
  - apply bind_Ok in H. destruct H as (n & _ & [= <-]).
    destruct self; reflexivity.
  - apply bind_Ok in H. destruct H as (n & Hn & [= <-]).
    apply verify_int_Ok in Hn. destruct Hn as [-> _].
    destruct self; reflexivity.
  - intros ((n & -> & Hn) & Hc & Ha). unfold set_action, verify_action.
    rewrite (proj2 (verify_int_Ok _ _ _) (conj eq_refl Hn)). cbn [bind].
    f_equal. apply args_class_inj; destruct self; cbn in *; congruence.
  - apply bind_Ok in H. destruct H as (x & Hx & _).
    apply verify_float_Ok in Hx. exists x. exact Hx.
  - apply bind_Ok in H. destruct H as (x & _ & [= <-]).
    destruct self; reflexivity.
  - apply bind_Ok in H. destruct H as (x & Hx & [= <-]).
    apply verify_float_Ok in Hx. destruct Hx as [-> _].
    destruct self; reflexivity.
  - intros ((x & -> & Hx) & Hc & Ha). unfold set_duration, verify_duration.
    rewrite (proj2 (verify_float_Ok _ _ _) (conj eq_refl Hx)). cbn [bind].
    f_equal. apply args_class_inj; destruct self; cbn in *; congruence.
  - apply bind_Ok in H. destruct H as (x & Hx & _).
    apply verify_float_Ok in Hx. exists x. exact Hx.
  - apply bind_Ok in H. destruct H as (x & _ & [= <-]).
    destruct self; reflexivity.
  - apply bind_Ok in H. destruct H as (x & Hx & [= <-]).
    apply verify_float_Ok in Hx. destruct Hx as [-> _].
    destruct self; reflexivity.
  - intros ((x & -> & Hx) & Hc & Ha). unfold set_weight, verify_weight.
    rewrite (proj2 (verify_float_Ok _ _ _) (conj eq_refl Hx)). cbn [bind].
    f_equal. apply args_class_inj; destruct self; cbn in *; congruence.
Qed.

Lemma base_setters_Ok_iff_witness :
  set_duration (VFloat f75_0) (Running 1 f1_0 f1_0) = Ok (Running 1 f75_0 f1_0).
Proof.
  apply (proj2 (proj1 (proj2 (base_setters_Ok_iff
                                (Running 1 f1_0 f1_0) (Running 1 f75_0 f1_0)
                                (VFloat f75_0))))).
  split; [exists f75_0; split; reflexivity|]. split; reflexivity.
Defined.

(** X5: no assignment through a property breaks what the constructor
    established: after any of the six setters has accepted a value, the
    instance still satisfies every validator, and is of the same class. *)
Theorem setters_keep_invariant (self self' : Training) (v : value) :
  invariant self = true ->
  set_action v self = Ok self' \/ set_duration v self = Ok self'
  \/ set_weight v self = Ok self' \/ set_height v self = Ok self'
  \/ set_length_pool v self = Ok self' \/ set_count_pool v self = Ok self' ->
  invariant self' = true /\ __class__ self' = __class__ self.
Proof.
  intros Hi [H|[H|[H|[H|[H|H]]]]].
  - apply bind_Ok in H. destruct H as (n & Hn & [= <-]).
    apply verify_int_Ok in Hn. destruct Hn as [_ Hn].
    apply Z.leb_le in Hn.
    destruct self; cbn [invariant __class__] in *; split; try reflexivity;
      repeat (apply andb_prop in Hi; destruct Hi as [Hi ?]);
      rewrite Hn; repeat (apply andb_true_intro; split); assumption || reflexivity.
  - apply bind_Ok in H. destruct H as (x & Hx & [= <-]).
    apply verify_float_Ok in Hx. destruct Hx as [_ Hx].
    destruct self; cbn [invariant __class__] in *; split; try reflexivity;
      repeat (apply andb_prop in Hi; destruct Hi as [Hi ?]);
      repeat (apply andb_true_intro; split); assumption.
  - apply bind_Ok in H. destruct H as (x & Hx & [= <-]).
    apply verify_float_Ok in Hx. destruct Hx as [_ Hx].
    destruct self; cbn [invariant __class__] in *; split; try reflexivity;
      repeat (apply andb_prop in Hi; destruct Hi as [Hi ?]);
      repeat (apply andb_true_intro; split); assumption.
  - destruct self; cbn [set_height] in H;
      try (injection H as <-; split; [assumption|reflexivity]).
    apply bind_Ok in H. destruct H as (x & Hx & [= <-]).
    apply verify_float_Ok in Hx. destruct Hx as [_ Hx].
    cbn [invariant __class__] in *; split; try reflexivity;
      repeat (apply andb_prop in Hi; destruct Hi as [Hi ?]);
      repeat (apply andb_true_intro; split); assumption.
  - destruct self; cbn [set_length_pool] in H;
      try (injection H as <-; split; [assumption|reflexivity]).
    apply bind_Ok in H. destruct H as (x & Hx & [= <-]).
    apply verify_float_Ok in Hx. destruct Hx as [_ Hx].
    cbn [invariant __class__] in *; split; try reflexivity;
      repeat (apply andb_prop in Hi; destruct Hi as [Hi ?]);
      repeat (apply andb_true_intro; split); assumption.
  - destruct self; cbn [set_count_pool] in H;
      try (injection H as <-; split; [assumption|reflexivity]).
    apply bind_Ok in H. destruct H as (n & Hn & [= <-]).
    apply verify_int_Ok in Hn. destruct Hn as [_ Hn]. apply Z.leb_le in Hn.
    cbn [invariant __class__] in *; split; try reflexivity;
      repeat (apply andb_prop in Hi; destruct Hi as [Hi ?]);
      repeat (apply andb_true_intro; split); assumption.
Qed.

Lemma setters_keep_invariant_witness :
  invariant (Swimming 720 f1_0 f80_0 f25_0 41) = true.
Proof.
  apply (setters_keep_invariant (Swimming 720 f1_0 f80_0 f25_0 40)
           (Swimming 720 f1_0 f80_0 f25_0 41) (VInt 41)).
  - reflexivity.
  - right. right. right. right. right. reflexivity.
Defined.

(** ** Outcomes of the mean speed *)

Lemma float_of_int_unfit (n : Z) :
  fits_float n = false -> float_of_int n = Raise OverflowError.
Proof.
  unfold fits_float, float_of_int.
  destruct (binary_normalize prec emax n 0 false); try discriminate.
  reflexivity.
Qed.

Lemma land_get_mean_speed (self : Training) :
  land self = true -> get_mean_speed self = Training_get_mean_speed self.
Proof. destruct self; try discriminate; reflexivity. Qed.

Lemma land_mean_speed_cases (self : Training) :
  land self = true ->
  (fits_float (action self) = false ->
   get_mean_speed self = Raise OverflowError) /\
  (fits_float (action self) = true -> is_zero (duration self) = true ->
   get_mean_speed self = Raise ZeroDivisionError) /\
  (fits_float (action self) = true -> is_zero (duration self) = false ->
   exists s, get_distance self = Ok s
             /\ get_mean_speed self = Ok (fdiv s (duration self))).
Proof.
  intros Hl. rewrite (land_get_mean_speed self Hl).
  unfold Training_get_mean_speed, get_distance, Training_get_distance,
    int_mul_float.
  repeat split.
  - intros Hf. rewrite (float_of_int_unfit _ Hf). reflexivity.
  - intros Hf Hz. destruct (float_of_int_fits _ Hf) as (y & ->).
    cbn [bind float_mul]. rewrite float_div_int_M_IN_KM. cbn [bind].
    unfold float_div. rewrite Hz. reflexivity.
  - intros Hf Hz. destruct (float_of_int_fits _ Hf) as (y & ->).
    cbn [bind float_mul]. rewrite float_div_int_M_IN_KM. cbn [bind].
    eexists. split; [reflexivity|]. unfold float_div. rewrite Hz. reflexivity.
Qed.

(** X6: on a Running or SportsWalking instance (and on the base class)
    [get_mean_speed] has three outcomes: [OverflowError] when the step
    count is too large for a float, [ZeroDivisionError] when the duration
    is zero of either sign, and otherwise the distance divided by the
    duration. *)
Theorem land_mean_speed_outcomes (self : Training) :
  land self = true ->
  (fits_float (action self) = false ->
   get_mean_speed self = Raise OverflowError) /\
  (fits_float (action self) = true -> is_zero (duration self) = true ->
   get_mean_speed self = Raise ZeroDivisionError) /\
  (fits_float (action self) = true -> is_zero (duration self) = false ->
   exists s, get_distance self = Ok s
             /\ get_mean_speed self = Ok (fdiv s (duration self))).
Proof. apply land_mean_speed_cases. Qed.

Lemma land_mean_speed_outcomes_witness :
  get_mean_speed (Running 15000 (S754_zero true) f75_0)
  = Raise ZeroDivisionError.
Proof.
  apply (proj1 (proj2 (land_mean_speed_outcomes
                         (Running 15000 (S754_zero true) f75_0) eq_refl)));
    reflexivity.
Defined.

Lemma swimming_mean_speed_cases (a : Z) (d w l : float) (c : Z) :
  (fits_float c = false ->
   get_mean_speed (Swimming a d w l c) = Raise OverflowError) /\
  (fits_float c = true -> is_zero d = true ->
   get_mean_speed (Swimming a d w l c) = Raise ZeroDivisionError) /\
  (forall x, float_of_int c = Ok x -> is_zero d = false ->
   get_mean_speed (Swimming a d w l c)
   = Ok (fdiv (fdiv (fmul l x) M_IN_KM_float) d)).
Proof.
  unfold get_mean_speed. cbn [__class__ resolve mro find defines].
  unfold Swimming_get_mean_speed, float_mul_int.
  cbn [length_pool count_pool bind duration]. repeat split.
  - intros Hf. rewrite (float_of_int_unfit _ Hf). reflexivity.
  - intros Hf Hz. destruct (float_of_int_fits _ Hf) as (y & ->).
    cbn [bind float_mul]. rewrite float_div_int_M_IN_KM. cbn [bind].
    unfold float_div. rewrite Hz. reflexivity.
  - intros x Hx Hz. rewrite Hx.
    cbn [bind float_mul]. rewrite float_div_int_M_IN_KM. cbn [bind].
    unfold float_div. rewrite Hz. reflexivity.
Qed.

(** X7: on a Swimming instance [get_mean_speed] does not look at the step
    count: it raises [OverflowError] when the lap count is too large for a
    float, [ZeroDivisionError] when the duration is zero of either sign,
    and otherwise returns pool length times laps, by 1000, by duration. *)
Theorem swimming_mean_speed_outcomes (a : Z) (d w l : float) (c : Z) :
  (fits_float c = false ->
   get_mean_speed (Swimming a d w l c) = Raise OverflowError) /\
  (fits_float c = true -> is_zero d = true ->
   get_mean_speed (Swimming a d w l c) = Raise ZeroDivisionError) /\
  (forall x, float_of_int c = Ok x -> is_zero d = false ->
   get_mean_speed (Swimming a d w l c)
   = Ok (fdiv (fdiv (fmul l x) M_IN_KM_float) d)).
Proof. apply swimming_mean_speed_cases. Qed.

Lemma swimming_mean_speed_outcomes_witness :
  get_mean_speed (Swimming 720 f1_0 f80_0 f25_0 (2 ^ 1024))
  = Raise OverflowError.
Proof.
  apply (proj1 (swimming_mean_speed_outcomes 720 f1_0 f80_0 f25_0 (2 ^ 1024))).
  vm_compute. reflexivity.
Defined.

(** ** A height of zero *)

(** X8: the height validator accepts 0.0 (of either sign), but on such an
    instance [get_spent_calories] never returns: it divides by the height
    in metres, which is zero, unless the mean speed or its square has
    already raised. *)
Theorem walking_zero_height (a : Z) (d w h : float) :
  is_zero h = true ->
  verify_height (VFloat h) = Ok h /\
  raises (get_spent_calories (SportsWalking a d w h)) = true /\
  (forall ms sq, get_mean_speed (SportsWalking a d w h) = Ok ms ->
                 float_pow2 (fmul ms SportsWalking_KMH_IN_MSEC) = Ok sq ->
                 get_spent_calories (SportsWalking a d w h)
                 = Raise ZeroDivisionError).
Proof.
  intros Hz. destruct h as [s| | |]; try discriminate Hz.
  split; [destruct s; reflexivity|].
  unfold get_spent_calories, get_mean_speed.
  cbn [__class__ resolve mro find defines].
  unfold SportsWalking_get_spent_calories. cbn [float_mul bind height].
  split.
  - destruct (Training_get_mean_speed _) as [ms|e]; [|reflexivity].
    cbn [bind]. destruct (float_pow2 _) as [sq|e]; [|reflexivity].
    cbn [bind]. destruct s; reflexivity.
  - intros ms sq -> Hsq. cbn [bind]. rewrite Hsq. cbn [bind].
    destruct s; reflexivity.
Qed.

(** ** The distance of every class *)

Lemma LEN_STEP_normal (c : class) :
  exists m e, LEN_STEP c = S754_finite false m e /\ 2 ^ 52 <= Z.pos m.
Proof.
  change (2 ^ 52) with 4503599627370496.
  destruct c; vm_compute; do 2 eexists; (split; [reflexivity|]);
    intros H; discriminate H.
Qed.

Lemma get_distance_steps (self : Training) :
  get_distance self
  = (y <- float_of_int (action self) ;;
     Ok (fdiv (fmul y (LEN_STEP (__class__ self))) M_IN_KM_float)).
Proof.
  unfold get_distance, Training_get_distance, int_mul_float.
  destruct (float_of_int (action self)) as [y|e]; [|reflexivity].
  cbn [bind float_mul]. apply float_div_int_M_IN_KM.
Qed.

Lemma float_of_int_canonical (n : Z) (y : float) :
  0 <= n -> float_of_int n = Ok y -> canonical y.
Proof.
  intros Hn Hy. apply float_of_int_Ok in Hy. destruct Hy as [<- _].
  apply normalize_canonical, Hn.
Qed.

Lemma distance_outcomes_any (self : Training) :
  (fits_float (action self) = false ->
   get_distance self = Raise OverflowError) /\
  (fits_float (action self) = true -> exists x, get_distance self = Ok x).
Proof.
  rewrite get_distance_steps. split; intros Hf.
  - rewrite (float_of_int_unfit _ Hf). reflexivity.
  - destruct (float_of_int_fits _ Hf) as (y & ->). eexists. reflexivity.
Qed.

(** X9: with a step count that is not negative, [get_distance] of any class
    either raises [OverflowError], exactly when the count is too large for a
    float, or returns a float that is not below zero and not NaN; it never
    divides by zero. *)
Theorem distance_outcomes (self : Training) :
  0 <= action self ->
  (fits_float (action self) = false ->
   get_distance self = Raise OverflowError) /\
  (fits_float (action self) = true ->
   exists x, get_distance self = Ok x /\ fleb float_zero x = true).
Proof.
  intros Ha. rewrite get_distance_steps. split; intros Hf.
  - rewrite (float_of_int_unfit _ Hf). reflexivity.
  - destruct (float_of_int_fits _ Hf) as (y & Hy). rewrite Hy. cbn [bind].
    eexists. split; [reflexivity|].
    destruct (LEN_STEP_normal (__class__ self)) as (m & e & -> & Hm).
    apply fleb_zero_canonical, fdiv_canonical, fmul_canonical; [exact Hm|].
    apply (float_of_int_canonical _ _ Ha Hy).
Qed.

Lemma distance_outcomes_witness :
  exists x, get_distance (Swimming 720 f1_0 f80_0 f25_0 40) = Ok x
            /\ fleb float_zero x = true.
Proof.
  assert (H : 0 <= action (Swimming 720 f1_0 f80_0 f25_0 40))
    by (cbn [action]; lia).
  apply (proj2 (distance_outcomes (Swimming 720 f1_0 f80_0 f25_0 40) H)).
  reflexivity.
Defined.

(** X10: the distance grows with the step count in every class, the
    swimmer's strokes included: of two instances of one class, the one with
    the smaller count (not below zero) has a distance as soon as the other
    has, and it is the smaller or equal one. *)
Theorem distance_monotone_all (s t : Training) (dt : float) :
  __class__ s = __class__ t -> 0 <= action s <= action t ->
  get_distance t = Ok dt ->
  exists ds, get_distance s = Ok ds /\ fleb ds dt = true.
Proof.
  intros Hc Hst Ht. rewrite get_distance_steps in *. rewrite Hc.
  apply bind_Ok in Ht. destruct Ht as (yt & Hyt & [= <-]).
  destruct (float_of_int_mono _ _ yt Hst Hyt) as (ys & Hys & Cs & Ct & Hle).
  rewrite Hys. cbn [bind].
  destruct (LEN_STEP_normal (__class__ t)) as (m & e & -> & Hm).
  eexists. split; [reflexivity|].
  apply fdiv_mono.
  - apply fmul_canonical; assumption.
  - apply fmul_canonical; assumption.
  - apply fmul_mono; assumption.
Qed.

Lemma distance_monotone_all_witness :
  exists ds, get_distance (Swimming 360 f1_0 f80_0 f25_0 40) = Ok ds
             /\ fleb ds (S754_finite false 8949553179510649 (-53)) = true.
Proof.
  apply (distance_monotone_all (Swimming 360 f1_0 f80_0 f25_0 40)
           (Swimming 720 f1_0 f80_0 f25_0 40)); [reflexivity| |reflexivity].
  cbn [action]. lia.
Defined.

(** ** The mean speed grows with the count *)

Lemma fmul_comm (x y : float) : fmul x y = fmul y x.
Proof.
  destruct x as [sx|sx| |sx mx ex], y as [sy|sy| |sy my ey];
    unfold fmul; cbn [SFmul]; try rewrite (xorb_comm sx sy); try reflexivity.
  std_Z. rewrite (Pos.mul_comm mx my), (Z.add_comm ex ey). reflexivity.
Qed.

(** X11: with a finite duration above zero, the mean speed of a Running or
    SportsWalking instance (or one of the base class) grows with the step
    count: the instance with the smaller count, not below zero, has a mean
    speed as soon as the other has, and it is the smaller or equal one. *)
Theorem land_mean_speed_monotone (s t : Training) (m : positive) (e : Z)
    (vt : float) :
  land s = true -> __class__ s = __class__ t ->
  duration s = S754_finite false m e -> duration t = S754_finite false m e ->
  0 <= action s <= action t ->
  get_mean_speed t = Ok vt ->
  exists vs, get_mean_speed s = Ok vs /\ fleb vs vt = true.
Proof.
  intros Ls Hc Ds Dt Hst Ht.
  assert (Lt : land t = true) by (unfold land in *; rewrite <- Hc; exact Ls).
  rewrite land_get_mean_speed in * by assumption.
  unfold Training_get_mean_speed, int_mul_float in *. rewrite Hc, Ds.
  rewrite Dt in Ht.
  apply bind_Ok in Ht. destruct Ht as (x & Hx & Ht).
  apply bind_Ok in Hx. destruct Hx as (yt & Hyt & [= <-]).
  rewrite float_div_int_M_IN_KM in Ht. cbn [bind] in Ht.
  injection Ht as <-.
  destruct (float_of_int_mono _ _ yt Hst Hyt) as (ys & Hys & Cs & Ct & Hle).
  rewrite Hys. cbn [bind float_mul]. rewrite float_div_int_M_IN_KM.
  cbn [bind float_div is_zero].
  destruct (LEN_STEP_normal (__class__ t)) as (ml & el & -> & Hm).
  eexists. split; [reflexivity|].
  apply fdiv_mono.
  - apply fdiv_canonical, fmul_canonical; assumption.
  - apply fdiv_canonical, fmul_canonical; assumption.
  - apply fdiv_mono.
    + apply fmul_canonical; assumption.
    + apply fmul_canonical; assumption.
    + apply fmul_mono; assumption.
Qed.

Lemma land_mean_speed_monotone_witness :
  exists vs, get_mean_speed (Running 9000 f1_0 f75_0) = Ok vs
             /\ fleb vs f9_75 = true.
Proof.
  apply (land_mean_speed_monotone (Running 9000 f1_0 f75_0)
           (Running 15000 f1_0 f75_0) 4503599627370496 (-52));
    try reflexivity.
  cbn [action]. lia.
Defined.

(** X12: with a finite duration above zero and a pool length that is a
    normal float above zero, the mean speed of a Swimming instance grows
    with the number of laps, whatever the stroke counts. *)
Theorem swimming_mean_speed_monotone
    (a1 a2 : Z) (w1 w2 : float) (ml md : positive) (el ed : Z) (c1 c2 : Z)
    (v2 : float) :
  2 ^ 52 <= Z.pos ml -> 0 <= c1 <= c2 ->
  get_mean_speed (Swimming a2 (S754_finite false md ed) w2
                    (S754_finite false ml el) c2) = Ok v2 ->
  exists v1,
    get_mean_speed (Swimming a1 (S754_finite false md ed) w1
                      (S754_finite false ml el) c1) = Ok v1
    /\ fleb v1 v2 = true.
Proof.
  intros Hl Hc H2. unfold get_mean_speed in *.
  cbn [__class__ resolve mro find defines] in *.
  unfold Swimming_get_mean_speed, float_mul_int in *.
  cbn [length_pool count_pool bind duration] in *.
  apply bind_Ok in H2. destruct H2 as (x & Hx & H2).
  apply bind_Ok in Hx. destruct Hx as (y2 & Hy2 & [= <-]).
  rewrite float_div_int_M_IN_KM in H2. cbn [bind] in H2. injection H2 as <-.
  destruct (float_of_int_mono _ _ y2 Hc Hy2) as (y1 & Hy1 & C1 & C2 & Hle).
  rewrite Hy1. cbn [bind float_mul]. rewrite float_div_int_M_IN_KM.
  cbn [bind float_div is_zero].
  eexists. split; [reflexivity|].
  change (fleb (fdiv (fdiv (fmul (S754_finite false ml el) y1) M_IN_KM_float)
                  (S754_finite false md ed))
               (fdiv (fdiv (fmul (S754_finite false ml el) y2) M_IN_KM_float)
                  (S754_finite false md ed)) = true).
  rewrite (fmul_comm _ y1), (fmul_comm _ y2).
  apply fdiv_mono.
  - apply fdiv_canonical, fmul_canonical; assumption.
  - apply fdiv_canonical, fmul_canonical; assumption.
  - apply fdiv_mono.
    + apply fmul_canonical; assumption.
    + apply fmul_canonical; assumption.
    + apply fmul_mono; assumption.
Qed.

Lemma swimming_mean_speed_monotone_witness :
  exists v1, get_mean_speed (Swimming 700 f1_0 f75_0 f25_0 20) = Ok v1
             /\ fleb v1 f1_0 = true.
Proof.
  apply (swimming_mean_speed_monotone 700 720 f75_0 f80_0
           7036874417766400 4503599627370496 (-48) (-52) 20 40 f1_0).
  - change (2 ^ 52) with 4503599627370496. lia.
  - lia.
  - reflexivity.
Defined.

(** ** The report, end to end *)

Lemma arithmetic_bind {A B : Type} (r : result A) (k : A -> result B) :
  arithmetic_only r -> (forall x, arithmetic_only (k x)) ->
  arithmetic_only (bind r k).
Proof. destruct r as [x|e]; intros Hr Hk; [apply Hk | exact Hr]. Qed.

Lemma arithmetic_float_of_int (n : Z) : arithmetic_only (float_of_int n).
Proof.
  unfold float_of_int.
  destruct (binary_normalize prec emax n 0 false); cbn; tauto_closed.
Qed.

Lemma arithmetic_float_div (x y : float) : arithmetic_only (float_div x y).
Proof. unfold float_div. destruct (is_zero y); cbn; tauto_closed. Qed.

Lemma arithmetic_float_pow2 (x : float) : arithmetic_only (float_pow2 x).
Proof.
  destruct x as [s|s| |s m e]; try exact I. unfold float_pow2.
  destruct (libm_pow _ _); cbn; tauto_closed.
Qed.

Ltac arithmetic :=
  repeat first
    [ exact I
    | apply arithmetic_float_of_int
    | apply arithmetic_float_div
    | apply arithmetic_float_pow2
    | apply arithmetic_bind; [|intros ?] ].

Lemma arithmetic_get_distance (t : Training) :
  arithmetic_only (get_distance t).
Proof.
  unfold get_distance, Training_get_distance, int_mul_float, float_div_int,
    float_mul. arithmetic.
Qed.

Lemma arithmetic_Training_get_mean_speed (t : Training) :
  arithmetic_only (Training_get_mean_speed t).
Proof.
  unfold Training_get_mean_speed, int_mul_float, float_div_int, float_mul.
  arithmetic.
Qed.

Lemma arithmetic_get_mean_speed (t : Training) :
  arithmetic_only (get_mean_speed t).
Proof.
  destruct t as [a d w|a d w|a d w h|a d w l c];
    try apply arithmetic_Training_get_mean_speed.
  unfold get_mean_speed. cbn [__class__ resolve mro find defines].
  unfold Swimming_get_mean_speed, float_mul_int, float_div_int, float_mul.
  cbn [length_pool count_pool]. arithmetic.
Qed.

Lemma arithmetic_get_spent_calories (t : Training) :
  arithmetic_only (get_spent_calories t).
Proof.
  pose proof arithmetic_Training_get_mean_speed.
  pose proof arithmetic_get_mean_speed.
  destruct t as [a d w|a d w|a d w h|a d w l c]; unfold get_spent_calories;
    cbn [__class__ resolve mro find defines]; [exact I| | |].
  - unfold Running_get_spent_calories, int_mul_float, float_mul_int,
      float_div_int, float_mul, float_add.
    repeat first [ exact I | apply arithmetic_float_of_int
                 | apply arithmetic_float_div | solve [auto]
                 | apply arithmetic_bind; [|intros ?] ].
  - unfold SportsWalking_get_spent_calories, int_mul_float, float_mul_int,
      float_div_int, float_mul, float_add. cbn [height].
    repeat first [ exact I | apply arithmetic_float_of_int
                 | apply arithmetic_float_div | apply arithmetic_float_pow2
                 | solve [auto]
                 | apply arithmetic_bind; [|intros ?] ].
  - unfold Swimming_get_spent_calories, int_mul_float, float_mul_int,
      float_div_int, float_mul, float_add.
    repeat first [ exact I | apply arithmetic_float_of_int
                 | apply arithmetic_float_div | solve [auto]
                 | apply arithmetic_bind; [|intros ?] ].
Qed.

Lemma get_message_floats (n : string) (d s v c : float) :
  InfoMessage.get_message (InfoMessage_of_floats n d s v c)
  = Ok (template_line n (format_float_3f d) (format_float_3f s)
          (format_float_3f v) (format_float_3f c)).
Proof. reflexivity. Qed.

Lemma template_line_newline (n d s v c : string) :
  has_newline d = false -> has_newline s = false -> has_newline v = false ->
  has_newline c = false ->
  has_newline (template_line n d s v c) = has_newline n.
Proof.
  intros Hd Hs Hv Hc. unfold template_line. rewrite !has_newline_app.
  rewrite Hd, Hs, Hv, Hc.
  repeat match goal with
         | |- context [has_newline (String ?a ?b)] =>
             change (has_newline (String a b)) with false
         end.
  rewrite !orb_false_r. reflexivity.
Qed.

Lemma main_unfold (t : Training) (dist speed cal : float) :
  get_distance t = Ok dist -> get_mean_speed t = Ok speed ->
  get_spent_calories t = Ok (VFloat cal) ->
  main t = Ok (template_line (__name__ (__class__ t))
                 (format_float_3f (duration t)) (format_float_3f dist)
                 (format_float_3f speed) (format_float_3f cal)).
Proof.
  intros Hd Hs Hc. unfold main, show_training_info. rewrite Hd, Hs, Hc.
  cbn [bind]. apply get_message_floats.
Qed.

(** X13: on an instance of one of the three subclasses [main] raises
    nothing but [OverflowError] and [ZeroDivisionError]; when it returns,
    the result is one line without a line break: the template around the
    class name, the duration, and what [get_distance], [get_mean_speed] and
    [get_spent_calories] return, each with [.3f]. *)
Theorem main_outcomes (t : Training) :
  __class__ t <> cTraining ->
  arithmetic_only (main t) /\
  (forall line, main t = Ok line ->
     has_newline line = false /\
     exists dist speed cal,
       get_distance t = Ok dist /\ get_mean_speed t = Ok speed /\
       get_spent_calories t = Ok (VFloat cal) /\
       line = template_line (__name__ (__class__ t))
                (format_float_3f (duration t)) (format_float_3f dist)
                (format_float_3f speed) (format_float_3f cal)).
Proof.
  intros Hc.
  pose proof (arithmetic_get_distance t) as Ad.
  pose proof (arithmetic_get_mean_speed t) as As.
  pose proof (arithmetic_get_spent_calories t) as Ac.
  pose proof (calories_float t) as Hf.
  destruct (get_distance t) as [dist|e] eqn:Ed.
  2:{ unfold main, show_training_info. rewrite Ed. cbn [bind].
      split; [exact Ad | discriminate]. }
  destruct (get_mean_speed t) as [speed|e] eqn:Es.
  2:{ unfold main, show_training_info. rewrite Ed, Es. cbn [bind].
      split; [exact As | discriminate]. }
  destruct (get_spent_calories t) as [v|e] eqn:Ec.
  2:{ unfold main, show_training_info. rewrite Ed, Es, Ec. cbn [bind].
      split; [exact Ac | discriminate]. }
  destruct (Hf v Hc eq_refl) as (cal & ->).
  rewrite (main_unfold t dist speed cal Ed Es Ec). split; [exact I|].
  intros line [= <-]. split.
  - rewrite template_line_newline by apply format_float_3f_no_newline.
    destruct t; reflexivity.
  - exists dist, speed, cal. repeat split.
Qed.

Lemma int_mul_float_Ok (n : Z) (x : float) :
  fits_float n = true -> exists y, int_mul_float n x = Ok y.
Proof.
  intros Hf. destruct (float_of_int_fits _ Hf) as (y & Hy).
  unfold int_mul_float. rewrite Hy. eexists. reflexivity.
Qed.

Lemma float_mul_int_Ok (x : float) (n : Z) :
  fits_float n = true -> exists y, float_mul_int x n = Ok y.
Proof.
  intros Hf. destruct (float_of_int_fits _ Hf) as (y & Hy).
  unfold float_mul_int. rewrite Hy. eexists. reflexivity.
Qed.

Lemma Running_calories_Ok (t : Training) (ms : float) :
  Training_get_mean_speed t = Ok ms ->
  exists cal, Running_get_spent_calories t = Ok (VFloat cal).
Proof.
  intros Hms. unfold Running_get_spent_calories. rewrite Hms. cbn [bind].
  assert (F18 : fits_float Running_CALORIES_MEAN_SPEED_MULTIPLIER = true)
    by (vm_compute; reflexivity).
  assert (F60 : fits_float MIN_IN_H = true) by (vm_compute; reflexivity).
  destruct (int_mul_float_Ok _ ms F18) as (t1 & ->).
  cbn [bind float_add float_mul]. rewrite float_div_int_M_IN_KM. cbn [bind].
  destruct (float_mul_int_Ok
              (fmul (fdiv (fmul (fadd t1 Running_CALORIES_MEAN_SPEED_SHIFT)
                             (weight t)) (literal 10000 1)) (duration t))
              _ F60) as (t2 & ->).
  cbn [bind]. eexists. reflexivity.
Qed.

Lemma Swimming_calories_Ok (t : Training) (ms : float) :
  get_mean_speed t = Ok ms ->
  exists cal, Swimming_get_spent_calories t = Ok (VFloat cal).
Proof.
  intros Hms. unfold Swimming_get_spent_calories. rewrite Hms.
  cbn [bind float_add].
  assert (F2 : fits_float Swimming_CALORIES_WEIGHT_MULTIPLIER = true)
    by (vm_compute; reflexivity).
  destruct (float_mul_int_Ok
              (fadd ms Swimming_CALORIES_MEAN_SPEED_SHIFT) _ F2) as (t1 & ->).
  cbn [bind float_mul]. eexists. reflexivity.
Qed.

Lemma main_raises_first (t : Training) :
  raises (get_distance t) = true \/ raises (get_mean_speed t) = true ->
  raises (main t) = true.
Proof.
  unfold main, show_training_info.
  destruct (get_distance t); cbn [bind raises]; [|reflexivity].
  destruct (get_mean_speed t); cbn [bind raises]; [|reflexivity].
  intros [H|H]; discriminate H.
Qed.

(** X14: [main] on a Running instance returns its line exactly when the
    step count fits a float and the duration is not zero; on a Swimming
    instance exactly when the step count and the lap count fit a float and
    the duration is not zero.  Nothing else about the attributes, infinite
    or NaN values included, makes the report fail. *)
Theorem main_returns_iff (a : Z) (d w l : float) (c : Z) :
  raises (main (Running a d w)) = negb (fits_float a && negb (is_zero d)) /\
  raises (main (Swimming a d w l c))
  = negb (fits_float a && fits_float c && negb (is_zero d)).
Proof.
  split.
  - pose proof (land_mean_speed_cases (Running a d w) eq_refl)
      as (Hov & Hz & Hok).
    pose proof (distance_outcomes_any (Running a d w)) as [Dov Dok].
    cbn [action duration] in *.
    destruct (fits_float a) eqn:Fa; cbn [andb negb].
    + destruct (is_zero d) eqn:Zd; cbn [negb].
      * apply main_raises_first. right. rewrite (Hz eq_refl eq_refl).
        reflexivity.
      * destruct (Hok eq_refl eq_refl) as (s & Hs & Hms).
        destruct (Running_calories_Ok (Running a d w) (fdiv s d) Hms)
          as (cal & Hcal).
        rewrite (main_unfold _ s (fdiv s d) cal Hs Hms Hcal). reflexivity.
    + apply main_raises_first. left. rewrite (Dov eq_refl). reflexivity.
  - pose proof (swimming_mean_speed_cases a d w l c) as (Hov & Hz & Hok).
    pose proof (distance_outcomes_any (Swimming a d w l c)) as [Dov Dok].
    cbn [action duration] in *.
    destruct (fits_float a) eqn:Fa; cbn [andb negb].
    + destruct (fits_float c) eqn:Fc; cbn [andb negb].
      * destruct (is_zero d) eqn:Zd; cbn [negb].
        -- apply main_raises_first. right. rewrite (Hz eq_refl eq_refl).
           reflexivity.
        -- destruct (float_of_int_fits _ Fc) as (x & Hx).
           pose proof (Hok x Hx eq_refl) as Hms.
           destruct (Dok eq_refl) as (s & Hs).
           destruct (Swimming_calories_Ok _ _ Hms) as (cal & Hcal).
           assert (Hcal' : get_spent_calories (Swimming a d w l c)
                           = Ok (VFloat cal)) by exact Hcal.
           rewrite (main_unfold _ s _ cal Hs Hms Hcal'). reflexivity.
      * apply main_raises_first. right. rewrite (Hov eq_refl). reflexivity.
    + apply main_raises_first. left. rewrite (Dov eq_refl). reflexivity.
Qed.

(** ** The message of any record *)

Lemma format_3f_outcomes (v : value) :
  (formattable v = true ->
   exists s, format_3f v = Ok s /\ has_newline s = false) /\
  (formattable v = false ->
   exists e, format_3f v = Raise e /\
             (e = ValueError \/ e = OverflowError
              \/ e = TypeError msg_format_none)).
Proof.
  destruct v as [n|x|b|s|]; cbn [formattable format_3f]; split; intros H;
    try discriminate H.
  - destruct (float_of_int_fits _ H) as (y & ->). cbn [bind].
    eexists. split; [reflexivity | apply format_float_3f_no_newline].
  - rewrite (float_of_int_unfit _ H). eexists. split; [reflexivity|tauto_closed].
  - eexists. split; [reflexivity | apply format_float_3f_no_newline].
  - destruct b; eexists; (split; [reflexivity|]); vm_compute; reflexivity.
  - eexists. split; [reflexivity|tauto_closed].
  - eexists. split; [reflexivity|tauto_closed].
Qed.

(** X15: [get_message] of a record with arbitrary field values returns
    exactly when each of the four numeric fields is a float, a bool or an
    int in the range of float, and the line then has no line break beyond
    those of the training type; otherwise it raises [ValueError] (a
    string), [TypeError] ([None]) or [OverflowError] (a huge int). *)
Theorem get_message_outcomes (self : InfoMessage.t) :
  let ok := formattable (InfoMessage.duration self)
            && formattable (InfoMessage.distance self)
            && formattable (InfoMessage.speed self)
            && formattable (InfoMessage.calories self) in
  raises (InfoMessage.get_message self) = negb ok /\
  (forall line, InfoMessage.get_message self = Ok line ->
     has_newline line = has_newline (InfoMessage.training_type self)) /\
  (forall e, InfoMessage.get_message self = Raise e ->
     e = ValueError \/ e = OverflowError \/ e = TypeError msg_format_none).
Proof.
  destruct self as [n d s v c]. cbv zeta.
  cbn [InfoMessage.duration InfoMessage.distance InfoMessage.speed
       InfoMessage.calories InfoMessage.training_type].
  unfold InfoMessage.get_message.
  cbn [InfoMessage.duration InfoMessage.distance InfoMessage.speed
       InfoMessage.calories InfoMessage.training_type].
  destruct (format_3f_outcomes d) as [Od Rd].
  destruct (format_3f_outcomes s) as [Os Rs].
  destruct (format_3f_outcomes v) as [Ov Rv].
  destruct (format_3f_outcomes c) as [Oc Rc].
  destruct (formattable d).
  2:{ destruct (Rd eq_refl) as (e & -> & He). cbn [bind raises andb negb].
      repeat split; try discriminate. intros e' [= <-]. exact He. }
  destruct (Od eq_refl) as (sd & -> & Nd). cbn [bind andb].
  destruct (formattable s).
  2:{ destruct (Rs eq_refl) as (e & -> & He). cbn [bind raises andb negb].
      repeat split; try discriminate. intros e' [= <-]. exact He. }
  destruct (Os eq_refl) as (ss & -> & Ns). cbn [bind andb].
  destruct (formattable v).
  2:{ destruct (Rv eq_refl) as (e & -> & He). cbn [bind raises andb negb].
      repeat split; try discriminate. intros e' [= <-]. exact He. }
  destruct (Ov eq_refl) as (sv & -> & Nv). cbn [bind andb].
  destruct (formattable c).
  2:{ destruct (Rc eq_refl) as (e & -> & He). cbn [bind raises andb negb].
      repeat split; try discriminate. intros e' [= <-]. exact He. }
  destruct (Oc eq_refl) as (sc & -> & Nc). cbn [bind raises negb].
  repeat split; try discriminate.
  intros line [= <-].
  apply (template_line_newline n sd ss sv sc); assumption.
Qed.

Lemma get_message_outcomes_witness :
  has_newline (template_line "Swimming" "1.000" "0.994" "1.000" "336.000")
  = has_newline "Swimming".
Proof.
  apply (proj1 (proj2 (get_message_outcomes info_SWM))). reflexivity.
Defined.

(** ** The script's loop body *)

(** X16: reading a package and reporting on it fails only with the
    dispatcher's [KeyError], the arity error, a validator's [TypeError], or
    [OverflowError] and [ZeroDivisionError] from the arithmetic; it never
    reaches the formatting of [None], because the dispatcher never builds an
    instance of the base class. *)
Theorem run_main_outcomes (code : string) (data : list value) (e : exn) :
  run_main code data = Raise e ->
  e = KeyError msg_unexpected \/ e = ArityError
  \/ (exists c msg, lookup code dict_for_classes = Some c
                    /\ e = TypeError msg /\ In msg (field_messages c))
  \/ e = OverflowError \/ e = ZeroDivisionError.
Proof.
  unfold run_main, read_package.
  destruct (lookup code dict_for_classes) as [c|] eqn:El.
  2:{ intros [= <-]. tauto_closed. }
  destruct (new c data) as [t|e1] eqn:En; cbn [bind].
  - intros H. apply new_Ok_args in En. destruct En as (Hc & _).
    assert (Hb : __class__ t <> cTraining).
    { rewrite Hc. intros Hb. rewrite Hb in El. apply lookup_cases in El.
      destruct El as [[_ E]|[[_ E]|[_ E]]]; discriminate E. }
    assert (A : arithmetic_only (main t)).
    { pose proof (arithmetic_get_distance t) as Ad.
      pose proof (arithmetic_get_mean_speed t) as As.
      pose proof (arithmetic_get_spent_calories t) as Ac.
      pose proof (calories_float t) as Hf.
      unfold main, show_training_info.
      destruct (get_distance t) as [dist|e0]; [|exact Ad].
      destruct (get_mean_speed t) as [speed|e0]; [|exact As].
      destruct (get_spent_calories t) as [v|e0]; [|exact Ac].
      destruct (Hf v Hb eq_refl) as (cal & ->). exact I. }
    rewrite H in A. cbn [arithmetic_only] in A. tauto_closed.
  - intros [= <-]. apply new_Raise_kinds in En.
    destruct En as [[-> _]|(msg & -> & Hin & _)]; [tauto_closed|].
    right. right. left. exists c, msg. tauto_closed.
Qed.

(** ** What the swimmer's strokes and laps do not touch *)

(** X17: on a Swimming instance the stroke count enters the distance only,
    and the pool enters the mean speed and the calories only: the mean
    speed and the calories are the same for any two stroke counts, and the
    distance is the same for any two pools. *)
Theorem swimming_independence (a a' : Z) (d w l l' : float) (c c' : Z) :
  get_mean_speed (Swimming a d w l c) = get_mean_speed (Swimming a' d w l c) /\
  get_spent_calories (Swimming a d w l c)
  = get_spent_calories (Swimming a' d w l c) /\
  get_distance (Swimming a d w l c) = get_distance (Swimming a d w l' c').
Proof. repeat split. Qed.

(** ** Which validator speaks *)

Lemma verify_int_accepted (i : nat) (msg : string) (v : value) :
  (i = 0 \/ i = 4)%nat ->
  if accepted i v then exists n, verify_int msg v = Ok n
  else verify_int msg v = Raise (TypeError msg).
Proof.
  intros [-> | ->]; destruct v as [n|x|b|s|]; cbn [accepted verify_int];
    try reflexivity;
    destruct (Z.leb_spec 0 n), (Z.ltb_spec n 0); try lia;
    try reflexivity; eexists; reflexivity.
Qed.

Lemma verify_float_accepted (i : nat) (msg : string) (v : value) :
  (i = 1 \/ i = 2 \/ i = 3)%nat ->
  if accepted i v then exists x, verify_float msg v = Ok x
  else verify_float msg v = Raise (TypeError msg).
Proof.
  intros [-> | [-> | ->]]; destruct v as [n|x|b|s|];
    cbn [accepted verify_float]; try reflexivity;
    unfold nonneg_float; destruct (fltb x float_zero); cbn [negb];
    try reflexivity; eexists; reflexivity.
Qed.

Lemma Training_init_first (mk : Z -> float -> float -> Training)
    (a d w : value) :
  match accepted 0 a, accepted 1 d, accepted 2 w with
  | false, _, _ => Training_init mk a d w = Raise (TypeError msg_action)
  | true, false, _ => Training_init mk a d w = Raise (TypeError msg_duration)
  | true, true, false => Training_init mk a d w = Raise (TypeError msg_weight)
  | true, true, true => exists n x y, Training_init mk a d w = Ok (mk n x y)
  end.
Proof.
  unfold Training_init, verify_action, verify_duration, verify_weight.
  pose proof (verify_int_accepted 0 msg_action a (or_introl eq_refl)) as Ha.
  pose proof (verify_float_accepted 1 msg_duration d (or_introl eq_refl)) as Hd.
  pose proof (verify_float_accepted 2 msg_weight w
                (or_intror (or_introl eq_refl))) as Hw.
  destruct (accepted 0 a); [destruct Ha as (n & ->)|rewrite Ha; reflexivity].
  destruct (accepted 1 d); [destruct Hd as (x & ->)|rewrite Hd; reflexivity].
  destruct (accepted 2 w); [destruct Hw as (y & ->)|rewrite Hw; reflexivity].
  cbn [bind]. do 3 eexists. reflexivity.
Qed.

(** X18: the validators run in the order of the parameters, and the first
    parameter that its validator rejects decides the outcome: the call
    raises the [TypeError] with that parameter's message, whatever follows;
    with no parameter rejected the call returns an instance. *)
Theorem new_first_rejected (c : class) (data : list value) :
  List.length data = arity c ->
  match first_rejected 0 data with
  | Some i =>
      exists msg, nth_error (field_messages c) i = Some msg
                  /\ new c data = Raise (TypeError msg)
  | None => exists t, new c data = Ok t
  end.
Proof.
  intros Hlen.
  destruct c; cbn [arity] in Hlen;
    repeat (destruct data as [|? data]; try discriminate Hlen);
    cbn [new first_rejected].
  - pose proof (Training_init_first TrainingObj v v0 v1) as T.
    destruct (accepted 0 v), (accepted 1 v0), (accepted 2 v1);
      try (eexists; split; [reflexivity | exact T]).
    destruct T as (n & x & y & T). eexists. exact T.
  - pose proof (Training_init_first Running v v0 v1) as T.
    unfold Running_init.
    destruct (accepted 0 v), (accepted 1 v0), (accepted 2 v1);
      try (eexists; split; [reflexivity | exact T]).
    destruct T as (n & x & y & T). eexists. exact T.
  - pose proof (Training_init_first
                  (fun a d w => SportsWalking a d w float_zero) v v0 v1) as T.
    pose proof (verify_float_accepted 3 msg_height v2
                  (or_intror (or_intror eq_refl))) as Hh.
    unfold SportsWalking_init.
    destruct (accepted 0 v), (accepted 1 v0), (accepted 2 v1);
      try (eexists; split; [reflexivity | rewrite T; reflexivity]).
    destruct T as (n & x & y & ->). cbn [bind set_height].
    unfold verify_height.
    destruct (accepted 3 v2).
    + destruct Hh as (h & ->). eexists. reflexivity.
    + rewrite Hh. eexists. split; reflexivity.
  - pose proof (Training_init_first
                  (fun a d w => Swimming a d w float_zero 0) v v0 v1) as T.
    pose proof (verify_float_accepted 3 msg_length_pool v2
                  (or_intror (or_intror eq_refl))) as Hl.
    pose proof (verify_int_accepted 4 msg_count_pool v3
                  (or_intror eq_refl)) as Hc.
    unfold Swimming_init.
    destruct (accepted 0 v), (accepted 1 v0), (accepted 2 v1);
      try (eexists; split; [reflexivity | rewrite T; reflexivity]).
    destruct T as (n & x & y & ->). cbn [bind set_length_pool].
    unfold verify_length_pool.
    destruct (accepted 3 v2).
    + destruct Hl as (l & ->). cbn [bind set_count_pool].
      unfold verify_count_pool.
      destruct (accepted 4 v3).
      * destruct Hc as (k & ->). eexists. reflexivity.
      * rewrite Hc. eexists. split; reflexivity.
    + rewrite Hl. eexists. split; reflexivity.
Qed.

Lemma new_first_rejected_witness :
  exists msg,
    nth_error (field_messages cSwimming) 3 = Some msg /\
    new cSwimming [VInt 720; VFloat f1_0; VFloat f80_0; VInt 25; VNone]
    = Raise (TypeError msg).
Proof.
  apply (new_first_rejected cSwimming
           [VInt 720; VFloat f1_0; VFloat f80_0; VInt 25; VNone] eq_refl).
Defined.

(** ** A NaN duration in the report *)

Lemma fmul_nan_l (x : float) : fmul S754_nan x = S754_nan.
Proof. destruct x; reflexivity. Qed.

Lemma fmul_nan_r (x : float) : fmul x S754_nan = S754_nan.
Proof. destruct x; reflexivity. Qed.

Lemma fdiv_nan_l (x : float) : fdiv S754_nan x = S754_nan.
Proof. destruct x; reflexivity. Qed.

Lemma fdiv_nan_r (x : float) : fdiv x S754_nan = S754_nan.
Proof. destruct x; reflexivity. Qed.

Lemma fadd_nan_l (x : float) : fadd S754_nan x = S754_nan.
Proof. destruct x; reflexivity. Qed.

Lemma float_mul_int_nan (n : Z) :
  fits_float n = true -> float_mul_int S754_nan n = Ok S754_nan.
Proof.
  intros Hf. destruct (float_of_int_fits _ Hf) as (y & Hy).
  unfold float_mul_int. rewrite Hy. unfold bind, float_mul.
  rewrite fmul_nan_l. reflexivity.
Qed.

(** X19: the validators let a NaN duration through, and the report then
    carries it: on a Running or a Swimming instance whose duration is NaN
    (the counts in the range of float) [main] raises nothing and returns a
    line whose duration, mean speed and calories all read [nan], beside the
    distance, which does not depend on the duration. *)
Theorem nan_duration_report (a : Z) (w l : float) (c : Z) :
  fits_float a = true ->
  (exists dist,
     get_distance (Running a S754_nan w) = Ok dist /\
     main (Running a S754_nan w)
     = Ok (template_line "Running" "nan" (format_float_3f dist) "nan" "nan")) /\
  (fits_float c = true ->
   exists dist,
     get_distance (Swimming a S754_nan w l c) = Ok dist /\
     main (Swimming a S754_nan w l c)
     = Ok (template_line "Swimming" "nan" (format_float_3f dist) "nan" "nan")).
Proof.
  intros Fa.
  assert (F18 : fits_float Running_CALORIES_MEAN_SPEED_MULTIPLIER = true)
    by (vm_compute; reflexivity).
  assert (F60 : fits_float MIN_IN_H = true) by (vm_compute; reflexivity).
  assert (F2 : fits_float Swimming_CALORIES_WEIGHT_MULTIPLIER = true)
    by (vm_compute; reflexivity).
  split.
  - destruct (proj2 (distance_outcomes_any (Running a S754_nan w)) Fa)
      as (dist & Hd).
    exists dist. split; [exact Hd|].
    destruct (proj2 (proj2 (land_mean_speed_cases (Running a S754_nan w)
                              eq_refl)) Fa eq_refl) as (s & Hs & Hms).
    cbn [duration] in Hms. rewrite fdiv_nan_r in Hms.
    assert (Hcal : get_spent_calories (Running a S754_nan w)
                   = Ok (VFloat S754_nan)).
    { unfold get_spent_calories. cbn [__class__ resolve mro find defines].
      unfold Running_get_spent_calories.
      change (Training_get_mean_speed (Running a S754_nan w))
        with (get_mean_speed (Running a S754_nan w)).
      rewrite Hms. cbn [bind]. unfold int_mul_float.
      destruct (float_of_int_fits _ F18) as (y & ->).
      cbn [bind float_mul float_add weight duration].
      rewrite fmul_nan_r, fadd_nan_l, fmul_nan_l, float_div_int_M_IN_KM.
      cbn [bind]. rewrite fdiv_nan_l, fmul_nan_l.
      rewrite (float_mul_int_nan _ F60). reflexivity. }
    apply (main_unfold _ dist S754_nan S754_nan Hd Hms Hcal).
  - intros Fc.
    destruct (proj2 (distance_outcomes_any (Swimming a S754_nan w l c)) Fa)
      as (dist & Hd).
    exists dist. split; [exact Hd|].
    destruct (float_of_int_fits _ Fc) as (x & Hx).
    pose proof (proj2 (proj2 (swimming_mean_speed_cases a S754_nan w l c))
                  x Hx eq_refl) as Hms.
    rewrite fdiv_nan_r in Hms.
    assert (Hcal : get_spent_calories (Swimming a S754_nan w l c)
                   = Ok (VFloat S754_nan)).
    { unfold get_spent_calories. cbn [__class__ resolve mro find defines].
      unfold Swimming_get_spent_calories.
      rewrite Hms. cbn [bind float_add]. rewrite fadd_nan_l.
      rewrite (float_mul_int_nan _ F2).
      cbn [bind float_mul weight duration].
      rewrite !fmul_nan_l. reflexivity. }
    apply (main_unfold _ dist S754_nan S754_nan Hd Hms Hcal).
Qed.

End Platform.

(** * Closed statements

    The counterexamples and the instances below have no parameter.  Where
    one mentions a method that depends on the platform, it either holds for
    every [pow], and says so, or is taken at [pow_rounded_square]. *)

(** The third line that the script prints, where [pow] rounds the square
    of the walking speed correctly. *)
Example main_WLK :
  run_main pow_rounded_square "WLK" package_WLK
  = Ok "Тип тренировки: SportsWalking; Длительность: 1.000 ч.; Дистанция: 5.850 км; Ср. скорость: 5.850 км/ч; Потрачено ккал: 349.252.".
Proof. vm_compute. reflexivity. Qed.

Lemma walking_zero_height_witness :
  get_spent_calories pow_rounded_square
    (SportsWalking 9000 f1_0 f75_0 float_zero)
  = Raise ZeroDivisionError.
Proof.
  apply (proj2 (proj2 (walking_zero_height pow_rounded_square
                         9000 f1_0 f75_0 float_zero eq_refl))
           (literal 585 2)
           (S754_finite false 5955676542767114 (-51)));
    vm_compute; reflexivity.
Defined.

(** C1, as stated, fails: the calories of the RUN package are not within
    0.1 of 698.46, whatever the platform's [pow]. *)
Lemma C1_calories_not_698_46 :
  ~ exists pow, scenario_RUN pow (69846 # 100) (1 # 10).
Proof. intros (pow & H). exact (scenario_RUN_not_698_46 pow H). Qed.

(** C2, as stated, fails: the distance of the SWM package is not 1.0 km,
    not even to within a thousandth, whatever the platform's [pow]. *)
Lemma C2_distance_not_1_0 : ~ exists pow, scenario_SWM pow 1 (1 # 1000).
Proof. intros (pow & H). exact (scenario_SWM_not_1_0 pow H). Qed.

(** C4, as stated, fails: [Training(100, 1.0, 75.0)] is constructed, and
    [get_spent_calories] on it returns [None] without raising; the method is
    not abstract on any platform. *)
Lemma C4_base_call_returns_None :
  ~ exists pow, spec_abstract_get_spent_calories pow.
Proof. intros (pow & H). exact (get_spent_calories_not_abstract pow H). Qed.

Lemma C4_spent_calories_default_witness :
  get_spent_calories pow_rounded_square (TrainingObj 100 f1_0 f75_0) = Ok VNone
  /\ main pow_rounded_square (TrainingObj 100 f1_0 f75_0)
     = Raise (TypeError msg_format_none).
Proof.
  destruct (C4_spent_calories_default pow_rounded_square)
    as (Hnew & Hcal & _ & Hmain).
  split.
  - exact (Hcal _ _ Hnew).
  - apply (proj2 (Hmain _ _ Hnew)
             (literal 65 3) (literal 65 3)); vm_compute; reflexivity.
Defined.

Lemma C10_zero_duration_witness :
  get_mean_speed (Running 15000 float_zero f75_0) = Raise ZeroDivisionError /\
  get_spent_calories pow_rounded_square
    (SportsWalking 15000 float_zero f75_0 f180_0)
    = Raise ZeroDivisionError /\
  new cSwimming [VInt 15000; VFloat float_zero; VFloat f75_0; VFloat f25_0;
                 VInt 40]
    = Ok (Swimming 15000 float_zero f75_0 f25_0 40).
Proof.
  assert (H : 0 <= 15000 /\ 0 <= 40) by lia.
  destruct (C10_zero_duration pow_rounded_square 15000 f75_0 f180_0 f25_0 40
              (proj1 H) eq_refl eq_refl eq_refl (proj2 H) eq_refl eq_refl)
    as ((_ & Hr & _) & (_ & _ & Hw) & (Hs & _)).
  exact (conj Hr (conj Hw Hs)).
Defined.

Lemma C7_walking_calories_witness :
  get_spent_calories pow_rounded_square (SportsWalking 9000 f1_0 f75_0 f180_0)
    = (mean_speed <- get_mean_speed (SportsWalking 9000 f1_0 f75_0 f180_0) ;;
       kcal <- spec_walking_calories pow_rounded_square
                 mean_speed f75_0 f180_0 f1_0 ;;
       Ok (VFloat kcal)).
Proof.
  apply (C7_walking_calories pow_rounded_square 9000 f1_0 f75_0 f180_0).
  - exists package_WLK. reflexivity.
  - reflexivity.
  - reflexivity.
Defined.

Lemma main_outcomes_witness :
  arithmetic_only (main pow_rounded_square (Running 15000 float_zero f75_0)).
Proof.
  apply (proj1 (main_outcomes pow_rounded_square
                  (Running 15000 float_zero f75_0) ltac:(discriminate))).
Defined.

Lemma run_main_outcomes_witness :
  ZeroDivisionError = KeyError msg_unexpected \/ ZeroDivisionError = ArityError
  \/ (exists c msg, lookup "RUN" dict_for_classes = Some c
                    /\ ZeroDivisionError = TypeError msg
                    /\ In msg (field_messages c))
  \/ ZeroDivisionError = OverflowError
  \/ ZeroDivisionError = ZeroDivisionError.
Proof.
  apply (run_main_outcomes pow_rounded_square "RUN"
           [VInt 15000; VFloat float_zero; VFloat f75_0]).
  reflexivity.
Defined.

Lemma nan_duration_report_witness :
  exists dist,
    get_distance (Running 15000 S754_nan f75_0) = Ok dist /\
    main pow_rounded_square (Running 15000 S754_nan f75_0)
    = Ok (template_line "Running" "nan" (format_float_3f dist) "nan" "nan").
Proof.
  apply (proj1 (nan_duration_report pow_rounded_square
                  15000 f75_0 f25_0 40 eq_refl)).
Defined.
